(** * poster-downloader-bot: a model of [telegram_bot.py] and [entry.py]

    The development follows the two source modules:
    - [Py]          the fragment of Python values and control the code uses;
    - [Workers]     the runtime the code runs in: [fetch], the KV namespace;
    - [TelegramBot] the protocol client and the dispatcher of
                    [src/telegram_bot.py];
    - [Heap]        [_fix_reply_markup] once more, over an object store,
                    for the question of which objects it writes to;
    - [Entry]       the callback handlers of [src/entry.py];
    - [Scenario]    one session, to run the definitions on.
    The properties follow the definitions, grouped by the component they
    are about.

    Conventions.  A Python [str] is a Rocq [string], one [ascii] per
    character.  A Python [dict] with string keys is a [gmap string _]:
    equality of maps is Python's [==] on dicts, which ignores insertion
    order.  Python integers are unbounded, hence [Z].  An exception is one
    derived from [Exception], which is what [except Exception] catches. *)

From stdpp Require Import gmap strings list fin_maps pretty sorting.
From Stdlib Require Import ZArith Ascii.

#[local] Set Warnings "-register-all".
#[local] Open Scope Z_scope.

(* ===================================================================== *)
(** * Python values, truth and exceptions                                 *)
(* ===================================================================== *)
Module Py.

(** The values [json.loads] produces and [json.dumps] accepts.  Numbers are
    integers: chat ids, message ids and counts; a fraction in a cached
    record (a rating) is only ever printed, and is not represented. *)
Inductive JSON : Type :=
| JNull
| JBool (b : bool)
| JInt (z : Z)
| JStr (s : string)
| JList (l : list JSON)
| JDict (d : gmap string JSON).

(** Python's truth test ([if v], [not v], [a or b]) on such values. *)
Definition truthy (v : JSON) : bool :=
  match v with
  | JNull => false
  | JBool b => b
  | JInt z => negb (z =? 0)
  | JStr s => negb (String.eqb s "")
  | JList l => match l with [] => false | _ => true end
  | JDict d => negb (bool_decide (d = ∅))
  end.

(** [v is None] *)
Definition is_None (v : JSON) : bool :=
  match v with JNull => true | _ => false end.

(** Exceptions derived from [Exception]: the class name and [str(e)]. *)
Record PyExc : Type := mkExc { exc_class : string; exc_msg : string }.

Inductive Outcome (A : Type) : Type :=
| Returned (a : A)
| Raised (e : PyExc).
#[global] Arguments Returned {A} a.
#[global] Arguments Raised {A} e.

(** [d.pop(k, None)]: the value (or [None]) and the dict without [k]. *)
Definition pop (k : string) (d : gmap string JSON) : JSON * gmap string JSON :=
  (default JNull (d !! k), delete k d).

(** ** Effects

    An [async] function is a state transformer that either returns or
    raises; [await] is sequencing.  [W] is the state of the world the
    function runs in. *)
Definition M (W A : Type) : Type := W → Outcome A * W.

Definition ret {W A} (a : A) : M W A := λ w, (Returned a, w).
Definition raise {W A} (e : PyExc) : M W A := λ w, (Raised e, w).
Definition bind {W A B} (c : M W A) (k : A → M W B) : M W B :=
  λ w, match c w with
       | (Returned a, w') => k a w'
       | (Raised e, w') => (Raised e, w')
       end.

(** [try: body except Exception as e: handler(e)] *)
Definition try_except {W A} (body : M W A) (handler : PyExc → M W A) : M W A :=
  λ w, match body w with
       | (Returned a, w') => (Returned a, w')
       | (Raised e, w') => handler e w'
       end.

(** A pure computation that may raise. *)
Definition lift {W A} (o : Outcome A) : M W A := λ w, (o, w).

#[global] Instance M_ret {W} : MRet (M W) := @ret W.
#[global] Instance M_bind {W} : MBind (M W) := λ A B k c, bind c k.

(** [for x in xs: await body(x)] *)
Fixpoint for_each {W A} (xs : list A) (body : A → M W unit) : M W unit :=
  match xs with
  | [] => ret tt
  | x :: xs' => bind (body x) (λ _, for_each xs' body)
  end.

(** ** Library functions

    [json.loads], [int], [str] (as used by f-strings on a value),
    [str.upper] and [str.capitalize] are taken from the runtime. *)
Class Runtime : Type := {
  json_loads : string → Outcome JSON;
  int_ : string → Outcome Z;
  str_ : JSON → string;
  upper : string → string;
  capitalize : string → string
}.

Definition AttributeError (msg : string) : PyExc := mkExc "AttributeError" msg.
Definition TypeError (msg : string) : PyExc := mkExc "TypeError" msg.
Definition ValueError (msg : string) : PyExc := mkExc "ValueError" msg.
Definition IndexError (msg : string) : PyExc := mkExc "IndexError" msg.
Definition KeyError (msg : string) : PyExc := mkExc "KeyError" msg.

(** ** Operations on values, with the exceptions Python raises *)

(** [type(v).__name__], as the messages of the exceptions spell it. *)
Definition type_name (v : JSON) : string :=
  match v with
  | JNull => "NoneType"
  | JBool _ => "bool"
  | JInt _ => "int"
  | JStr _ => "str"
  | JList _ => "list"
  | JDict _ => "dict"
  end.

(** ['<type>' object has no attribute '<name>'] *)
Definition no_attribute (v : JSON) (name : string) : PyExc :=
  AttributeError
    ("'" +:+ type_name v +:+ "' object has no attribute '" +:+ name +:+ "'").

(** ['<type>' object is not subscriptable] *)
Definition not_subscriptable (v : JSON) : PyExc :=
  TypeError ("'" +:+ type_name v +:+ "' object is not subscriptable").

(** [KeyError(k)] for a text key; [str(e)] is [repr(k)], the key between
    single quotes (for a key without quotes, backslashes or control
    characters). *)
Definition missing_key (k : string) : PyExc := KeyError ("'" +:+ k +:+ "'").

(** A [str] is a sequence of code points; the texts here are their UTF-8
    bytes.  A byte [10xxxxxx] continues the code point of the byte before
    it. *)
Definition is_continuation (c : ascii) : bool :=
  let n := nat_of_ascii c in ((128 <=? n) && (n <? 192))%nat.

(** The code points of a text, each as the text of its bytes. *)
Fixpoint code_points (s : string) : list string :=
  match s with
  | EmptyString => []
  | String c s' =>
      match s' with
      | String c' _ =>
          if is_continuation c' then
            match code_points s' with
            | p :: ps => String c p :: ps
            | [] => [String c EmptyString]
            end
          else String c EmptyString :: code_points s'
      | EmptyString => [String c EmptyString]
      end
  end.

(** [''.join(ps)] *)
Definition join (ps : list string) : string := foldr String.append EmptyString ps.

(** [len(s)] for a text. *)
Definition str_len (s : string) : nat := length (code_points s).

(** [v.get(k, dflt)]: only dicts have [get]. *)
Definition py_get (v : JSON) (k : string) (dflt : JSON) : Outcome JSON :=
  match v with
  | JDict d => Returned (default dflt (d !! k))
  | _ => Raised (no_attribute v "get")
  end.

(** [v.keys()] *)
Definition py_keys (v : JSON) : Outcome (list string) :=
  match v with
  | JDict d => Returned (map_to_list d).*1
  | _ => Raised (no_attribute v "keys")
  end.

(** [v[k]] for a string key. *)
Definition py_item (v : JSON) (k : string) : Outcome JSON :=
  match v with
  | JDict d =>
      match d !! k with
      | Some x => Returned x
      | None => Raised (missing_key k)
      end
  | JList _ => Raised (TypeError "list indices must be integers or slices, not str")
  | JStr _ => Raised (TypeError "string indices must be integers, not 'str'")
  | _ => Raised (not_subscriptable v)
  end.

(** [len(v)] *)
Definition len (v : JSON) : Outcome Z :=
  match v with
  | JList l => Returned (Z.of_nat (length l))
  | JStr s => Returned (Z.of_nat (str_len s))
  | JDict d => Returned (Z.of_nat (size d))
  | _ => Raised (TypeError
                   ("object of type '" +:+ type_name v +:+ "' has no len()"))
  end.

(** [v[i]] for an integer [i]; a negative [i] counts from the end. *)
Definition py_index (v : JSON) (i : Z) : Outcome JSON :=
  match v with
  | JList l =>
      let j := if i <? 0 then i + Z.of_nat (length l) else i in
      if j <? 0 then Raised (IndexError "list index out of range")
      else match l !! Z.to_nat j with
           | Some x => Returned x
           | None => Raised (IndexError "list index out of range")
           end
  | JStr s =>
      let j := if i <? 0 then i + Z.of_nat (str_len s) else i in
      if j <? 0 then Raised (IndexError "string index out of range")
      else match code_points s !! Z.to_nat j with
           | Some c => Returned (JStr c)
           | None => Raised (IndexError "string index out of range")
           end
  | JDict _ => Raised (KeyError (pretty i))
  | _ => Raised (not_subscriptable v)
  end.

(** [v[:n]] for [n ≥ 0].  Lists and texts can be sliced, a text by code
    points.  A dict is asked for the key [slice(None, n, None)], which it
    does not have (slices are hashable from Python 3.12 on, the version
    of the Workers runtime); the other values are not subscriptable. *)
Definition py_prefix (v : JSON) (n : nat) : Outcome JSON :=
  match v with
  | JStr s => Returned (JStr (join (take n (code_points s))))
  | JList l => Returned (JList (take n l))
  | JDict _ => Raised (KeyError ("slice(None, " +:+ pretty n +:+ ", None)"))
  | _ => Raised (not_subscriptable v)
  end.

(** [s.split(sep)] for a one-character separator. *)
Fixpoint split (sep : Ascii.ascii) (s : string) : list string :=
  match s with
  | EmptyString => [EmptyString]
  | String c s' =>
      if Ascii.eqb c sep then EmptyString :: split sep s'
      else match split sep s' with
           | p :: ps => String c p :: ps
           | [] => [String c EmptyString]
           end
  end.

(** [parts[i]] on a list of strings, [i ≥ 0]. *)
Definition item (parts : list string) (i : nat) : Outcome string :=
  match parts !! i with
  | Some p => Returned p
  | None => Raised (IndexError "list index out of range")
  end.

(** [parts[-1]] *)
Definition last_item (parts : list string) : Outcome string :=
  match last parts with
  | Some p => Returned p
  | None => Raised (IndexError "list index out of range")
  end.

(** [sorted(keys)] on strings. *)
Definition sorted (keys : list string) : list string :=
  merge_sort (λ a b, Is_true (String.leb a b)) keys.

(** A loop whose body may raise, collecting one result per element. *)
Fixpoint traverse {A B} (f : A → Outcome B) (xs : list A) : Outcome (list B) :=
  match xs with
  | [] => Returned []
  | x :: xs' =>
      match f x with
      | Raised e => Raised e
      | Returned y =>
          match traverse f xs' with
          | Raised e => Raised e
          | Returned ys => Returned (y :: ys)
          end
      end
  end.

Definition nl : string := String (Ascii.ascii_of_nat 10) EmptyString.

End Py.
Import Py.

(* ===================================================================== *)
(** * The Workers runtime: [fetch] and the KV namespace                   *)
(* ===================================================================== *)
Module Workers.

(** Text produced by [json.dumps(v)] or by [str(v)], kept as the value it
    was produced from. *)
Inductive Text : Type :=
| Dumps (v : JSON)
| Str (v : JSON).

(** The body handed to [fetch]: the JSON text of a payload, or the
    multipart body of [_build_multipart], kept by its parts (their byte
    order follows dict insertion order, which maps do not record). *)
Inductive Body : Type :=
| JsonBody (payload : JSON)
| MultipartBody (boundary : string) (fields : gmap string Text)
    (file_field_name : string) (filename : JSON) (file_bytes : string)
    (content_type : JSON).

Record Request : Type := mkRequest {
  req_url : string;
  req_method : string;
  req_content_type : string;
  req_body : Body
}.

(** What [fetch] hands back: [resp.json()] parses the body or raises. *)
Record Response : Type := mkResponse {
  status : Z;
  json : Outcome JSON
}.

(** The world of one delivery: the KV namespace [env.BOT_STATE], the
    network seen as a function of the requests made so far (the last one
    being the current request), the requests made, and the tokens
    [secrets.token_hex] will draw. *)
Record World : Type := mkWorld {
  BOT_STATE : gmap string string;
  net : list Request → Outcome Response;
  sent : list Request;
  token_hex : list string
}.

(** The world after one [fetch] of [req]. *)
Definition after_request (w : World) (req : Request) : World :=
  {| BOT_STATE := BOT_STATE w; net := net w; sent := sent w ++ [req];
     token_hex := token_hex w |}.

Definition fetch (req : Request) : M World Response :=
  λ w, (net w (sent w ++ [req]), after_request w req).

(** [secrets.token_hex(16)] *)
Definition draw_token : M World string :=
  λ w, (Returned (hd "" (token_hex w)),
        {| BOT_STATE := BOT_STATE w; net := net w; sent := sent w;
           token_hex := tl (token_hex w) |}).

(** [await env.BOT_STATE.get(key)]: the stored text, or [None].  The
    lookup itself always answers. *)
Definition kv_get (key : string) : M World (option string) :=
  λ w, (Returned (BOT_STATE w !! key), w).

End Workers.
Import Workers.

(* ===================================================================== *)
(** * telegram_bot.py                                                     *)
(* ===================================================================== *)
Module TelegramBot.

(** An inline-keyboard button is a dict: a label under ["text"], the
    navigation token under ["callback_data"], and whatever else the caller
    put there. *)
Abbreviation Button := (gmap string JSON).

(** Keyboard markup: a dict whose ["inline_keyboard"] entry, when present,
    is a list of rows of buttons.  [other_fields] holds the remaining
    entries of the dict. *)
Record ReplyMarkup : Type := mkMarkup {
  inline_keyboard : option (list (list Button));
  other_fields : gmap string JSON
}.

(** [not reply_markup] for a dict: it has no entry at all. *)
Definition markup_falsy (m : ReplyMarkup) : bool :=
  match inline_keyboard m with
  | None => bool_decide (other_fields m = ∅)
  | Some _ => false
  end.

(** Lines 138-142: the copy of one button after the two [pop]s.
[[
    btn_copy = dict(btn)
    cb = btn_copy.pop("callbackData", None) or btn_copy.pop("callback", None)
    if cb is not None:
        btn_copy["callback_data"] = cb
]]
    The second [pop] runs only when the first value is falsy. *)
Definition fix_button (btn : Button) : Button :=
  let '(v1, c1) := pop "callbackData" btn in
  let '(cb, c2) := if truthy v1 then (v1, c1) else pop "callback" c1 in
  if is_None cb then c2 else <["callback_data" := cb]> c2.

(** [TelegramBot._fix_reply_markup] (lines 130-145), on values. *)
Definition _fix_reply_markup (reply_markup : option ReplyMarkup)
  : option ReplyMarkup :=
  match reply_markup with
  | None => None
  | Some m =>
      if markup_falsy m then Some m
      else match inline_keyboard m with
           | None => Some m
           | Some rows =>
               Some {| inline_keyboard := Some (map (map fix_button) rows);
                       other_fields := other_fields m |}
           end
  end.

(** A button that carries a truthy ["callbackData"] together with a
    ["callback"] entry: the only buttons whose second alias survives one
    pass. *)
Definition both_aliases (btn : Button) : bool :=
  truthy (default JNull (btn !! "callbackData"))
  && bool_decide (is_Some (btn !! "callback")).

(** A button without alias entries. *)
Definition canonical_button (btn : Button) : bool :=
  bool_decide (btn !! "callbackData" = None)
  && bool_decide (btn !! "callback" = None).

Definition rows_of (reply_markup : option ReplyMarkup) : list (list Button) :=
  match reply_markup with
  | Some m => default [] (inline_keyboard m)
  | None => []
  end.

Definition all_buttons (P : Button → bool) (rm : option ReplyMarkup) : bool :=
  forallb (forallb P) (rows_of rm).

(** ** Payloads and options

    The dicts passed as [options] and built as [payload]: the entry
    ["reply_markup"] (absent, [None], or a markup) and all other entries. *)
Record Params : Type := mkParams {
  reply_markup : option (option ReplyMarkup);
  items : gmap string JSON
}.

Definition no_params : Params := {| reply_markup := None; items := ∅ |}.

(** [if options:] on an optional dict. *)
Definition params_truthy (options : option Params) : bool :=
  match options with
  | None => false
  | Some o =>
      match reply_markup o with
      | Some _ => true
      | None => negb (bool_decide (items o = ∅))
      end
  end.

(** [options or {}] *)
Definition or_empty (options : option Params) : Params :=
  match options with
  | Some o => if params_truthy options then o else no_params
  | None => no_params
  end.

(** [{**base, **opts}] and [base.update(opts)]: entries of [opts] win. *)
Definition update (base opts : Params) : Params :=
  {| reply_markup := match reply_markup opts with
                     | Some v => Some v
                     | None => reply_markup base
                     end;
     items := items opts ∪ items base |}.

Definition markup_to_json (m : ReplyMarkup) : JSON :=
  JDict match inline_keyboard m with
        | Some rows =>
            <["inline_keyboard" := JList (map (λ row, JList (map JDict row)) rows)]>
              (other_fields m)
        | None => other_fields m
        end.

(** The payload as the one JSON object that [json.dumps] receives. *)
Definition payload_json (p : Params) : JSON :=
  JDict match reply_markup p with
        | Some (Some m) => <["reply_markup" := markup_to_json m]> (items p)
        | Some None => <["reply_markup" := JNull]> (items p)
        | None => items p
        end.

(** ** The client *)
Record TelegramBot : Type := mkBot { token : string }.

Definition api_url (self : TelegramBot) : string :=
  "https://api.telegram.org/bot" +:+ token self.

(** [{"ok": False, "description": str(e)}] (line 124). *)
Definition error_result (e : PyExc) : JSON :=
  JDict (<["ok" := JBool false]> (<["description" := JStr (exc_msg e)]> ∅)).

(** The request [_api_call] hands to [fetch]. *)
Definition api_request (self : TelegramBot) (method content_type : string)
    (body : Body) : Request :=
  {| req_url := api_url self +:+ "/" +:+ method; req_method := "POST";
     req_content_type := content_type; req_body := body |}.

(** [_api_call] (lines 117-124). *)
Definition _api_call (self : TelegramBot) (method content_type : string)
    (body : Body) : M World JSON :=
  try_except
    (resp ← fetch (api_request self method content_type body);
     lift (json resp))
    (λ e, mret (error_result e)).

(** What [_api_call] returns, by the behaviour of the network. *)
Definition api_result (reply : Outcome Response) : JSON :=
  match reply with
  | Raised e => error_result e
  | Returned resp =>
      match json resp with
      | Raised e => error_result e
      | Returned j => j
      end
  end.

(** [_post_json] (lines 126-128). *)
Definition _post_json (self : TelegramBot) (method : string) (payload : Params)
  : M World JSON :=
  _api_call self method "application/json" (JsonBody (payload_json payload)).

(** The five lines shared by [_send_file] (185-189), [send_message]
    (213-217) and [edit_message_text] (222-226):
[[
    if options:
        opts = dict(options)
        if "reply_markup" in opts:
            payload["reply_markup"] = self._fix_reply_markup(opts.pop("reply_markup"))
        payload.update(opts)
]] *)
Definition with_options (payload : Params) (options : option Params) : Params :=
  if params_truthy options then
    let opts := or_empty options in
    match reply_markup opts with
    | Some rm =>
        update {| reply_markup := Some (_fix_reply_markup rm);
                  items := items payload |}
               {| reply_markup := None; items := items opts |}
    | None => update payload opts
    end
  else payload.

(** [send_message] (lines 211-218). *)
Definition send_message (self : TelegramBot) (chat_id : JSON) (text : string)
    (options : option Params) : M World JSON :=
  let payload := {| reply_markup := None;
                    items := <["text" := JStr text]> (<["chat_id" := chat_id]> ∅) |} in
  _post_json self "sendMessage" (with_options payload options).

(** [edit_message_text] (lines 220-227). *)
Definition edit_message_text (self : TelegramBot) (text : string)
    (options : option Params) : M World JSON :=
  let payload := {| reply_markup := None; items := <["text" := JStr text]> ∅ |} in
  _post_json self "editMessageText" (with_options payload options).

(** [answer_callback_query] (lines 232-233). *)
Definition answer_callback_query (self : TelegramBot) (callback_query_id : string)
    (options : option Params) : M World JSON :=
  _post_json self "answerCallbackQuery"
    (update {| reply_markup := None;
               items := <["callback_query_id" := JStr callback_query_id]> ∅ |}
            (or_empty options)).

(** [send_poll] (lines 271-276). *)
Definition send_poll (self : TelegramBot) (chat_id : JSON) (question : string)
    (poll_options : list string) (options : option Params) : M World JSON :=
  let payload := {| reply_markup := None;
                    items := <["options" := JList (JStr <$> poll_options)]>
                               (<["question" := JStr question]>
                                  (<["chat_id" := chat_id]> ∅)) |} in
  _post_json self "sendPoll"
    (if params_truthy options then update payload (or_empty options) else payload).

(** The file argument of [_send_file]: raw bytes, or a URL / file id. *)
Inductive FileData : Type :=
| FileBytes (b : string)
| FileRef (s : string).

(** [json.dumps(v) if isinstance(v, dict) else str(v)] *)
Definition field_text (v : JSON) : Text :=
  match v with
  | JDict _ => Dumps v
  | _ => Str v
  end.

(** The [fields] dict of the multipart branch (lines 172-176). *)
Definition multipart_fields (chat_id : JSON) (opts : Params) : gmap string Text :=
  let scalar :=
    field_text <$>
      filter (λ kv, kv.1 ≠ "filename" ∧ kv.1 ≠ "content_type") (items opts) in
  let from_opts :=
    match reply_markup opts with
    | Some (Some m) => <["reply_markup" := Dumps (markup_to_json m)]> scalar
    | Some None => <["reply_markup" := Str JNull]> scalar
    | None => scalar
    end in
  from_opts ∪ {["chat_id" := Str chat_id]}.

(** [_build_multipart] (lines 147-167): the body and its content type. *)
Definition _build_multipart (fields : gmap string Text)
    (file_field_name : string) (filename : JSON) (file_bytes : string)
    (content_type : JSON) : M World (Body * string) :=
  tok ← draw_token;
  let boundary := "----BotBoundary" +:+ tok in
  mret (MultipartBody boundary fields file_field_name filename file_bytes
          content_type,
        "multipart/form-data; boundary=" +:+ boundary).

(** [_send_file] (lines 169-190). *)
Definition _send_file (self : TelegramBot) (method file_field : string)
    (chat_id : JSON) (file_data : FileData)
    (default_filename default_mimetype : string) (options : option Params)
  : M World JSON :=
  match file_data with
  | FileBytes b =>
      let opts := or_empty options in
      let fields := multipart_fields chat_id opts in
      let filename := default (JStr default_filename) (items opts !! "filename") in
      let content_type :=
        default (JStr default_mimetype) (items opts !! "content_type") in
      '(body, ctype) ← _build_multipart fields file_field filename b content_type;
      _api_call self method ctype body
  | FileRef r =>
      let payload := {| reply_markup := None;
                        items := <[file_field := JStr r]> (<["chat_id" := chat_id]> ∅) |} in
      _post_json self method (with_options payload options)
  end.

(** [send_photo] (lines 256-257). *)
Definition send_photo (self : TelegramBot) (chat_id : JSON) (photo : FileData)
    (options : option Params) : M World JSON :=
  _send_file self "sendPhoto" "photo" chat_id photo "photo.jpg" "image/jpeg" options.

(** The names the class [TelegramBot] defines (lines 99-283).  A call
    [bot.name(...)] on a name outside this list raises [AttributeError]. *)
Definition method_names : list string :=
  [ "handle_update"; "_api_call"; "_post_json"; "_fix_reply_markup";
    "_build_multipart"; "_send_file"; "set_webhook"; "delete_webhook";
    "set_my_commands"; "delete_my_commands"; "send_message";
    "edit_message_text"; "delete_message"; "answer_callback_query";
    "send_chat_action"; "get_file"; "download_file"; "send_photo";
    "send_video"; "send_document"; "send_audio"; "send_voice"; "send_poll";
    "ban_chat_member" ].

(** ** The dispatcher (lines 66-93)

    [B] is the type of the bot object handed to the handlers, [W] the
    world they run in. *)
Record Dispatcher (W B : Type) : Type := mkDispatcher {
  message_handlers : list (B → JSON → M W unit);
  callback_query_handlers : list (B → JSON → M W unit)
}.
#[global] Arguments message_handlers {W B} _.
#[global] Arguments callback_query_handlers {W B} _.

(** ['k' in update and update['k']] *)
Definition carries (update : gmap string JSON) (k : string) : option JSON :=
  match update !! k with
  | Some v => if truthy v then Some v else None
  | None => None
  end.

(** [route_update] (lines 86-93). *)
Definition route_update {W B} (self : Dispatcher W B) (bot : B)
    (update : gmap string JSON) : M W unit :=
  match carries update "message" with
  | Some msg => for_each (message_handlers self) (λ handler, handler bot msg)
  | None =>
      match carries update "callback_query" with
      | Some cb =>
          for_each (callback_query_handlers self) (λ handler, handler bot cb)
      | None => mret tt
      end
  end.

(** ** Observing the handlers

    To speak about which handlers a dispatch invokes, each handler is
    wrapped so that it records its list, its position in the list and the
    payload it was called with.  The record is kept beside the world and
    the handlers do not see it. *)
Inductive Kind : Type := OnMessage | OnCallbackQuery.

Definition traced {W B} (kind : Kind) (i : nat) (handler : B → JSON → M W unit)
  : B → JSON → M (W * list (Kind * nat * JSON)) unit :=
  λ bot payload st,
    let '(r, w') := handler bot payload st.1 in
    (r, (w', st.2 ++ [(kind, i, payload)])).

Definition traced_dispatcher {W B} (self : Dispatcher W B)
  : Dispatcher (W * list (Kind * nat * JSON)) B :=
  {| message_handlers := imap (traced OnMessage) (message_handlers self);
     callback_query_handlers :=
       imap (traced OnCallbackQuery) (callback_query_handlers self) |}.

(** The record of [n] handlers of one list called in order with [payload],
    the first of them at position [from]. *)
Definition invocations (kind : Kind) (payload : JSON) (from n : nat)
  : list (Kind * nat * JSON) :=
  (λ i, (kind, i, payload)) <$> seq from n.

(** The same wrapping, recording also how each call ended: with a return
    or with the exception it raised. *)
Definition observed {W B} (kind : Kind) (i : nat) (handler : B → JSON → M W unit)
  : B → JSON → M (W * list (Kind * nat * JSON * Outcome unit)) unit :=
  λ bot payload st,
    let '(r, w') := handler bot payload st.1 in
    (r, (w', st.2 ++ [(kind, i, payload, r)])).

Definition observed_dispatcher {W B} (self : Dispatcher W B)
  : Dispatcher (W * list (Kind * nat * JSON * Outcome unit)) B :=
  {| message_handlers := imap (observed OnMessage) (message_handlers self);
     callback_query_handlers :=
       imap (observed OnCallbackQuery) (callback_query_handlers self) |}.

End TelegramBot.

(* ===================================================================== *)
(** * [_fix_reply_markup] over an object store                            *)
(* ===================================================================== *)
(** Dicts and lists are objects with an identity; a variable holds a
    reference.  This module runs lines 130-145 statement by statement on a
    store, so that "which objects are written" is a question about the
    final store.  The argument is [None] or a dict, rows are lists and
    buttons are dicts, as [Optional[JSON]] and the keyboard layout say;
    where the store holds another kind of object the run raises. *)
Module Heap.

Abbreviation loc := positive.

Inductive Val : Type :=
| VNone
| VBool (b : bool)
| VInt (z : Z)
| VStr (s : string)
| VRef (l : loc).

Inductive Obj : Type :=
| ODict (d : gmap string Val)
| OList (l : list Val).

Abbreviation Store := (gmap loc Obj).

(** [dict(x)], [[]]: a new object at an address not in use. *)
Definition alloc (o : Obj) : M Store loc :=
  λ h, let l := fresh (dom h) in (Returned l, <[l := o]> h).

Definition read (l : loc) : M Store Obj :=
  λ h, match h !! l with
       | Some o => (Returned o, h)
       | None => (Raised (TypeError "dangling reference"), h)
       end.

Definition write (l : loc) (o : Obj) : M Store unit :=
  λ h, (Returned tt, <[l := o]> h).

Definition read_dict (v : Val) : M Store (gmap string Val) :=
  match v with
  | VRef l =>
      o ← read l;
      match o with
      | ODict d => mret d
      | OList _ => raise (TypeError "not a dict")
      end
  | _ => raise (TypeError "not a dict")
  end.

Definition read_list (v : Val) : M Store (list Val) :=
  match v with
  | VRef l =>
      o ← read l;
      match o with
      | OList xs => mret xs
      | ODict _ => raise (TypeError "not a list")
      end
  | _ => raise (TypeError "not a list")
  end.

(** Python's truth test; a container is looked up in the store. *)
Definition truthy (v : Val) : M Store bool :=
  match v with
  | VNone => mret false
  | VBool b => mret b
  | VInt z => mret (negb (z =? 0))
  | VStr s => mret (negb (String.eqb s ""))
  | VRef l =>
      o ← read l;
      mret match o with
           | ODict d => negb (bool_decide (d = ∅))
           | OList xs => match xs with [] => false | _ => true end
           end
  end.

(** [d.pop(k, None)] on the dict object at [l]. *)
Definition dict_pop (l : loc) (k : string) : M Store Val :=
  d ← read_dict (VRef l);
  write l (ODict (delete k d));;
  mret (default VNone (d !! k)).

(** [d[k] = v] on the dict object at [l]. *)
Definition dict_set (l : loc) (k : string) (v : Val) : M Store unit :=
  d ← read_dict (VRef l);
  write l (ODict (<[k := v]> d)).

(** [xs.append(v)] on the list object at [l]. *)
Definition list_append (l : loc) (v : Val) : M Store unit :=
  xs ← read_list (VRef l);
  write l (OList (xs ++ [v])).

(** Lines 137-142, the body of the inner loop. *)
Definition fix_button (fixed_row : loc) (btn : Val) : M Store unit :=
  b ← read_dict btn;
  btn_copy ← alloc (ODict b);
  v1 ← dict_pop btn_copy "callbackData";
  cb ← bind (truthy v1)
         (λ t : bool, if t then mret v1 else dict_pop btn_copy "callback");
  match cb with
  | VNone => mret tt
  | _ => dict_set btn_copy "callback_data" cb
  end;;
  list_append fixed_row (VRef btn_copy).

(** Lines 135-143, the body of the outer loop. *)
Definition fix_row (fixed_kb : loc) (row : Val) : M Store unit :=
  fixed_row ← alloc (OList []);
  btns ← read_list row;
  for_each btns (fix_button fixed_row);;
  list_append fixed_kb (VRef fixed_row).

(** [_fix_reply_markup] (lines 130-145). *)
Definition _fix_reply_markup (reply_markup : Val) : M Store Val :=
  match reply_markup with
  | VNone => mret reply_markup
  | _ =>
      d ← read_dict reply_markup;
      if bool_decide (d = ∅) then mret reply_markup
      else match d !! "inline_keyboard" with
           | None => mret reply_markup
           | Some _ =>
               rm ← alloc (ODict d);
               fixed_kb ← alloc (OList []);
               d' ← read_dict (VRef rm);
               rows ← match d' !! "inline_keyboard" with
                      | Some kb => read_list kb
                      | None => raise (KeyError "inline_keyboard")
                      end;
               for_each rows (fix_row fixed_kb);;
               dict_set rm "inline_keyboard" (VRef fixed_kb);;
               mret (VRef rm)
           end
  end.

(** The store [h'] still holds every object of [h] as it was. *)
Definition unchanged (h h' : Store) : Prop :=
  ∀ l, l ∈ dom h → h' !! l = h !! l.

(** [keeps h0 c Q]: started in a store that still holds the objects of
    [h0] as they were, [c] ends in such a store, and a returned value
    satisfies [Q]. *)
Definition keeps {A} (h0 : Store) (c : M Store A) (Q : A → Prop) : Prop :=
  ∀ h r h', unchanged h0 h → c h = (r, h') →
    unchanged h0 h' ∧ ∀ a, r = Returned a → Q a.

(** A reference to an object that [h0] does not hold. *)
Definition fresh_button (h0 : Store) (v : Val) : Prop :=
  ∃ l, v = VRef l ∧ (l ∉ dom h0).

(** A reference to a list that [h0] does not hold, of such buttons. *)
Definition fresh_row (h0 h' : Store) (v : Val) : Prop :=
  ∃ l btns, v = VRef l ∧ (l ∉ dom h0) ∧ h' !! l = Some (OList btns)
            ∧ Forall (fresh_button h0) btns.

(** [v] is a dict that [h0] does not hold: the entries [d] with
    ["inline_keyboard"] replaced by a list of such rows. *)
Definition built_fresh (h0 h' : Store) (d : gmap string Val) (v : Val) : Prop :=
  ∃ rm kb rows,
    v = VRef rm ∧ (rm ∉ dom h0)
    ∧ h' !! rm = Some (ODict (<["inline_keyboard" := VRef kb]> d))
    ∧ (kb ∉ dom h0) ∧ h' !! kb = Some (OList rows)
    ∧ Forall (fresh_row h0 h') rows.

End Heap.

(* ===================================================================== *)
(** * entry.py                                                            *)
(* ===================================================================== *)
(** The handlers take [(bot, cb, env)]; [env] is the world, of which they
    use [env.BOT_STATE].  They are modelled as the functions they are:
    the dispatcher of [telegram_bot.py] calls a handler with two
    arguments (lines 90 and 93), so it is not what runs them here. *)
Module Entry.

Abbreviation Params := TelegramBot.Params.
Abbreviation Button := (gmap string JSON).

(** The callback event handed to the handlers: [cb['id']],
    [cb["message"]["chat"]["id"]], [cb["message"]["message_id"]] and the
    optional [cb["data"]].  The event comes from a button under a message
    of the bot, so the message reference is there. *)
Record CallbackQuery : Type := mkCallback {
  id : string;
  chat_id : Z;
  message_id : Z;
  data : option string
}.

(** The [bot] argument of the handlers, by the three methods they call on
    it. *)
Record Bot : Type := mkBot {
  answer_callback_query : string → option Params → M World JSON;
  edit_message_media : JSON → Params → M World JSON;
  edit_message_caption : string → Params → M World JSON
}.

(** The bot object [fetch] builds (line 264): an instance of the class
    [TelegramBot].  The class defines [answer_callback_query]; it defines
    neither [edit_message_media] nor [edit_message_caption], so calling
    them raises [AttributeError]. *)
Definition telegram_bot (self : TelegramBot.TelegramBot) : Bot :=
  {| answer_callback_query := TelegramBot.answer_callback_query self;
     edit_message_media := λ _ _,
       raise (AttributeError
                "'TelegramBot' object has no attribute 'edit_message_media'");
     edit_message_caption := λ _ _,
       raise (AttributeError
                "'TelegramBot' object has no attribute 'edit_message_caption'") |}.

(** [{"text": label, "callback_data": token}] *)
Definition button (label token : string) : Button :=
  <["text" := JStr label]> (<["callback_data" := JStr token]> ∅).

(** [{"inline_keyboard": buttons}] *)
Definition keyboard (buttons : list (list Button)) : TelegramBot.ReplyMarkup :=
  {| TelegramBot.inline_keyboard := Some buttons;
     TelegramBot.other_fields := ∅ |}.

(** [options={"text": text, "show_alert": True}] *)
Definition alert (text : string) : Params :=
  {| TelegramBot.reply_markup := None;
     TelegramBot.items := <["text" := JStr text]> (<["show_alert" := JBool true]> ∅) |}.

(** [options={"text": text}] *)
Definition notice (text : string) : Params :=
  {| TelegramBot.reply_markup := None;
     TelegramBot.items := <["text" := JStr text]> ∅ |}.

Definition session_expired : string :=
  "Sorry, this session has expired. Please search again.".


(** [not data_str] for the result of [BOT_STATE.get]. *)
Definition not_str (data_str : option string) : bool :=
  match data_str with
  | None => true
  | Some txt => String.eqb txt ""
  end.

(** Line 94. *)
Definition new_index (current_index total_images : Z) : Z :=
  Z.max 0 (Z.min current_index (total_images - 1)).

Definition nav_token (media_type lang : string) (index : Z) (media_id : string)
  : string :=
  "nav:" +:+ media_type +:+ ":" +:+ lang +:+ ":" +:+ pretty index +:+ ":"
    +:+ media_id.

(** Lines 98-105: the row of Prev, indicator and Next. *)
Definition row1 (media_type lang : string) (new_index total_images : Z)
    (media_id : string) : list Button :=
  (if 0 <? new_index
   then [button "⬅️ Prev" (nav_token media_type lang (new_index - 1) media_id)]
   else [])
  ++ [button (pretty (new_index + 1) +:+ "/" +:+ pretty total_images) "noop"]
  ++ (if new_index <? total_images - 1
      then [button "Next ➡️" (nav_token media_type lang (new_index + 1) media_id)]
      else []).

(** Lines 97-109: the keyboard under an image. *)
Definition buttons (media_type lang : string) (new_index total_images : Z)
    (media_id : string) : list (list Button) :=
  [ row1 media_type lang new_index total_images media_id;
    [button "« Back to Languages" ("view:" +:+ media_type +:+ ":" +:+ media_id)] ].

(** [{"chat_id": ..., "message_id": ...}] and the entries the caller adds. *)
Definition message_ref (cb : CallbackQuery) (more : gmap string JSON)
  : gmap string JSON :=
  <["chat_id" := JInt (chat_id cb)]> (<["message_id" := JInt (message_id cb)]> more).

(** Lines 58-66 and 244-252: the keyboard of the main menu. *)
Definition main_menu (media_id : string) : list (list Button) :=
  [ [ button "🖼️ View Posters" ("view:posters:" +:+ media_id);
      button "🏞️ View Backdrops" ("view:backdrops:" +:+ media_id) ];
    [ button "ℹ️ Full Details" ("details:" +:+ media_id) ] ].

Definition back_to_main (media_id : string) : list Button :=
  [button "« Back to Main Menu" ("back:main:" +:+ media_id)].

(** Line 86: [data.get("images", {}).get(media_type, {}).get(lang, [])] *)
Definition image_list_of (data : JSON) (media_type lang : string) : Outcome JSON :=
  match py_get data "images" (JDict ∅) with
  | Raised e => Raised e
  | Returned images =>
      match py_get images media_type (JDict ∅) with
      | Raised e => Raised e
      | Returned by_type => py_get by_type lang (JList [])
      end
  end.

(** [{"type": "photo", "media": image}] (line 112). *)
Definition photo (image : JSON) : JSON :=
  JDict (<["type" := JStr "photo"]> (<["media" := image]> ∅)).

(** The options of the [edit_message_media] call (line 113). *)
Definition media_options (cb : CallbackQuery) (buttons : list (list Button))
  : Params :=
  {| TelegramBot.reply_markup := Some (Some (keyboard buttons));
     TelegramBot.items := message_ref cb ∅ |}.

Section Handlers.
Context `{RT : Runtime}.

(** [_, media_type, lang, current_index_str, media_id = parts] *)
Definition unpack5 (parts : list string)
  : Outcome (string * string * string * string) :=
  match parts with
  | [_; media_type; lang; current_index_str; media_id] =>
      Returned (media_type, lang, current_index_str, media_id)
  | _ =>
      Raised (ValueError
        (if (length parts <? 5)%nat
         then "not enough values to unpack (expected 5, got "
                +:+ pretty (length parts) +:+ ")"
         else "too many values to unpack (expected 5)"))
  end.

(** Lines 84-114 of [handle_pagination]: what follows a cache hit. *)
Definition render_image (bot : Bot) (cb : CallbackQuery)
    (media_type lang : string) (current_index : Z) (media_id : string)
    (data_str : string) : M World unit :=
  data ← lift (json_loads data_str);
  image_list ← lift (image_list_of data media_type lang);
  total_images ← lift (len image_list);
  if negb (truthy image_list) then
    answer_callback_query bot (id cb)
      (Some (notice "No images found for this selection."));;
    mret tt
  else
    let new_index := new_index current_index total_images in
    let buttons := buttons media_type lang new_index total_images media_id in
    image ← lift (py_index image_list new_index);
    let media := photo image in
    edit_message_media bot media (media_options cb buttons);;
    answer_callback_query bot (id cb) None;;
    mret tt.

(** Lines 116-117: the except clause of [handle_pagination]. *)
Definition on_error (bot : Bot) (cb : CallbackQuery) (e : PyExc) : M World unit :=
  answer_callback_query bot (id cb)
    (Some (alert ("An error occurred: " +:+ exc_msg e)));;
  mret tt.

(** [handle_pagination] (lines 73-117). *)
Definition handle_pagination (bot : Bot) (cb : CallbackQuery)
    (parts : list string) : M World unit :=
  try_except
    ('(media_type, lang, current_index_str, media_id) ← lift (unpack5 parts);
     current_index ← lift (int_ current_index_str);
     data_str ← kv_get ("media:" +:+ media_id);
     if not_str data_str then
       answer_callback_query bot (id cb) (Some (alert session_expired));;
       mret tt
     else
       render_image bot cb media_type lang current_index media_id
         (default "" data_str))
    (on_error bot cb).

(** Lines 198-219: the language list. *)
Definition view (bot : Bot) (cb : CallbackQuery) (parts : list string)
    (media_id : string) (result_data : JSON) : M World unit :=
  media_type ← lift (item parts 1);
  images ← lift (py_get result_data "images" (JDict ∅));
  by_type ← lift (py_get images media_type (JDict ∅));
  langs ← lift (py_keys by_type);
  rows ← lift (traverse
    (λ lang,
       let lang_name :=
         if (str_len lang =? 2)%nat then upper lang else "No Language" in
       match py_item result_data "images" with
       | Raised e => Raised e
       | Returned i =>
           match py_item i media_type with
           | Raised e => Raised e
           | Returned t =>
               match py_item t lang with
               | Raised e => Raised e
               | Returned urls =>
                   match len urls with
                   | Raised e => Raised e
                   | Returned count =>
                       Returned
                         [button (lang_name +:+ " (" +:+ pretty count +:+ ")")
                                 (nav_token media_type lang 0 media_id)]
                   end
               end
           end
       end)
    (sorted langs));
  let buttons := rows ++ [back_to_main media_id] in
  title ← lift (py_get result_data "title" JNull);
  edit_message_caption bot
    ("Select a language for *" +:+ str_ title +:+ "* "
       +:+ capitalize media_type +:+ ":")
    {| TelegramBot.reply_markup := Some (Some (keyboard buttons));
       TelegramBot.items := message_ref cb (<["parse_mode" := JStr "Markdown"]> ∅) |};;
  answer_callback_query bot (id cb) None;;
  mret tt.

(** Lines 224-236: the details card. *)
Definition details (bot : Bot) (cb : CallbackQuery) (media_id : string)
    (result_data : JSON) : M World unit :=
  let get k dflt := lift (W := World) (py_get result_data k dflt) in
  title ← get "title" JNull;
  year ← get "year" JNull;
  tagline ← get "tagline" (JStr "");
  plot ← get "plot" (JStr "N/A");
  rating ← get "rating" (JStr "N/A");
  votes ← get "votes" (JStr "N/A");
  runtime ← get "runtime" (JStr "N/A");
  genres ← get "genres" (JStr "N/A");
  url ← get "url" JNull;
  let details :=
    "🎬 *" +:+ str_ title +:+ "* (" +:+ str_ year +:+ ")" +:+ nl +:+ nl
    +:+ "*" +:+ str_ tagline +:+ "*" +:+ nl +:+ nl
    +:+ "📖 *Plot:* " +:+ str_ plot +:+ nl +:+ nl
    +:+ "⭐ *Rating:* " +:+ str_ rating +:+ " (" +:+ str_ votes +:+ " votes)" +:+ nl
    +:+ "🕒 *Runtime:* " +:+ str_ runtime +:+ nl
    +:+ "🎭 *Genres:* " +:+ str_ genres +:+ nl +:+ nl
    +:+ "🔗 [View on TMDB](" +:+ str_ url +:+ ")" in
  edit_message_caption bot details
    {| TelegramBot.reply_markup := Some (Some (keyboard [back_to_main media_id]));
       TelegramBot.items := message_ref cb (<["parse_mode" := JStr "Markdown"]> ∅) |};;
  answer_callback_query bot (id cb) None;;
  mret tt.

(** Lines 238-255: back to the main menu. *)
Definition back (bot : Bot) (cb : CallbackQuery) (parts : list string)
    (media_id : string) (result_data : JSON) : M World unit :=
  destination ← lift (item parts 1);
  if String.eqb destination "main" then
    plot ← lift (py_get result_data "plot" (JStr "No summary available."));
    title ← lift (py_get result_data "title" (JStr "N/A"));
    year ← lift (py_get result_data "year" (JStr "N/A"));
    summary ← lift (py_prefix plot 800);
    let caption :=
      "🎬 *" +:+ str_ title +:+ "* (" +:+ str_ year +:+ ")" +:+ nl +:+ nl
      +:+ str_ summary in
    edit_message_caption bot caption
      {| TelegramBot.reply_markup := Some (Some (keyboard (main_menu media_id)));
         TelegramBot.items := message_ref cb (<["parse_mode" := JStr "Markdown"]> ∅) |};;
    answer_callback_query bot (id cb) None;;
    mret tt
  else mret tt.

(** [handle_callback] (lines 175-255). *)
Definition handle_callback (bot : Bot) (cb : CallbackQuery) : M World unit :=
  let data := default "" (data cb) in
  let parts := split ":"%char data in
  action ← lift (item parts 0);
  if String.eqb action "noop" then
    answer_callback_query bot (id cb) None;;
    mret tt
  else
    media_id ← lift (last_item parts);
    data_str ← kv_get ("media:" +:+ media_id);
    if not_str data_str then
      answer_callback_query bot (id cb) (Some (alert session_expired));;
      mret tt
    else
      result_data ← lift (json_loads (default "" data_str));
      if String.eqb action "view" then view bot cb parts media_id result_data
      else if String.eqb action "nav" then handle_pagination bot cb parts
      else if String.eqb action "details" then details bot cb media_id result_data
      else if String.eqb action "back" then back bot cb parts media_id result_data
      else mret tt.

End Handlers.

End Entry.

(* ===================================================================== *)
(** * telegram_bot.py: the remaining methods                              *)
(* ===================================================================== *)
Module Client.
Import TelegramBot.

(** A dict literal without a ["reply_markup"] entry. *)
Definition literal (its : gmap string JSON) : Params :=
  {| reply_markup := None; items := its |}.

(** [set_webhook] (lines 195-196). *)
Definition set_webhook (self : TelegramBot) (url : string)
    (options : option Params) : M World JSON :=
  _post_json self "setWebhook"
    (update (literal (<["url" := JStr url]> ∅)) (or_empty options)).

(** [delete_webhook] (lines 198-199). *)
Definition delete_webhook (self : TelegramBot) (options : option Params)
  : M World JSON :=
  _post_json self "deleteWebhook" (or_empty options).

(** [set_my_commands] (lines 201-203). *)
Definition set_my_commands (self : TelegramBot) (commands : list JSON)
    (options : option Params) : M World JSON :=
  _post_json self "setMyCommands"
    (update (literal (<["commands" := JList commands]> ∅)) (or_empty options)).

(** [delete_my_commands] (lines 205-206). *)
Definition delete_my_commands (self : TelegramBot) (options : option Params)
  : M World JSON :=
  _post_json self "deleteMyCommands" (or_empty options).

(** [delete_message] (lines 229-230). *)
Definition delete_message (self : TelegramBot) (chat_id : JSON) (message_id : Z)
  : M World JSON :=
  _post_json self "deleteMessage"
    (literal (<["chat_id" := chat_id]> (<["message_id" := JInt message_id]> ∅))).

(** [send_chat_action] (lines 235-237). *)
Definition send_chat_action (self : TelegramBot) (chat_id : JSON)
    (action : string) : M World JSON :=
  _post_json self "sendChatAction"
    (literal (<["chat_id" := chat_id]> (<["action" := JStr action]> ∅))).

(** [get_file] (lines 242-243). *)
Definition get_file (self : TelegramBot) (file_id : string) : M World JSON :=
  _post_json self "getFile" (literal (<["file_id" := JStr file_id]> ∅)).

(** [send_video], [send_document], [send_audio], [send_voice]
    (lines 259-269). *)
Definition send_video (self : TelegramBot) (chat_id : JSON) (video : FileData)
    (options : option Params) : M World JSON :=
  _send_file self "sendVideo" "video" chat_id video "video.mp4" "video/mp4" options.

Definition send_document (self : TelegramBot) (chat_id : JSON)
    (document : FileData) (options : option Params) : M World JSON :=
  _send_file self "sendDocument" "document" chat_id document "file.bin"
    "application/octet-stream" options.

Definition send_audio (self : TelegramBot) (chat_id : JSON) (audio : FileData)
    (options : option Params) : M World JSON :=
  _send_file self "sendAudio" "audio" chat_id audio "audio.mp3" "audio/mpeg" options.

Definition send_voice (self : TelegramBot) (chat_id : JSON) (voice : FileData)
    (options : option Params) : M World JSON :=
  _send_file self "sendVoice" "voice" chat_id voice "voice.ogg" "audio/ogg" options.

(** [ban_chat_member] (lines 281-283). *)
Definition ban_chat_member (self : TelegramBot) (chat_id : JSON) (user_id : Z)
    (options : option Params) : M World JSON :=
  _post_json self "banChatMember"
    (update (literal (<["chat_id" := chat_id]> (<["user_id" := JInt user_id]> ∅)))
            (or_empty options)).

(** The methods of the class that call the platform, as data: one
    constructor per method, with its arguments.  [download_file], which
    fetches a file and not an API method, is not among them. *)
Inductive Call : Type :=
| SetWebhook (url : string) (options : option Params)
| DeleteWebhook (options : option Params)
| SetMyCommands (commands : list JSON) (options : option Params)
| DeleteMyCommands (options : option Params)
| SendMessage (chat_id : JSON) (text : string) (options : option Params)
| EditMessageText (text : string) (options : option Params)
| DeleteMessage (chat_id : JSON) (message_id : Z)
| AnswerCallbackQuery (callback_query_id : string) (options : option Params)
| SendChatAction (chat_id : JSON) (action : string)
| GetFile (file_id : string)
| SendPhoto (chat_id : JSON) (photo : FileData) (options : option Params)
| SendVideo (chat_id : JSON) (video : FileData) (options : option Params)
| SendDocument (chat_id : JSON) (document : FileData) (options : option Params)
| SendAudio (chat_id : JSON) (audio : FileData) (options : option Params)
| SendVoice (chat_id : JSON) (voice : FileData) (options : option Params)
| SendPoll (chat_id : JSON) (question : string) (poll_options : list string)
    (options : option Params)
| BanChatMember (chat_id : JSON) (user_id : Z) (options : option Params).

Definition perform (self : TelegramBot) (call : Call) : M World JSON :=
  match call with
  | SetWebhook url options => set_webhook self url options
  | DeleteWebhook options => delete_webhook self options
  | SetMyCommands commands options => set_my_commands self commands options
  | DeleteMyCommands options => delete_my_commands self options
  | SendMessage chat_id text options => send_message self chat_id text options
  | EditMessageText text options => edit_message_text self text options
  | DeleteMessage chat_id message_id => delete_message self chat_id message_id
  | AnswerCallbackQuery i options => answer_callback_query self i options
  | SendChatAction chat_id action => send_chat_action self chat_id action
  | GetFile file_id => get_file self file_id
  | SendPhoto chat_id f options => send_photo self chat_id f options
  | SendVideo chat_id f options => send_video self chat_id f options
  | SendDocument chat_id f options => send_document self chat_id f options
  | SendAudio chat_id f options => send_audio self chat_id f options
  | SendVoice chat_id f options => send_voice self chat_id f options
  | SendPoll chat_id question poll_options options =>
      send_poll self chat_id question poll_options options
  | BanChatMember chat_id user_id options =>
      ban_chat_member self chat_id user_id options
  end.

(** The API method each of them posts to. *)
Definition endpoint (call : Call) : string :=
  match call with
  | SetWebhook _ _ => "setWebhook"
  | DeleteWebhook _ => "deleteWebhook"
  | SetMyCommands _ _ => "setMyCommands"
  | DeleteMyCommands _ => "deleteMyCommands"
  | SendMessage _ _ _ => "sendMessage"
  | EditMessageText _ _ => "editMessageText"
  | DeleteMessage _ _ => "deleteMessage"
  | AnswerCallbackQuery _ _ => "answerCallbackQuery"
  | SendChatAction _ _ => "sendChatAction"
  | GetFile _ => "getFile"
  | SendPhoto _ _ _ => "sendPhoto"
  | SendVideo _ _ _ => "sendVideo"
  | SendDocument _ _ _ => "sendDocument"
  | SendAudio _ _ _ => "sendAudio"
  | SendVoice _ _ _ => "sendVoice"
  | SendPoll _ _ _ _ => "sendPoll"
  | BanChatMember _ _ _ => "banChatMember"
  end.

(** Whether the call uploads raw bytes, and so draws a boundary token. *)
Definition uploads (call : Call) : bool :=
  match call with
  | SendPhoto _ (FileBytes _) _ | SendVideo _ (FileBytes _) _
  | SendDocument _ (FileBytes _) _ | SendAudio _ (FileBytes _) _
  | SendVoice _ (FileBytes _) _ => true
  | _ => false
  end.

(** The three keys of a button that normalization reads or writes. *)
Definition token_keys : list string := ["callbackData"; "callback"; "callback_data"].

(** The value a button ends up with under ["callback_data"]: a truthy
    [callbackData] first, else a [callback] that is not [None], else what
    was there. *)
Definition chosen_token (btn : gmap string JSON) : option JSON :=
  if truthy (default JNull (btn !! "callbackData")) then btn !! "callbackData"
  else match btn !! "callback" with
       | Some v => if is_None v then btn !! "callback_data" else Some v
       | None => btn !! "callback_data"
       end.

(** [d] has, under every key but ["reply_markup"], the entry of the
    options if they have one, and else the entry of [base]. *)
Definition overrides (base : gmap string JSON) (options : option Params)
    (d : gmap string JSON) : Prop :=
  ∀ k, k ≠ "reply_markup" →
    d !! k = match items (or_empty options) !! k with
             | Some v => Some v
             | None => base !! k
             end.

(** The world after a call that drew a boundary token and made [req]. *)
Definition after_upload (w : World) (req : Request) : World :=
  {| BOT_STATE := BOT_STATE w; net := net w; sent := sent w ++ [req];
     token_hex := tl (token_hex w) |}.

(** ** Registration (lines 68-84)

    [Dispatcher()] has no handlers; the decorators [on_message()] and
    [on_callback_query()] append the decorated function to their list and
    hand it back. *)
Definition new_dispatcher {W B} : Dispatcher W B :=
  {| message_handlers := []; callback_query_handlers := [] |}.

Definition on_message {W B} (self : Dispatcher W B) (func : B → JSON → M W unit)
  : Dispatcher W B * (B → JSON → M W unit) :=
  ({| message_handlers := message_handlers self ++ [func];
      callback_query_handlers := callback_query_handlers self |}, func).

Definition on_callback_query {W B} (self : Dispatcher W B)
    (func : B → JSON → M W unit) : Dispatcher W B * (B → JSON → M W unit) :=
  ({| message_handlers := message_handlers self;
      callback_query_handlers := callback_query_handlers self ++ [func] |}, func).

(** A module that decorates its functions one after the other. *)
Inductive Decorated (W B : Type) : Type :=
| AsMessage (func : B → JSON → M W unit)
| AsCallbackQuery (func : B → JSON → M W unit).
#[global] Arguments AsMessage {W B} func.
#[global] Arguments AsCallbackQuery {W B} func.

Definition decorate {W B} (self : Dispatcher W B) (d : Decorated W B)
  : Dispatcher W B :=
  match d with
  | AsMessage func => (on_message self func).1
  | AsCallbackQuery func => (on_callback_query self func).1
  end.

Definition decorate_all {W B} (ds : list (Decorated W B)) : Dispatcher W B :=
  foldl decorate new_dispatcher ds.

Definition message_funcs {W B} (ds : list (Decorated W B))
  : list (B → JSON → M W unit) :=
  omap (λ d, match d with AsMessage f => Some f | AsCallbackQuery _ => None end) ds.

Definition callback_funcs {W B} (ds : list (Decorated W B))
  : list (B → JSON → M W unit) :=
  omap (λ d, match d with AsCallbackQuery f => Some f | AsMessage _ => None end) ds.

End Client.

(* ===================================================================== *)
(** * Navigation tokens                                                   *)
(* ===================================================================== *)
(** The tokens are written with f-strings and read back with
    [split(":")]; what matters for the way back is how many colons the
    fields hold. *)
Module Tokens.

(** [s.count(sep)] for a one-character separator. *)
Fixpoint count_sep (sep : ascii) (s : string) : nat :=
  match s with
  | EmptyString => 0
  | String c s' => (if Ascii.eqb c sep then 1 else 0) + count_sep sep s'
  end.

(** Lines 61-64, 109, 210 and 234: the tokens other than [nav]. *)
Definition view_token (media_type media_id : string) : string :=
  "view:" +:+ media_type +:+ ":" +:+ media_id.
Definition details_token (media_id : string) : string :=
  "details:" +:+ media_id.
Definition back_token (media_id : string) : string :=
  "back:main:" +:+ media_id.

(** The request of an acknowledgement made by the class, by its body. *)
Definition answer_request (self : TelegramBot.TelegramBot) (body : JSON)
  : Request :=
  TelegramBot.api_request self "answerCallbackQuery" "application/json"
    (JsonBody body).

(** A run from [w] that made no request at all, or that returned after
    one acknowledgement and nothing else. *)
Definition quiet_or_answered (self : TelegramBot.TelegramBot) (w : World)
    (run : Outcome unit * World) : Prop :=
  (∃ o, run = (o, w))
  ∨ (∃ body, run = (Returned tt, after_request w (answer_request self body))).

End Tokens.

(* ===================================================================== *)
(** * entry.py: searches                                                  *)
(* ===================================================================== *)
(** [handle_message] and [send_main_menu].  The [bot] they are given is
    the instance of [TelegramBot] that [fetch] builds, and every method
    they call on it is one the class defines. *)
Module Search.

(** The message handed to the handler: [message["chat"]["id"]] and the
    optional [message["text"]]. *)
Record Message : Type := mkMessage {
  message_chat_id : Z;
  message_text : option string
}.

(** What the handler takes from its surroundings: [str.strip],
    [any(char.isdigit() for char in text)], [json.dumps], and the search
    service, seen as a function of the URLs fetched from it so far (the
    last one being the current URL). *)
Class Service : Type := {
  strip : string → string;
  any_digit : string → bool;
  json_dumps : JSON → string;
  search : list string → Outcome Response
}.

(** The state a message is handled in: the world of the bot, and the
    URLs fetched from the search service. *)
Record State : Type := mkState {
  world : World;
  searched : list string
}.

(** A step that concerns the world of the bot alone. *)
Definition on_world {A} (c : M World A) : M State A :=
  λ st, let '(r, w') := c (world st) in
        (r, {| world := w'; searched := searched st |}).

(** The state after the bot made [req]. *)
Definition and_request (st : State) (req : Request) : State :=
  {| world := after_request (world st) req; searched := searched st |}.

(** The state after a fetch from the search service. *)
Definition and_search (st : State) (url : string) : State :=
  {| world := world st; searched := searched st ++ [url] |}.

Definition ABOUT_TEXT : string :=
  nl
  +:+ "*About PosterFlix*"
  +:+ nl
  +:+ nl
  +:+ "This bot allows you to preview and download official movie and TV show posters and backdrops from The Movie Database (TMDB)."
  +:+ nl
  +:+ nl
  +:+ "Using TMDB's powerful API, PosterFlix provides lightning-fast access to high-quality artwork."
  +:+ nl
  +:+ nl
  +:+ "*Features include:*"
  +:+ nl
  +:+ "• High-resolution image access"
  +:+ nl
  +:+ "• Multi-language support"
  +:+ nl
  +:+ "• Smart search functionality"
  +:+ nl.

Definition FAQ_TEXT : string :=
  nl
  +:+ "*Frequently Asked Questions*"
  +:+ nl
  +:+ nl
  +:+ "*Q: Do you host any images?*"
  +:+ nl
  +:+ "A: No, all images are fetched directly from TMDB's servers in real-time for maximum freshness and legal compliance."
  +:+ nl
  +:+ nl
  +:+ "*Q: Is this bot affiliated with TMDB?*"
  +:+ nl
  +:+ "A: This is an independent project using TMDB's public API and is not officially endorsed by TMDB."
  +:+ nl
  +:+ nl
  +:+ "*Q: How often is the database updated?*"
  +:+ nl
  +:+ "A: Data is fetched live from TMDB, ensuring you always get the latest available content."
  +:+ nl.

Definition DISCLAIMER_TEXT : string :=
  nl
  +:+ "*Legal Disclaimer*"
  +:+ nl
  +:+ nl
  +:+ "This bot uses the TMDB API but is not endorsed or certified by TMDB. All images, trademarks, and copyrighted material belong to their respective owners."
  +:+ nl
  +:+ nl
  +:+ "This service is designed for personal, non-commercial use only."
  +:+ nl.

Definition WELCOME_TEXT : string :=
  "Welcome! Send me a movie or TV show name to get started." +:+ nl +:+ nl
  +:+ "E.g., `The Matrix 1999`".

Definition HINT_TEXT : string :=
  "Please include the year for better results (e.g., `Inception 2010`).".

Definition MISSING_ID_TEXT : string :=
  "The search was successful, but the result is missing a required ID. "
  +:+ "Please try another query.".

Definition PLACEHOLDER : string :=
  "https://via.placeholder.com/300x450.png?text=No+Poster".

(** The commands [handle_message] replies to. *)
Definition commands : list string := ["/start"; "/about"; "/faq"; "/disclaimer"].

(** [text.startswith('/')] *)
Definition starts_with_slash (text : string) : bool :=
  match text with
  | String c _ => Ascii.eqb c "/"
  | EmptyString => false
  end.

(** [text.replace(' ', '+')] *)
Fixpoint replace_spaces (text : string) : string :=
  match text with
  | EmptyString => EmptyString
  | String c rest =>
      String (if Ascii.eqb c " " then "+"%char else c) (replace_spaces rest)
  end.

Definition search_url (text : string) : string :=
  "https://tmdbapi-eight.vercel.app/api/movie-posters?query="
  +:+ replace_spaces text.

(** The world after [BOT_STATE.put(key, value)]. *)
Definition after_put (w : World) (key value : string) : World :=
  {| BOT_STATE := <[key := value]> (BOT_STATE w); net := net w; sent := sent w;
     token_hex := token_hex w |}.

(** [await env.BOT_STATE.put(key, value, expiration_ttl=3600)].  The
    store is kept without its clock: an entry stays until it is
    overwritten. *)
Definition kv_put (key value : string) : M World unit :=
  λ w, (Returned tt, after_put w key value).

Definition and_put (st : State) (key value : string) : State :=
  {| world := after_put (world st) key value; searched := searched st |}.

(** [options={"parse_mode": "Markdown"}] *)
Definition markdown : TelegramBot.Params :=
  {| TelegramBot.reply_markup := None;
     TelegramBot.items := <["parse_mode" := JStr "Markdown"]> ∅ |}.

(** The else branch of [_send_file] (lines 184-190) under [send_photo],
    for a photo read from JSON, which is never bytes. *)
Definition send_photo_value (self : TelegramBot.TelegramBot) (chat_id photo : JSON)
    (options : option TelegramBot.Params) : M World JSON :=
  let payload :=
    {| TelegramBot.reply_markup := None;
       TelegramBot.items := <["photo" := photo]> (<["chat_id" := chat_id]> ∅) |} in
  TelegramBot._post_json self "sendPhoto" (TelegramBot.with_options payload options).

(** The options of the photo of [send_main_menu] (line 70). *)
Definition menu_options (caption media_id : string) : TelegramBot.Params :=
  {| TelegramBot.reply_markup := Some (Some (Entry.keyboard (Entry.main_menu media_id)));
     TelegramBot.items :=
       <["caption" := JStr caption]> (<["parse_mode" := JStr "Markdown"]> ∅) |}.

(** The requests of [send_message], of [send_chat_action] with
    ["typing"], and of [send_photo] for a photo read from JSON. *)
Definition message_request (self : TelegramBot.TelegramBot) (chat_id : JSON)
    (text : string) (options : option TelegramBot.Params) : Request :=
  TelegramBot.api_request self "sendMessage" "application/json"
    (JsonBody (TelegramBot.payload_json
       (TelegramBot.with_options
          {| TelegramBot.reply_markup := None;
             TelegramBot.items :=
               <["text" := JStr text]> (<["chat_id" := chat_id]> ∅) |}
          options))).

Definition typing_request (self : TelegramBot.TelegramBot) (chat_id : JSON)
  : Request :=
  TelegramBot.api_request self "sendChatAction" "application/json"
    (JsonBody (JDict (<["chat_id" := chat_id]> (<["action" := JStr "typing"]> ∅)))).

(** The main menu as it is posted: the photo under its caption and the
    keyboard of the three buttons. *)
Definition menu_request (self : TelegramBot.TelegramBot) (chat_id photo : JSON)
    (caption media_id : string) : Request :=
  TelegramBot.api_request self "sendPhoto" "application/json"
    (JsonBody (JDict
       (<["reply_markup" :=
            TelegramBot.markup_to_json (Entry.keyboard (Entry.main_menu media_id))]>
          (<["caption" := JStr caption]>
             (<["parse_mode" := JStr "Markdown"]>
                (<["photo" := photo]> (<["chat_id" := chat_id]> ∅))))))).

Section Handlers.
Context `{RT : Runtime} `{SV : Service}.

(** The caption of lines 56 and 243. *)
Definition menu_caption (title year summary : JSON) : string :=
  "🎬 *" +:+ str_ title +:+ "* (" +:+ str_ year +:+ ")" +:+ nl +:+ nl
  +:+ str_ summary.

(** [await fetch(api_url)] (line 154). *)
Definition fetch_url (url : string) : M State Response :=
  λ st, (search (searched st ++ [url]), and_search st url).

(** [send_main_menu] (lines 51-71). *)
Definition send_main_menu (self : TelegramBot.TelegramBot) (chat_id : JSON)
    (data : JSON) : M World unit :=
  media_id ← lift (py_get data "media_id" JNull);
  plot ← lift (py_get data "plot" (JStr "No summary available."));
  title ← lift (py_get data "title" (JStr "N/A"));
  year ← lift (py_get data "year" (JStr "N/A"));
  summary ← lift (py_prefix plot 800);
  let caption := menu_caption title year summary in
  photo ← lift (py_get data "poster_url" (JStr PLACEHOLDER));
  send_photo_value self chat_id photo
    (Some (menu_options caption (str_ media_id)));;
  mret tt.

(** Lines 160-170: what follows a reply of the service with status 200. *)
Definition found (self : TelegramBot.TelegramBot) (chat_id : JSON)
    (response : Response) : M State unit :=
  data ← lift (json response);
  media_id ← lift (py_get data "media_id" JNull);
  if negb (truthy media_id) then
    on_world (TelegramBot.send_message self chat_id MISSING_ID_TEXT None);;
    mret tt
  else
    on_world (kv_put ("media:" +:+ str_ media_id) (json_dumps data));;
    on_world (send_main_menu self chat_id data).

(** Lines 149-170: the body of the [try]. *)
Definition look_up (self : TelegramBot.TelegramBot) (chat_id : JSON)
    (text : string) : M State unit :=
  if negb (any_digit text) then
    on_world (TelegramBot.send_message self chat_id HINT_TEXT None);;
    mret tt
  else
    response ← fetch_url (search_url text);
    if negb (status response =? 200) then
      on_world (TelegramBot.send_message self chat_id
        ("😕 Sorry, couldn't find anything for '" +:+ text
           +:+ "'. Please check the spelling and year.") None);;
      mret tt
    else found self chat_id response.

(** Lines 172-173: the except clause. *)
Definition on_search_error (self : TelegramBot.TelegramBot) (chat_id : JSON)
    (e : PyExc) : M State unit :=
  on_world (TelegramBot.send_message self chat_id
    ("An error occurred during the search: " +:+ exc_msg e) None);;
  mret tt.

(** Lines 131-140: the commands. *)
Definition command (self : TelegramBot.TelegramBot) (chat_id : JSON)
    (text : string) : M World unit :=
  if String.eqb text "/start" then
    TelegramBot.send_message self chat_id WELCOME_TEXT None;; mret tt
  else if String.eqb text "/about" then
    TelegramBot.send_message self chat_id ABOUT_TEXT (Some markdown);; mret tt
  else if String.eqb text "/faq" then
    TelegramBot.send_message self chat_id FAQ_TEXT (Some markdown);; mret tt
  else if String.eqb text "/disclaimer" then
    TelegramBot.send_message self chat_id DISCLAIMER_TEXT (Some markdown);; mret tt
  else mret tt.

(** [handle_message] (lines 124-173). *)
Definition handle_message (self : TelegramBot.TelegramBot) (message : Message)
  : M State unit :=
  let chat_id := JInt (message_chat_id message) in
  let text := strip (default "" (message_text message)) in
  if starts_with_slash text then on_world (command self chat_id text)
  else if String.eqb text "" then mret tt
  else
    on_world (Client.send_chat_action self chat_id "typing");;
    try_except (look_up self chat_id text) (on_search_error self chat_id).

End Handlers.

End Search.

(* ===================================================================== *)
(** * entry.py: the entry point                                           *)
(* ===================================================================== *)
(** [Default.fetch] (lines 261-310). *)
Module Worker.

(** The request, by what [fetch] reads of it: [request.method],
    [request.url_obj.hostname], [request.url_obj.pathname] and what
    [await request.json()] gives. *)
Record HttpRequest : Type := mkHttpRequest {
  http_method : string;
  hostname : string;
  pathname : string;
  request_json : Outcome JSON
}.

(** [Response(body, status=..., headers=...)]; the status is 200 unless
    given. *)
Record HttpResponse : Type := mkHttpResponse {
  reply_body : string;
  reply_status : Z;
  reply_headers : gmap string string
}.

Definition not_found : HttpResponse :=
  {| reply_body := "Not Found. Visit `/` to set webhook, `/delete` to remove it, "
                   +:+ "or `/status` to check it.";
     reply_status := 404; reply_headers := ∅ |}.

(** A call [obj.name(a1, ..., an)] of a method written with [parameters]
    parameters besides [self]: Python raises [TypeError] before the body
    runs when the numbers differ. *)
Definition call_method {W A} (name : string) (parameters given : nat)
    (body : M W A) : M W A :=
  if (given =? parameters)%nat then body
  else raise (TypeError
         (name +:+ "() takes " +:+ pretty (S parameters)
            +:+ " positional arguments but " +:+ pretty (S given)
            +:+ " were given")).

(** Lines 280-283. *)
Definition registered_commands : list JSON :=
  [ JDict (<["command" := JStr "start"]> (<["description" := JStr "Start the bot"]> ∅));
    JDict (<["command" := JStr "help"]>
             (<["description" := JStr "Show help message"]> ∅)) ].

Definition webhook_url (request : HttpRequest) : string :=
  "https://" +:+ hostname request +:+ "/webhook".

(** [options={"drop_pending_updates": True}] *)
Definition drop_pending : TelegramBot.Params :=
  Client.literal (<["drop_pending_updates" := JBool true]> ∅).

Section Fetch.
Context `{RT : Runtime}.
(** [json.dumps(result, indent=2)], and what [TelegramBot.handle_update],
    defined with the one parameter [update_data] (line 107), does with an
    update. *)
Variable dumps_indent : JSON → string.
Variable handle_update : JSON → M World unit.

(** Lines 267-272. *)
Definition post (request : HttpRequest) : M World unit :=
  try_except
    (update ← lift (request_json request);
     call_method "TelegramBot.handle_update" 1 2 (handle_update update))
    (λ e, mret tt).

(** Lines 278-290: the route [/]. *)
Definition set_up (self : TelegramBot.TelegramBot) (request : HttpRequest)
  : M World HttpResponse :=
  Client.set_my_commands self registered_commands None;;
  result ← Client.set_webhook self (webhook_url request) (Some drop_pending);
  ok ← lift (py_get result "ok" JNull);
  if truthy ok then
    mret {| reply_body := "✅ Webhook set successfully to " +:+ webhook_url request
                          +:+ nl +:+ "🤖 Bot commands updated.";
            reply_status := 200; reply_headers := ∅ |}
  else
    description ← lift (py_get result "description" JNull);
    mret {| reply_body := "❌ Failed to set webhook: " +:+ str_ description;
            reply_status := 500; reply_headers := ∅ |}.

(** Lines 293-301: the route [/delete]. *)
Definition tear_down (self : TelegramBot.TelegramBot) : M World HttpResponse :=
  result ← Client.delete_webhook self None;
  ok ← lift (py_get result "ok" JNull);
  if truthy ok then
    mret {| reply_body := "✅ Webhook deleted successfully!";
            reply_status := 200; reply_headers := ∅ |}
  else
    description ← lift (py_get result "description" (JStr "Unknown error"));
    mret {| reply_body := "❌ Failed to delete webhook. Reason: " +:+ str_ description;
            reply_status := 500; reply_headers := ∅ |}.

(** Lines 304-308: the route [/status]. *)
Definition report (self : TelegramBot.TelegramBot) : M World HttpResponse :=
  result ← TelegramBot._post_json self "getWebhookInfo" TelegramBot.no_params;
  mret {| reply_body := dumps_indent result; reply_status := 200;
          reply_headers := <["Content-Type" := "application/json"]> ∅ |}.

(** [Default.fetch] (lines 262-310); [BOT_TOKEN] is [env.BOT_TOKEN]. *)
Definition fetch (BOT_TOKEN : string) (request : HttpRequest)
  : M World HttpResponse :=
  let bot := {| TelegramBot.token := BOT_TOKEN |} in
  if String.eqb (http_method request) "POST" then
    post request;;
    mret not_found
  else if String.eqb (http_method request) "GET" then
    if String.eqb (pathname request) "/" then set_up bot request
    else if String.eqb (pathname request) "/delete" then tear_down bot
    else if String.eqb (pathname request) "/status" then report bot
    else mret not_found
  else mret not_found.

End Fetch.

End Worker.

(* ===================================================================== *)
(** * A small scenario                                                    *)
(* ===================================================================== *)
(** The session of the end-to-end example: id [123] with three English
    posters, a runtime that reads its record, and a network that accepts
    every request.  The definitions are run on it below. *)
Module Scenario.

Definition quoted (s : string) : string :=
  String (ascii_of_nat 34) s +:+ String (ascii_of_nat 34) EmptyString.

Definition record_text : string :=
  "{" +:+ quoted "title" +:+ ": " +:+ quoted "T" +:+ ", "
  +:+ quoted "images" +:+ ": {" +:+ quoted "posters" +:+ ": {"
  +:+ quoted "en" +:+ ": [" +:+ quoted "u1" +:+ ", " +:+ quoted "u2" +:+ ", "
  +:+ quoted "u3" +:+ "]}}}".

Definition record : JSON :=
  JDict (<["title" := JStr "T"]>
    (<["images" :=
         JDict (<["posters" :=
           JDict (<["en" := JList [JStr "u1"; JStr "u2"; JStr "u3"]]> ∅)]> ∅)]> ∅)).

Definition digit_of (c : ascii) : option Z :=
  let n := Z.of_nat (nat_of_ascii c) in
  if (48 <=? n) && (n <=? 57) then Some (n - 48) else None.

Fixpoint digits (s : string) (acc : Z) : option Z :=
  match s with
  | EmptyString => Some acc
  | String c s' =>
      match digit_of c with
      | Some d => digits s' (10 * acc + d)
      | None => None
      end
  end.

(** Plain decimal numerals with an optional sign. *)
Definition decimal (s : string) : Outcome Z :=
  let bad := Raised (ValueError ("invalid literal for int() with base 10: " +:+ s)) in
  match s with
  | EmptyString => bad
  | String "-" (String c s') =>
      match digits (String c s') 0 with Some z => Returned (- z) | None => bad end
  | _ => match digits s 0 with Some z => Returned z | None => bad end
  end.

Definition upper_ascii (c : ascii) : ascii :=
  let n := nat_of_ascii c in
  if ((97 <=? n) && (n <=? 122))%nat then ascii_of_nat (n - 32) else c.

Fixpoint upper_str (s : string) : string :=
  match s with
  | EmptyString => EmptyString
  | String c s' => String (upper_ascii c) (upper_str s')
  end.

Definition capitalize_str (s : string) : string :=
  match s with
  | EmptyString => EmptyString
  | String c s' => String (upper_ascii c) s'
  end.

Definition show (v : JSON) : string :=
  match v with
  | JNull => "None"
  | JBool true => "True"
  | JBool false => "False"
  | JInt z => pretty z
  | JStr s => s
  | JList _ => "[...]"
  | JDict _ => "{...}"
  end.

Definition runtime : Runtime :=
  {| json_loads := λ s,
       if String.eqb s record_text then Returned record
       else Raised (ValueError "Expecting value");
     int_ := decimal;
     str_ := show;
     upper := upper_str;
     capitalize := capitalize_str |}.

Definition ok_reply : JSON := JDict (<["ok" := JBool true]> ∅).

Definition world : World :=
  {| BOT_STATE := <["media:123" := record_text]> ∅;
     net := λ _, Returned {| status := 200; json := Returned ok_reply |};
     sent := [];
     token_hex := ["0123456789abcdef0123456789abcdef"] |}.

Definition self : TelegramBot.TelegramBot := {| TelegramBot.token := "TOKEN" |}.

(** A dispatcher with one handler of each kind, and an update that is
    neither a message nor a callback event (an edited message). *)
Definition idle_dispatcher : TelegramBot.Dispatcher unit unit :=
  {| TelegramBot.message_handlers := [λ _ _, mret tt];
     TelegramBot.callback_query_handlers := [λ _ _, mret tt] |}.

Definition edited_message_update : gmap string JSON :=
  <["update_id" := JInt 1]>
    (<["edited_message" := JDict (<["text" := JStr "hi"]> ∅)]> ∅).

(** A dispatcher whose first message handler raises. *)
Definition failing_dispatcher : TelegramBot.Dispatcher unit unit :=
  {| TelegramBot.message_handlers :=
       [λ _ _, raise (ValueError "boom"); λ _ _, mret tt];
     TelegramBot.callback_query_handlers := [] |}.

(** A dispatcher whose last message handler raises. *)
Definition late_failing_dispatcher : TelegramBot.Dispatcher unit unit :=
  {| TelegramBot.message_handlers :=
       [λ _ _, mret tt; λ _ _, raise (ValueError "boom")];
     TelegramBot.callback_query_handlers := [λ _ _, mret tt] |}.

Definition message_update : gmap string JSON :=
  <["update_id" := JInt 2]>
    (<["message" := JDict (<["text" := JStr "hi"]> ∅)]> ∅).

Definition press (token : string) : Entry.CallbackQuery :=
  {| Entry.id := "cb1"; Entry.chat_id := 7; Entry.message_id := 42;
     Entry.data := Some token |}.

(** An object store with the aliased markup: the dict at 1, its list of
    rows at 2, the row at 3, the button at 4. *)
Definition store : gmap positive Heap.Obj :=
  <[1%positive := Heap.ODict (<["inline_keyboard" := Heap.VRef 2]> ∅)]>
    (<[2%positive := Heap.OList [Heap.VRef 3]]>
       (<[3%positive := Heap.OList [Heap.VRef 4]]>
          (<[4%positive :=
               Heap.ODict (<["text" := Heap.VStr "A"]>
                             (<["callbackData" := Heap.VStr "x"]> ∅))]> ∅))).

(** A markup with one button that carries both aliases. *)
Definition two_aliases : TelegramBot.ReplyMarkup :=
  {| TelegramBot.inline_keyboard :=
       Some [[ <["text" := JStr "A"]>
                 (<["callbackData" := JStr "x"]> (<["callback" := JStr "y"]> ∅)) ]];
     TelegramBot.other_fields := ∅ |}.

(** A markup with one button that uses the alias [callbackData]. *)
Definition aliased : TelegramBot.ReplyMarkup :=
  {| TelegramBot.inline_keyboard :=
       Some [[ <["text" := JStr "A"]> (<["callbackData" := JStr "x"]> ∅) ]];
     TelegramBot.other_fields := ∅ |}.

(** The cached record by its parts. *)
Definition posters : gmap string JSON :=
  <["en" := JList [JStr "u1"; JStr "u2"; JStr "u3"]]> ∅.

Definition images : gmap string JSON := <["posters" := JDict posters]> ∅.

Definition fields : gmap string JSON :=
  <["title" := JStr "T"]> (<["images" := JDict images]> ∅).

(** The search of the end-to-end example: the text [T 1999] finds the
    record with the id [123]; any other text finds nothing. *)
Definition is_digit (c : ascii) : bool :=
  let n := nat_of_ascii c in ((48 <=? n) && (n <=? 57))%nat.

Fixpoint has_digit (s : string) : bool :=
  match s with
  | EmptyString => false
  | String c s' => is_digit c || has_digit s'
  end.

Fixpoint lstrip (s : string) : string :=
  match s with
  | String " " s' => lstrip s'
  | _ => s
  end.

Fixpoint rstrip (s : string) : string :=
  match s with
  | EmptyString => EmptyString
  | String c s' =>
      let rest := rstrip s' in
      if Ascii.eqb c " " && String.eqb rest "" then EmptyString
      else String c rest
  end.

Definition found_fields : gmap string JSON := <["media_id" := JInt 123]> fields.

Definition found_text : string :=
  "{" +:+ quoted "media_id" +:+ ": 123, " +:+ quoted "title" +:+ ": "
  +:+ quoted "T" +:+ ", " +:+ quoted "images" +:+ ": {" +:+ quoted "posters"
  +:+ ": {" +:+ quoted "en" +:+ ": [" +:+ quoted "u1" +:+ ", " +:+ quoted "u2"
  +:+ ", " +:+ quoted "u3" +:+ "]}}}".

Definition dumps (v : JSON) : string :=
  match v with
  | JDict d =>
      match d !! "media_id" with
      | Some (JInt 123) => found_text
      | _ => "{}"
      end
  | _ => "null"
  end.

Definition service : Search.Service :=
  {| Search.strip := λ s, rstrip (lstrip s);
     Search.any_digit := has_digit;
     Search.json_dumps := dumps;
     Search.search := λ urls,
       match last urls with
       | Some url =>
           if String.eqb url (Search.search_url "T 1999")
           then Returned {| status := 200; json := Returned (JDict found_fields) |}
           else Returned {| status := 404;
                            json := Raised (ValueError "Expecting value") |}
       | None => Raised (ValueError "no URL")
       end |}.

(** A runtime that also reads the text of the found record. *)
Definition search_runtime : Runtime :=
  {| json_loads := λ s,
       if String.eqb s found_text then Returned (JDict found_fields)
       else if String.eqb s record_text then Returned record
       else Raised (ValueError "Expecting value");
     int_ := decimal;
     str_ := show;
     upper := upper_str;
     capitalize := capitalize_str |}.

Definition state : Search.State :=
  {| Search.world := world; Search.searched := [] |}.

Definition says (text : string) : Search.Message :=
  {| Search.message_chat_id := 7; Search.message_text := Some text |}.

(** The delivery of an update, a visit of a route, and a
    [handle_update] that would answer every update with a message. *)
Definition delivery : Worker.HttpRequest :=
  {| Worker.http_method := "POST"; Worker.hostname := "bot.example";
     Worker.pathname := "/webhook";
     Worker.request_json := Returned (JDict message_update) |}.


Definition echo (update : JSON) : M World unit :=
  TelegramBot.send_message self (JInt 7) "hi" None;; mret tt.

End Scenario.

(* ===================================================================== *)
(** * Properties of the protocol client                                   *)
(* ===================================================================== *)
Section MarkupNormalization.
Import TelegramBot.

Lemma pop_absent k (d : gmap string JSON) :
  d !! k = None → pop k d = (JNull, d).
Proof. intros H. unfold pop. by rewrite H, delete_id. Qed.

(** A button without alias entries is copied unchanged. *)
Lemma fix_button_canonical (btn : gmap string JSON) :
  canonical_button btn = true → fix_button btn = btn.
Proof.
  unfold canonical_button. rewrite andb_true_iff, !bool_decide_eq_true.
  intros [H1 H2]. unfold fix_button.
  rewrite (pop_absent _ _ H1). cbn [truthy].
  by rewrite (pop_absent _ _ H2).
Qed.

(** Unless both aliases were there, one pass leaves no alias behind. *)
Lemma fix_button_result_canonical (btn : gmap string JSON) :
  both_aliases btn = false → canonical_button (fix_button btn) = true.
Proof.
  unfold both_aliases, canonical_button, fix_button, pop.
  intros H. rewrite andb_true_iff, !bool_decide_eq_true.
  destruct (truthy (default JNull (btn !! "callbackData"))) eqn:Ht; simpl in *.
  - apply bool_decide_eq_false in H.
    assert (btn !! "callback" = None) as Hc.
    { destruct (btn !! "callback") eqn:E; [|done]. destruct H; eauto. }
    destruct (is_None _);
      rewrite ?lookup_insert_ne, ?lookup_delete_eq, ?lookup_delete_ne by done;
      by rewrite ?lookup_delete_eq.
  - destruct (is_None _);
      rewrite ?lookup_insert_ne, ?lookup_delete_eq by done;
      rewrite ?lookup_delete_ne, ?lookup_delete_eq by done; done.
Qed.

Lemma fix_button_idempotent (btn : gmap string JSON) :
  both_aliases btn = false → fix_button (fix_button btn) = fix_button btn.
Proof. intros H. by apply fix_button_canonical, fix_button_result_canonical. Qed.

Lemma fix_rows_idempotent (rows : list (list (gmap string JSON))) :
  forallb (forallb (λ b, negb (both_aliases b))) rows = true →
  map (map fix_button) (map (map fix_button) rows) = map (map fix_button) rows.
Proof.
  induction rows as [|row rows IH]; simpl; [done|].
  rewrite andb_true_iff. intros [Hrow Hrows]. f_equal; [|by apply IH].
  clear IH Hrows. induction row as [|b row IH]; simpl in *; [done|].
  apply andb_true_iff in Hrow as [Hb Hrow].
  f_equal; [|by apply IH]. apply fix_button_idempotent.
  by destruct (both_aliases b).
Qed.

Lemma fix_rows_canonical (rows : list (list (gmap string JSON))) :
  forallb (forallb canonical_button) rows = true →
  map (map fix_button) rows = rows.
Proof.
  induction rows as [|row rows IH]; simpl; [done|].
  rewrite andb_true_iff. intros [Hrow Hrows]. f_equal; [|by apply IH].
  clear IH Hrows. induction row as [|b row IH]; simpl in *; [done|].
  apply andb_true_iff in Hrow as [Hb Hrow].
  f_equal; [by apply fix_button_canonical | by apply IH].
Qed.

(** C6, as the claim words it, fails: a button with both aliases keeps
    ["callback"] after one pass and loses it in the second. *)
Lemma fix_reply_markup_not_idempotent :
  _fix_reply_markup (_fix_reply_markup (Some Scenario.two_aliases))
  ≠ _fix_reply_markup (Some Scenario.two_aliases).
Proof.
  intros H.
  apply (f_equal (λ o, (rows_of o ≫= id) !! 0%nat ≫= (.!! "callback"))) in H.
  vm_compute in H. discriminate H.
Qed.

(** C6, amended: normalization is idempotent on every markup in which no
    button has both a truthy [callbackData] and a [callback] entry; a
    markup whose buttons have neither alias is returned equal; and the
    button [{callbackData: x}] becomes [{callback_data: x}] for every
    non-empty [x]. *)
Theorem fix_reply_markup_idempotent (rm : option ReplyMarkup) :
  all_buttons (λ b, negb (both_aliases b)) rm = true →
  _fix_reply_markup (_fix_reply_markup rm) = _fix_reply_markup rm
  ∧ (all_buttons canonical_button rm = true → _fix_reply_markup rm = rm)
  ∧ (∀ x, x ≠ EmptyString →
       fix_button (<["callbackData" := JStr x]> ∅)
       = <["callback_data" := JStr x]> ∅).
Proof.
  intros Hok. split; [|split].
  - destruct rm as [[kb other]|]; [|done].
    unfold all_buttons, rows_of in Hok. unfold _fix_reply_markup, markup_falsy.
    destruct kb as [rows|]; simpl in *.
    + by rewrite fix_rows_idempotent.
    + destruct (bool_decide (other = ∅)) eqn:E; simpl; by rewrite ?E.
  - intros Hcan. destruct rm as [[kb other]|]; [|done].
    unfold all_buttons, rows_of in Hcan. unfold _fix_reply_markup, markup_falsy.
    destruct kb as [rows|]; simpl in *.
    + by rewrite fix_rows_canonical.
    + by destruct (bool_decide (other = ∅)).
  - intros x Hx. unfold fix_button, pop.
    rewrite lookup_insert_eq, delete_insert_eq, delete_empty. simpl.
    destruct (String.eqb_spec x ""); [done|]. done.
Qed.

Lemma fix_reply_markup_idempotent_witness :
  _fix_reply_markup (_fix_reply_markup (Some Scenario.aliased))
  = _fix_reply_markup (Some Scenario.aliased).
Proof.
  apply (fix_reply_markup_idempotent (Some Scenario.aliased)).
  vm_compute. reflexivity.
Defined.

End MarkupNormalization.

(* ===================================================================== *)
(** * Which objects normalization writes to                               *)
(* ===================================================================== *)
Section MarkupFrame.
Import Heap.

Lemma unchanged_refl (h : gmap positive Obj) : unchanged h h.
Proof. by intros l _. Qed.

Lemma unchanged_dom (h0 h : gmap positive Obj) l :
  unchanged h0 h → l ∈ dom h0 → l ∈ dom h.
Proof.
  intros Hu Hl. apply elem_of_dom. rewrite (Hu l Hl). by apply elem_of_dom.
Qed.

Lemma unchanged_insert (h0 h : gmap positive Obj) l o :
  unchanged h0 h → l ∉ dom h0 → unchanged h0 (<[l := o]> h).
Proof.
  intros Hu Hl l' Hl'. rewrite lookup_insert_ne; [by apply Hu|].
  intros ->. done.
Qed.

Context (h0 : gmap positive Obj).

Lemma keeps_ret {A} (a : A) (Q : A → Prop) : Q a → keeps h0 (mret a) Q.
Proof. intros HQ h r h' Hu [= <- <-]. split; [done|]. by intros ? [= <-]. Qed.

Lemma keeps_raise {A} e (Q : A → Prop) : keeps h0 (raise e) Q.
Proof. intros h r h' Hu [= <- <-]. split; [done|]. by intros ? [=]. Qed.

Lemma keeps_bind {A B} (c : M (gmap positive Obj) A)
    (k : A → M (gmap positive Obj) B) (Q : A → Prop) (R : B → Prop) :
  keeps h0 c Q → (∀ a, Q a → keeps h0 (k a) R) → keeps h0 (c ≫= k) R.
Proof.
  intros Hc Hk h r h' Hu. unfold mbind, M_bind, bind.
  destruct (c h) as [[a|e] h1] eqn:E; destruct (Hc _ _ _ Hu E) as [Hu1 HQ].
  - intros Hrun. eapply Hk; eauto.
  - intros [= <- <-]. split; [done|]. by intros ? [=].
Qed.

Lemma keeps_weaken {A} (c : M (gmap positive Obj) A) (Q R : A → Prop) :
  keeps h0 c Q → (∀ a, Q a → R a) → keeps h0 c R.
Proof.
  intros Hc HQR h r h' Hu E. destruct (Hc _ _ _ Hu E) as [Hu' HQ]. eauto.
Qed.

Lemma keeps_alloc o : keeps h0 (alloc o) (λ l, l ∉ dom h0).
Proof.
  intros h r h' Hu [= <- <-].
  assert (fresh (dom h) ∉ dom h0) as Hfresh.
  { intros Hin. apply (is_fresh (dom h)). by eapply unchanged_dom. }
  split; [by apply unchanged_insert|]. by intros ? [= <-].
Qed.

Lemma keeps_read l : keeps h0 (read l) (λ _, True).
Proof.
  intros h r h' Hu. unfold read.
  destruct (h !! l); intros [= <- <-]; done.
Qed.

Lemma keeps_write l o : l ∉ dom h0 → keeps h0 (write l o) (λ _, True).
Proof.
  intros Hl h r h' Hu [= <- <-]. split; [by apply unchanged_insert|done].
Qed.

Lemma keeps_read_dict v : keeps h0 (read_dict v) (λ _, True).
Proof.
  destruct v; try apply keeps_raise.
  eapply keeps_bind; [apply keeps_read|].
  intros [d|xs] _; [by apply keeps_ret | apply keeps_raise].
Qed.

Lemma keeps_read_list v : keeps h0 (read_list v) (λ _, True).
Proof.
  destruct v; try apply keeps_raise.
  eapply keeps_bind; [apply keeps_read|].
  intros [d|xs] _; [apply keeps_raise | by apply keeps_ret].
Qed.

Lemma keeps_truthy v : keeps h0 (truthy v) (λ _, True).
Proof.
  destruct v; try by apply keeps_ret.
  eapply keeps_bind; [apply keeps_read|]. intros o _. by apply keeps_ret.
Qed.

Lemma keeps_dict_pop l k : l ∉ dom h0 → keeps h0 (dict_pop l k) (λ _, True).
Proof.
  intros Hl. eapply keeps_bind; [apply keeps_read_dict|]. intros d _.
  eapply keeps_bind; [by apply keeps_write|]. intros _ _. by apply keeps_ret.
Qed.

Lemma keeps_dict_set l k v : l ∉ dom h0 → keeps h0 (dict_set l k v) (λ _, True).
Proof.
  intros Hl. eapply keeps_bind; [apply keeps_read_dict|]. intros d _.
  by apply keeps_write.
Qed.

Lemma keeps_list_append l v : l ∉ dom h0 → keeps h0 (list_append l v) (λ _, True).
Proof.
  intros Hl. eapply keeps_bind; [apply keeps_read_list|]. intros d _.
  by apply keeps_write.
Qed.

Lemma keeps_for_each {A} (xs : list A) (body : A → M (gmap positive Obj) unit) :
  (∀ x, keeps h0 (body x) (λ _, True)) →
  keeps h0 (for_each xs body) (λ _, True).
Proof.
  intros Hbody. induction xs as [|x xs IH]; simpl.
  - by apply keeps_ret.
  - apply (keeps_bind _ _ (λ _, True)); [apply Hbody | by intros _ _].
Qed.

Lemma keeps_fix_button fixed_row btn :
  fixed_row ∉ dom h0 → keeps h0 (fix_button fixed_row btn) (λ _, True).
Proof.
  intros Hrow. unfold fix_button.
  eapply keeps_bind; [apply keeps_read_dict|]. intros b _.
  eapply keeps_bind; [apply keeps_alloc|]. intros btn_copy Hcopy.
  eapply keeps_bind; [by apply keeps_dict_pop|]. intros v1 _.
  eapply keeps_bind.
  { apply (keeps_bind _ _ (λ _, True) (λ _, True)); [apply keeps_truthy|].
    intros [] _; [by apply keeps_ret | by apply keeps_dict_pop]. }
  intros cb _.
  eapply keeps_bind; [|intros _ _; by apply keeps_list_append].
  instantiate (1 := λ _, True).
  destruct cb; try by apply keeps_dict_set. by apply keeps_ret.
Qed.

Lemma keeps_fix_row fixed_kb row :
  fixed_kb ∉ dom h0 → keeps h0 (fix_row fixed_kb row) (λ _, True).
Proof.
  intros Hkb. unfold fix_row.
  eapply keeps_bind; [apply keeps_alloc|]. intros fixed_row Hrow.
  eapply keeps_bind; [apply keeps_read_list|]. intros btns _.
  eapply keeps_bind; [|intros _ _; by apply keeps_list_append].
  apply keeps_for_each. intros btn. by apply keeps_fix_button.
Qed.

Lemma keeps_fix_reply_markup reply_markup :
  keeps h0 (_fix_reply_markup reply_markup)
    (λ v, v = reply_markup ∨ ∃ l, v = VRef l ∧ (l ∉ dom h0)).
Proof.
  assert (∀ v, keeps h0
    (d ← read_dict v;
     if bool_decide (d = ∅) then mret v
     else match d !! "inline_keyboard" with
          | None => mret v
          | Some _ =>
              rm ← alloc (ODict d);
              fixed_kb ← alloc (OList []);
              d' ← read_dict (VRef rm);
              rows ← match d' !! "inline_keyboard" with
                     | Some kb => read_list kb
                     | None => raise (KeyError "inline_keyboard")
                     end;
              for_each rows (fix_row fixed_kb);;
              dict_set rm "inline_keyboard" (VRef fixed_kb);;
              mret (VRef rm)
          end)
    (λ r, r = v ∨ ∃ l, r = VRef l ∧ (l ∉ dom h0))) as Hgen.
  { intros v. eapply keeps_bind; [apply keeps_read_dict|]. intros d _.
    destruct (bool_decide (d = ∅)); [apply keeps_ret; by left|].
    destruct (d !! "inline_keyboard"); [|apply keeps_ret; by left].
    eapply keeps_bind; [apply keeps_alloc|]. intros rm Hrm.
    eapply keeps_bind; [apply keeps_alloc|]. intros fixed_kb Hkb.
    eapply keeps_bind; [apply keeps_read_dict|]. intros d' _.
    eapply keeps_bind.
    { instantiate (1 := λ _, True).
      destruct (d' !! "inline_keyboard");
        [apply keeps_read_list | apply keeps_raise]. }
    intros rows _.
    eapply keeps_bind.
    { apply keeps_for_each. intros row. by apply keeps_fix_row. }
    intros _ _.
    eapply keeps_bind; [by apply keeps_dict_set|]. intros _ _.
    apply keeps_ret. right. eauto. }
  destruct reply_markup; try apply Hgen. apply keeps_ret. by left.
Qed.

End MarkupFrame.

Section MarkupFresh.
Import Heap.

Lemma bind_Returned {W A B} (c : M W A) (k : A → M W B) w b w' :
  (c ≫= k) w = (Returned b, w') →
  ∃ a w1, c w = (Returned a, w1) ∧ k a w1 = (Returned b, w').
Proof.
  unfold mbind, M_bind, bind. destruct (c w) as [[a|e] w1]; [eauto|done].
Qed.

Lemma bind_run {W A B} (c : M W A) (k : A → M W B) w a w1 :
  c w = (Returned a, w1) → (c ≫= k) w = k a w1.
Proof. intros H. unfold mbind, M_bind, bind. by rewrite H. Qed.

Lemma read_dict_run l d (h : gmap positive Obj) :
  h !! l = Some (ODict d) → read_dict (VRef l) h = (Returned d, h).
Proof.
  intros H. unfold read_dict.
  rewrite (bind_run _ _ h (ODict d) h); [done|].
  unfold read. by rewrite H.
Qed.

Lemma read_Returned l o (h h' : gmap positive Obj) :
  read l h = (Returned o, h') → h' = h ∧ h !! l = Some o.
Proof. unfold read. destruct (h !! l); by intros [= <- <-]. Qed.

Lemma read_dict_Returned v d (h h' : gmap positive Obj) :
  read_dict v h = (Returned d, h') →
  h' = h ∧ ∃ l, v = VRef l ∧ h !! l = Some (ODict d).
Proof.
  destruct v; try done. intros H.
  apply bind_Returned in H as (o & h1 & Hr & Hk).
  apply read_Returned in Hr as [-> Hl].
  destruct o; [|done]. injection Hk as <- <-. eauto.
Qed.

Lemma read_list_Returned v xs (h h' : gmap positive Obj) :
  read_list v h = (Returned xs, h') →
  h' = h ∧ ∃ l, v = VRef l ∧ h !! l = Some (OList xs).
Proof.
  destruct v; try done. intros H.
  apply bind_Returned in H as (o & h1 & Hr & Hk).
  apply read_Returned in Hr as [-> Hl].
  destruct o; [done|]. injection Hk as <- <-. eauto.
Qed.

Lemma alloc_Returned o l (h h' : gmap positive Obj) :
  alloc o h = (Returned l, h') → (l ∉ dom h) ∧ h' = <[l := o]> h.
Proof. intros [= <- <-]. split; [apply is_fresh | done]. Qed.

Lemma list_append_Returned l v u (h h' : gmap positive Obj) :
  list_append l v h = (Returned u, h') →
  ∃ xs, h !! l = Some (OList xs) ∧ h' = <[l := OList (xs ++ [v])]> h.
Proof.
  intros H. apply bind_Returned in H as (xs & h1 & Hr & Hw).
  apply read_list_Returned in Hr as [-> (l' & [= <-] & Hl)].
  injection Hw as <-. eauto.
Qed.

Lemma dict_set_Returned l k v u (h h' : gmap positive Obj) :
  dict_set l k v h = (Returned u, h') →
  ∃ d, h !! l = Some (ODict d) ∧ h' = <[l := ODict (<[k := v]> d)]> h.
Proof.
  intros H. apply bind_Returned in H as (d & h1 & Hr & Hw).
  apply read_dict_Returned in Hr as [-> (l' & [= <-] & Hl)].
  injection Hw as <-. eauto.
Qed.

Lemma fresh_button_mono (h0 h : gmap positive Obj) v :
  dom h0 ⊆ dom h → fresh_button h v → fresh_button h0 v.
Proof. intros Hsub (l & -> & Hl). exists l. split; [done|set_solver]. Qed.

Lemma unchanged_subseteq (h0 h : gmap positive Obj) :
  unchanged h0 h → dom h0 ⊆ dom h.
Proof. intros Hu l Hl. by eapply unchanged_dom. Qed.

(** One pass of the inner loop appends a reference to a new object. *)
Lemma fix_button_appends (hs h h' : gmap positive Obj) fixed_row btn acc :
  fixed_row ∉ dom hs → unchanged hs h →
  h !! fixed_row = Some (OList acc) →
  fix_button fixed_row btn h = (Returned tt, h') →
  ∃ l, (l ∉ dom hs) ∧ h' !! fixed_row = Some (OList (acc ++ [VRef l])).
Proof.
  intros Hrow Hu Hacc Hrun. unfold fix_button in Hrun.
  apply bind_Returned in Hrun as (b & h1 & Hb & Hrun).
  apply read_dict_Returned in Hb as [-> _].
  apply bind_Returned in Hrun as (btn_copy & h2 & Ha & Hrun).
  apply alloc_Returned in Ha as [Hcopy ->].
  assert (unchanged h (<[btn_copy := ODict b]> h)) as Hu2
    by (apply unchanged_insert; [apply unchanged_refl | done]).
  apply bind_Returned in Hrun as (v1 & h3 & Hpop & Hrun).
  apply (keeps_dict_pop h _ _ Hcopy _ _ _ Hu2) in Hpop as [Hu3 _].
  apply bind_Returned in Hrun as (cb & h4 & Hcb & Hrun).
  assert (unchanged h h4) as Hu4.
  { eapply (keeps_bind h (truthy v1) _ (λ _, True) (λ _, True));
      [apply keeps_truthy | | exact Hu3 | exact Hcb].
    intros [] _; [by apply keeps_ret | by apply keeps_dict_pop]. }
  apply bind_Returned in Hrun as ([] & h5 & Hset & Hrun).
  assert (unchanged h h5) as Hu5.
  { destruct cb;
      try (by eapply (keeps_dict_set h _ _ _ Hcopy _ _ _ Hu4) in Hset as [? _]).
    by injection Hset as <-. }
  apply list_append_Returned in Hrun as (xs & Hxs & ->).
  assert (fixed_row ∈ dom h) as Hin by (apply elem_of_dom; eauto).
  rewrite (Hu5 _ Hin), Hacc in Hxs. injection Hxs as <-.
  exists btn_copy. split.
  - intros Hc. apply Hcopy. by eapply unchanged_dom.
  - by rewrite lookup_insert_eq.
Qed.

Lemma inner_loop_fresh (hs : gmap positive Obj) fixed_row btns :
  fixed_row ∉ dom hs →
  ∀ (h h' : gmap positive Obj) acc,
    unchanged hs h → h !! fixed_row = Some (OList acc) →
    Forall (fresh_button hs) acc →
    for_each btns (fix_button fixed_row) h = (Returned tt, h') →
    unchanged hs h'
    ∧ ∃ acc', h' !! fixed_row = Some (OList acc')
              ∧ Forall (fresh_button hs) acc'.
Proof.
  intros Hrow. induction btns as [|btn btns IH]; intros h h' acc Hu Hacc Hall Hrun.
  - injection Hrun as <-. eauto.
  - simpl in Hrun.
    change (bind ?c ?k) with (c ≫= k) in Hrun.
    apply bind_Returned in Hrun as ([] & h1 & Hstep & Hrest).
    destruct (fix_button_appends _ _ _ _ _ _ Hrow Hu Hacc Hstep) as (l & Hl & Hacc1).
    destruct (keeps_fix_button hs _ btn Hrow _ _ _ Hu Hstep) as [Hu1 _].
    eapply IH; [exact Hu1 | exact Hacc1 | | exact Hrest].
    apply Forall_app. split; [done|]. repeat constructor. by exists l.
Qed.

(** The invariant of the outer loop: the copy [rm] and the list
    [fixed_kb] are where they were put, and the rows collected so far are
    new lists of new buttons. *)
Lemma fix_row_appends (h0 h h' : gmap positive Obj) rm fixed_kb d row acc :
  unchanged h0 h → rm ∉ dom h0 → fixed_kb ∉ dom h0 → rm ≠ fixed_kb →
  h !! rm = Some (ODict d) → h !! fixed_kb = Some (OList acc) →
  Forall (λ v, fresh_row h0 h v ∧ v ≠ VRef rm ∧ v ≠ VRef fixed_kb) acc →
  fix_row fixed_kb row h = (Returned tt, h') →
  unchanged h0 h' ∧ h' !! rm = Some (ODict d)
  ∧ ∃ acc', h' !! fixed_kb = Some (OList acc')
      ∧ Forall (λ v, fresh_row h0 h' v ∧ v ≠ VRef rm ∧ v ≠ VRef fixed_kb) acc'.
Proof.
  intros Hu Hrm Hkb Hne Hrmd Hacc Hall Hrun.
  destruct (keeps_fix_row h0 _ row Hkb _ _ _ Hu Hrun) as [Hu' _].
  split; [done|]. unfold fix_row in Hrun.
  apply bind_Returned in Hrun as (fixed_row & h1 & Ha & Hrun).
  apply alloc_Returned in Ha as [Hrow ->].
  apply bind_Returned in Hrun as (btns & h2 & Hb & Hrun).
  apply read_list_Returned in Hb as [-> _].
  apply bind_Returned in Hrun as ([] & h3 & Hloop & Hrun).
  assert (unchanged h (<[fixed_row := OList []]> h)) as Hu1
    by (apply unchanged_insert; [apply unchanged_refl | done]).
  destruct (inner_loop_fresh h fixed_row btns Hrow _ _ [] Hu1
              (lookup_insert_eq _ _ _) (Forall_nil_2 _) Hloop)
    as (Hu3 & acc' & Hacc' & Hfresh).
  apply list_append_Returned in Hrun as (xs & Hxs & ->).
  assert (rm ∈ dom h) as Hrm_in by (apply elem_of_dom; eauto).
  assert (fixed_kb ∈ dom h) as Hkb_in by (apply elem_of_dom; eauto).
  rewrite (Hu3 _ Hkb_in), Hacc in Hxs. injection Hxs as <-.
  assert (fixed_row ≠ fixed_kb) as Hne1 by (by intros ->).
  assert (fixed_row ≠ rm) as Hne2 by (by intros ->).
  assert (dom h0 ⊆ dom h) as Hsub by by apply unchanged_subseteq.
  split.
  { rewrite lookup_insert_ne by done. by rewrite (Hu3 _ Hrm_in). }
  eexists. split; [by rewrite lookup_insert_eq|].
  apply Forall_app. split.
  - eapply Forall_impl; [exact Hall|]. simpl.
    intros v ((l & bs & -> & Hl & Hbs & Hfb) & Hv1 & Hv2).
    split; [|done]. exists l, bs. split; [done|]. split; [done|].
    split; [|done]. rewrite lookup_insert_ne by congruence.
    rewrite Hu3; [done|]. apply elem_of_dom. eauto.
  - repeat constructor; [|congruence..].
    exists fixed_row, acc'. split; [done|]. split; [set_solver|].
    split; [by rewrite lookup_insert_ne|].
    eapply Forall_impl; [exact Hfresh|]. intros v. by apply fresh_button_mono.
Qed.

Lemma outer_loop_fresh (h0 : gmap positive Obj) rm fixed_kb d rows :
  rm ∉ dom h0 → fixed_kb ∉ dom h0 → rm ≠ fixed_kb →
  ∀ (h h' : gmap positive Obj) acc,
    unchanged h0 h →
    h !! rm = Some (ODict d) → h !! fixed_kb = Some (OList acc) →
    Forall (λ v, fresh_row h0 h v ∧ v ≠ VRef rm ∧ v ≠ VRef fixed_kb) acc →
    for_each rows (fix_row fixed_kb) h = (Returned tt, h') →
    unchanged h0 h' ∧ h' !! rm = Some (ODict d)
    ∧ ∃ acc', h' !! fixed_kb = Some (OList acc')
        ∧ Forall (λ v, fresh_row h0 h' v ∧ v ≠ VRef rm ∧ v ≠ VRef fixed_kb) acc'.
Proof.
  intros Hrm Hkb Hne.
  induction rows as [|row rows IH]; intros h h' acc Hu Hrmd Hacc Hall Hrun.
  - injection Hrun as <-. eauto.
  - simpl in Hrun. change (bind ?c ?k) with (c ≫= k) in Hrun.
    apply bind_Returned in Hrun as ([] & h1 & Hstep & Hrest).
    destruct (fix_row_appends _ _ _ _ _ _ _ _ Hu Hrm Hkb Hne Hrmd Hacc Hall Hstep)
      as (Hu1 & Hrmd1 & acc1 & Hacc1 & Hall1).
    eapply IH; eauto.
Qed.

(** C10: [_fix_reply_markup] leaves every object of the caller's store
    as it was, whatever it returns or raises.  [None] and a dict without
    ["inline_keyboard"] are returned themselves, with no write at all;
    otherwise the returned dict, its list of rows, every row and every
    button are objects that did not exist before the call. *)
Theorem fix_reply_markup_frame (reply_markup : Val) (h : gmap positive Obj) :
  let r := (Heap._fix_reply_markup reply_markup h).1 in
  let h' := (Heap._fix_reply_markup reply_markup h).2 in
  unchanged h h'
  ∧ (reply_markup = VNone → r = Returned VNone ∧ h' = h)
  ∧ (∀ l d, reply_markup = VRef l → h !! l = Some (ODict d) →
       d !! "inline_keyboard" = None → r = Returned reply_markup ∧ h' = h)
  ∧ (∀ l d v, reply_markup = VRef l → h !! l = Some (ODict d) →
       is_Some (d !! "inline_keyboard") → r = Returned v →
       built_fresh h h' d v).
Proof.
  simpl. destruct (Heap._fix_reply_markup reply_markup h) as [r h'] eqn:Hrun.
  simpl. split; [|split; [|split]].
  - by destruct (keeps_fix_reply_markup h reply_markup _ _ _ (unchanged_refl h) Hrun).
  - intros ->. by injection Hrun as <- <-.
  - intros l d -> Hl Hd. unfold Heap._fix_reply_markup in Hrun.
    rewrite (bind_run _ _ _ _ _ (read_dict_run _ _ _ Hl)), Hd in Hrun.
    destruct (bool_decide (d = ∅)); by injection Hrun as <- <-.
  - intros l d v -> Hl [kb Hd] ->.
    unfold Heap._fix_reply_markup in Hrun.
    rewrite (bind_run _ _ _ _ _ (read_dict_run _ _ _ Hl)), Hd in Hrun.
    destruct (bool_decide (d = ∅)) eqn:Hemp.
    { apply bool_decide_eq_true in Hemp. by rewrite Hemp in Hd. }
    apply bind_Returned in Hrun as (rm & h1 & Ha & Hrun).
    apply alloc_Returned in Ha as [Hrm ->].
    apply bind_Returned in Hrun as (fixed_kb & h2 & Ha & Hrun).
    apply alloc_Returned in Ha as [Hkb ->].
    apply bind_Returned in Hrun as (d' & h3 & Hd' & Hrun).
    apply read_dict_Returned in Hd' as [-> (? & [= <-] & Hd')].
    assert (rm ≠ fixed_kb) as Hne.
    { intros ->. apply Hkb. rewrite dom_insert_L. set_solver. }
    rewrite lookup_insert_ne, lookup_insert_eq in Hd' by done.
    injection Hd' as <-. rewrite Hd in Hrun.
    apply bind_Returned in Hrun as (rows & h4 & Hrows & Hrun).
    apply read_list_Returned in Hrows as [-> _].
    apply bind_Returned in Hrun as ([] & h5 & Hloop & Hrun).
    assert (fixed_kb ∉ dom h) as Hkb'.
    { intros Hin. apply Hkb. rewrite dom_insert_L. set_solver. }
    assert (unchanged h (<[fixed_kb := OList []]> (<[rm := ODict d]> h))) as Hu0.
    { do 2 (apply unchanged_insert; [|done]). apply unchanged_refl. }
    assert ((<[fixed_kb := OList []]> (<[rm := ODict d]> h) : gmap positive Obj)
              !! rm = Some (ODict d)) as Hrm0
      by (by rewrite lookup_insert_ne, lookup_insert_eq).
    destruct (outer_loop_fresh h rm fixed_kb d rows Hrm Hkb' Hne _ _ [] Hu0 Hrm0
                (lookup_insert_eq _ _ _) (Forall_nil_2 _) Hloop)
      as (Hu5 & Hrm5 & acc & Hacc & Hall).
    apply bind_Returned in Hrun as ([] & h6 & Hset & Hret).
    apply dict_set_Returned in Hset as (d6 & Hd6 & ->).
    injection Hret as <- <-.
    rewrite Hrm5 in Hd6. injection Hd6 as <-.
    exists rm, fixed_kb, acc. split; [done|]. split; [done|].
    split; [by rewrite lookup_insert_eq|]. split; [done|].
    split; [by rewrite lookup_insert_ne|].
    eapply Forall_impl; [exact Hall|]. simpl.
    intros v ((lr & bs & -> & Hlr & Hbs & Hfb) & Hv1 & Hv2).
    exists lr, bs. split; [done|]. split; [done|]. split; [|done].
    rewrite lookup_insert_ne by congruence. done.
Qed.

(** On the scenario's store the call returns a new dict at 5 whose
    button, at 8, has the canonical entry, and the four objects of the
    caller are as they were. *)
Example fix_reply_markup_store :
  let run := Heap._fix_reply_markup (VRef 1) Scenario.store in
  run.1 = Returned (VRef 5)
  ∧ run.2 !! 8%positive
    = Some (ODict (<["text" := VStr "A"]> (<["callback_data" := VStr "x"]> ∅)))
  ∧ (λ l, run.2 !! l) <$> [1; 2; 3; 4]%positive
    = (λ l, Scenario.store !! l) <$> [1; 2; 3; 4]%positive.
Proof. vm_compute. done. Qed.

End MarkupFresh.

(* ===================================================================== *)
(** * The API call and its uniform result                                 *)
(* ===================================================================== *)
Section ApiCall.
Import TelegramBot.

Lemma api_call_run self method content_type body w :
  let req := api_request self method content_type body in
  _api_call self method content_type body w
  = (Returned (api_result (net w (sent w ++ [req]))), after_request w req).
Proof.
  simpl. unfold _api_call, try_except, mbind, M_bind, bind, fetch, lift, api_result.
  simpl. destruct (net w _) as [resp|e]; [|done].
  by destruct (json resp).
Qed.

Lemma post_json_run self method payload w :
  let req := api_request self method "application/json"
               (JsonBody (payload_json payload)) in
  _post_json self method payload w
  = (Returned (api_result (net w (sent w ++ [req]))), after_request w req).
Proof. apply api_call_run. Qed.

(** C3: [_api_call] returns for every method, body and behaviour of the
    network, having made exactly one request; when [fetch] raises, or
    [resp.json()] raises, the result is [{ok: false, description: str(e)}],
    and otherwise it is the parsed reply.  [_post_json], the JSON call, is
    the instance with a JSON body. *)
Theorem api_call_never_raises (self : TelegramBot) (method content_type : string)
    (body : Body) (w : World) :
  let req := api_request self method content_type body in
  ∃ result,
    _api_call self method content_type body w
      = (Returned result, after_request w req)
    ∧ match net w (sent w ++ [req]) with
      | Raised e =>
          result = error_result e
          ∧ py_get result "ok" JNull = Returned (JBool false)
          ∧ py_get result "description" JNull = Returned (JStr (exc_msg e))
      | Returned resp =>
          match json resp with
          | Raised e =>
              result = error_result e
              ∧ py_get result "ok" JNull = Returned (JBool false)
              ∧ py_get result "description" JNull = Returned (JStr (exc_msg e))
          | Returned j => result = j
          end
      end
    ∧ ∀ payload, ∃ result' w',
        _post_json self method payload w = (Returned result', w').
Proof.
  simpl. eexists. split; [apply api_call_run|]. split.
  - unfold api_result. destruct (net w _) as [resp|e]; [destruct (json resp)|]; done.
  - intros payload. rewrite post_json_run. eauto.
Qed.

End ApiCall.

(* ===================================================================== *)
(** * Where outbound calls normalize the keyboard                         *)
(* ===================================================================== *)
Section Outbound.
Import TelegramBot.

(** The shared lines pass the markup of the options through
    [_fix_reply_markup]. *)
Lemma with_options_normalizes payload opts rm :
  reply_markup opts = Some rm →
  reply_markup (with_options payload (Some opts)) = Some (_fix_reply_markup rm).
Proof.
  intros H. unfold with_options, or_empty, params_truthy. rewrite H. simpl.
  by rewrite H.
Qed.

(** [send_message], [edit_message_text] and the reference mode of
    [_send_file] send the normalized markup. *)
Lemma json_calls_normalize self chat_id text r method file_field dn dm opts rm w :
  reply_markup opts = Some rm →
  ∃ p1 p2 p3,
    sent (send_message self chat_id text (Some opts) w).2
      = sent w ++ [api_request self "sendMessage" "application/json"
                     (JsonBody (payload_json p1))]
    ∧ sent (edit_message_text self text (Some opts) w).2
      = sent w ++ [api_request self "editMessageText" "application/json"
                     (JsonBody (payload_json p2))]
    ∧ sent (_send_file self method file_field chat_id (FileRef r) dn dm
              (Some opts) w).2
      = sent w ++ [api_request self method "application/json"
                     (JsonBody (payload_json p3))]
    ∧ reply_markup p1 = Some (_fix_reply_markup rm)
    ∧ reply_markup p2 = Some (_fix_reply_markup rm)
    ∧ reply_markup p3 = Some (_fix_reply_markup rm).
Proof.
  intros H. do 3 eexists.
  unfold send_message, edit_message_text, _send_file.
  rewrite !post_json_run. simpl.
  repeat split; by apply with_options_normalizes.
Qed.

(** [send_poll] merges its options as they are. *)
Lemma send_poll_keeps_markup self chat_id question poll_options opts rm w :
  reply_markup opts = Some rm →
  ∃ p, sent (send_poll self chat_id question poll_options (Some opts) w).2
       = sent w ++ [api_request self "sendPoll" "application/json"
                      (JsonBody (payload_json p))]
       ∧ reply_markup p = Some rm.
Proof.
  intros H. eexists. unfold send_poll. rewrite post_json_run. simpl.
  split; [reflexivity|].
  unfold params_truthy, or_empty, params_truthy. rewrite H. simpl.
  by rewrite H.
Qed.

(** The class has no method for editing a caption or a media. *)
Lemma class_lacks_edit_methods :
  ("edit_message_media" ∉ method_names)
  ∧ ("edit_message_caption" ∉ method_names)
  ∧ ("answer_callback_query" ∈ method_names).
Proof.
  split; [|split].
  - apply (bool_decide_eq_false_1 _). vm_compute. reflexivity.
  - apply (bool_decide_eq_false_1 _). vm_compute. reflexivity.
  - apply (bool_decide_eq_true_1 _). vm_compute. reflexivity.
Qed.

(** C7 fails in the raw-bytes mode of [_send_file]: the markup of the
    options goes into the multipart field as it was given, so a button
    written with [callbackData] is sent with [callbackData]. *)
Theorem send_file_bytes_keeps_alias (self : TelegramBot)
    (method file_field : string) (chat_id : JSON) (b dn dm : string)
    (m : ReplyMarkup) (its : gmap string JSON) (w : World) :
  let options := Some {| reply_markup := Some (Some m); items := its |} in
  ∃ boundary fields filename content_type,
    sent (_send_file self method file_field chat_id (FileBytes b) dn dm
            options w).2
    = sent w ++ [api_request self method
                   ("multipart/form-data; boundary=" +:+ boundary)
                   (MultipartBody boundary fields file_field filename b
                      content_type)]
    ∧ fields !! "reply_markup" = Some (Dumps (markup_to_json m))
    ∧ markup_to_json Scenario.aliased
      ≠ default JNull (markup_to_json <$> _fix_reply_markup (Some Scenario.aliased)).
Proof.
  simpl. unfold _send_file, _build_multipart.
  do 4 eexists. split; [|split].
  - unfold mbind, M_bind, bind, draw_token, mret, M_ret, ret. simpl.
    rewrite api_call_run. simpl. reflexivity.
  - unfold multipart_fields, or_empty, params_truthy. simpl.
    apply lookup_union_Some_l. by rewrite lookup_insert_eq.
  - intros Heq.
    apply (f_equal (λ j, match j with
                 | JDict d => match d !! "inline_keyboard" with
                              | Some (JList [JList [JDict btn]]) =>
                                  btn !! "callbackData"
                              | _ => None
                              end
                 | _ => None
                 end)) in Heq.
    vm_compute in Heq. discriminate Heq.
Qed.

(** The same on the scenario: the photo is sent with the alias in place. *)
Example send_photo_bytes_scenario :
  req_body <$>
    sent (send_photo Scenario.self (JInt 7) (FileBytes "img")
            (Some {| reply_markup := Some (Some Scenario.aliased); items := ∅ |})
            Scenario.world).2
  = [ MultipartBody "----BotBoundary0123456789abcdef0123456789abcdef"
        (<["chat_id" := Str (JInt 7)]>
           (<["reply_markup" := Dumps (markup_to_json Scenario.aliased)]> ∅))
        "photo" (JStr "photo.jpg") "img" (JStr "image/jpeg") ].
Proof. vm_compute. reflexivity. Qed.

End Outbound.

(* ===================================================================== *)
(** * The dispatcher                                                      *)
(* ===================================================================== *)
Section Dispatch.
Import TelegramBot.
Context {W B : Type}.

Lemma observed_step {A} kind i (h : B → JSON → M W unit) (bot : B) payload
    (k : unit → M (W * list (Kind * nat * JSON * Outcome unit)) A) (w : W) log :
  bind (observed kind i h bot payload) k (w, log)
  = match h bot payload w with
    | (Returned a, w1) => k a (w1, log ++ [(kind, i, payload, Returned a)])
    | (Raised e, w1) => (Raised e, (w1, log ++ [(kind, i, payload, Raised e)]))
    end.
Proof.
  unfold bind, observed. simpl. by destruct (h bot payload w) as [[] ?].
Qed.

(** A loop over wrapped handlers does what the loop over the handlers
    does, and records the calls it made: the handlers from the first on,
    in order, each but the last having returned; the last raised exactly
    when the loop did, and then with the same exception; when the loop
    returned, all the handlers were called. *)
Lemma for_each_observed kind (bot : B) payload (hs : list (B → JSON → M W unit)) :
  ∀ from (w : W) log,
    let run := for_each (imap (λ i, observed kind (from + i)) hs)
                 (λ handler, handler bot payload) (w, log) in
    for_each hs (λ handler, handler bot payload) w = (run.1, run.2.1)
    ∧ ∃ outcomes : list (Outcome unit),
        run.2.2 = log ++ imap (λ i o, (kind, from + i, payload, o))%nat outcomes
        ∧ (length outcomes ≤ length hs)%nat
        ∧ (∀ i o, outcomes !! i = Some o → (S i < length outcomes)%nat →
                  o = Returned tt)
        ∧ match run.1 with
          | Returned _ =>
              length outcomes = length hs
              ∧ ∀ o, o ∈ outcomes → o = Returned tt
          | Raised e => last outcomes = Some (Raised e)
          end.
Proof.
  induction hs as [|h hs IH]; intros from w log.
  - simpl. split; [done|]. exists []. rewrite app_nil_r.
    split; [done|]. split; [done|]. split; [done|]. split; [done|].
    intros o Ho. by apply elem_of_nil in Ho.
  - cbn [imap for_each length].
    assert (imap ((λ i, observed kind (from + i)) ∘ S) hs
            = imap (λ i, observed kind (S from + i)) hs) as ->.
    { apply imap_ext. intros i x _. simpl. f_equal. lia. }
    rewrite observed_step, Nat.add_0_r. unfold bind at 1.
    destruct (h bot payload w) as [[[]|e] w1] eqn:Hh.
    + specialize (IH (S from) w1 (log ++ [(kind, from, payload, Returned tt)])).
      destruct IH as [Hrun (outcomes & Hlog & Hlen & Hbut & Hend)].
      split; [done|]. exists (Returned tt :: outcomes).
      split.
      { rewrite Hlog, <- app_assoc. cbn [imap]. rewrite Nat.add_0_r.
        do 2 f_equal. apply imap_ext. intros i o _. simpl.
        do 3 f_equal. lia. }
      split; [simpl; lia|]. split.
      { intros [|i] o Ho Hi; simpl in Ho; [by injection Ho as <-|].
        apply (Hbut i o Ho). simpl in Hi. lia. }
      destruct (for_each _ _ _).1 as [[]|e'].
      * destruct Hend as [Hall Hret]. split; [simpl; lia|].
        intros o [->|Ho]%elem_of_cons; [done|by apply Hret].
      * destruct outcomes as [|o outcomes]; [done|]. exact Hend.
    + simpl. split; [done|]. exists [Raised e].
      split; [simpl; by rewrite Nat.add_0_r|]. split; [simpl; lia|].
      split; [|done]. intros [|i] o Ho Hi; simpl in Hi; lia.
Qed.

Lemma for_each_observed_0 kind (bot : B) payload
    (hs : list (B → JSON → M W unit)) (w : W) :
  let run := for_each (imap (observed kind) hs)
               (λ handler, handler bot payload) (w, []) in
  for_each hs (λ handler, handler bot payload) w = (run.1, run.2.1)
  ∧ ∃ outcomes : list (Outcome unit),
      run.2.2 = imap (λ i o, (kind, i, payload, o)) outcomes
      ∧ (length outcomes ≤ length hs)%nat
      ∧ (∀ i o, outcomes !! i = Some o → (S i < length outcomes)%nat →
                o = Returned tt)
      ∧ match run.1 with
        | Returned _ =>
            length outcomes = length hs
            ∧ ∀ o, o ∈ outcomes → o = Returned tt
        | Raised e => last outcomes = Some (Raised e)
        end.
Proof. apply (for_each_observed kind bot payload hs 0%nat w []). Qed.

(** C5, amended: at most one branch fires, and a handler that raises
    ends the dispatch.  An update with a truthy [message] goes to the
    message handlers and to no other; otherwise one with a truthy
    [callback_query] goes to the callback handlers and to no other;
    otherwise no handler is called and the dispatch returns, the world
    as it was.  The calls of the branch are those of its handlers from
    the first on, in registration order, each with the payload and each
    made after the one before it returned.  When the dispatch returns,
    every handler of the branch was called and returned; when it raises,
    the last handler called raised that exception, and the handlers
    after it were not called.  Watching the handlers changes neither the
    outcome nor the world. *)
Theorem route_update_branches (self : Dispatcher W B) (bot : B)
    (update : gmap string JSON) (w : W) :
  let run := route_update (observed_dispatcher self) bot update (w, []) in
  let in_order kind payload (handlers : list (B → JSON → M W unit)) :=
    ∃ outcomes : list (Outcome unit),
      run.2.2 = imap (λ i o, (kind, i, payload, o)) outcomes
      ∧ (length outcomes ≤ length handlers)%nat
      ∧ (∀ i o, outcomes !! i = Some o → (S i < length outcomes)%nat →
                o = Returned tt)
      ∧ match run.1 with
        | Returned _ =>
            length outcomes = length handlers
            ∧ ∀ o, o ∈ outcomes → o = Returned tt
        | Raised e => last outcomes = Some (Raised e)
        end in
  let payload k :=
    match update !! k with
    | Some v => if truthy v then Some v else None
    | None => None
    end in
  route_update self bot update w = (run.1, run.2.1)
  ∧ match payload "message", payload "callback_query" with
    | Some msg, _ => in_order OnMessage msg (message_handlers self)
    | None, Some cb => in_order OnCallbackQuery cb (callback_query_handlers self)
    | None, None => run = (Returned tt, (w, []))
    end.
Proof.
  unfold route_update. simpl.
  change (match update !! "message" with
          | Some v => if truthy v then Some v else None
          | None => None
          end) with (carries update "message").
  change (match update !! "callback_query" with
          | Some v => if truthy v then Some v else None
          | None => None
          end) with (carries update "callback_query").
  destruct (carries update "message") as [msg|].
  { apply for_each_observed_0. }
  destruct (carries update "callback_query") as [cb|].
  { apply for_each_observed_0. }
  done.
Qed.

End Dispatch.

Section DispatchExamples.
Import TelegramBot.

(** For an update that carries neither a message nor a callback event
    neither registered handler is called. *)
Example route_update_edited_message :
  (route_update (traced_dispatcher Scenario.idle_dispatcher) tt
     Scenario.edited_message_update (tt, [])).2.2 = [].
Proof. vm_compute. reflexivity. Qed.

(** C5 as worded fails: it is not so that every dispatch calls all the
    handlers of exactly one of the two lists.  The edited-message update
    goes to neither handler of a dispatcher that has one of each kind. *)
Lemma route_update_no_branch :
  ¬ ∀ (self : Dispatcher unit unit) (update : gmap string JSON),
      let log := (route_update (traced_dispatcher self) tt update (tt, [])).2.2 in
      (∃ msg, log = invocations OnMessage msg 0 (length (message_handlers self)))
      ∨ (∃ cb, log = invocations OnCallbackQuery cb 0
                       (length (callback_query_handlers self))).
Proof.
  intros H.
  destruct (H Scenario.idle_dispatcher Scenario.edited_message_update)
    as [[msg Hlog]|[cb Hlog]]; vm_compute in Hlog; discriminate Hlog.
Qed.

(** And a handler that raises ends the loop: the second message handler
    is not called. *)
Example route_update_stops_at_raise :
  route_update (traced_dispatcher Scenario.failing_dispatcher) tt
     Scenario.message_update (tt, [])
  = (Raised (ValueError "boom"),
     (tt, [(OnMessage, 0%nat, JDict (<["text" := JStr "hi"]> ∅))])).
Proof. vm_compute. reflexivity. Qed.

(** When only the last handler raises, every handler was called and the
    dispatch raises all the same. *)
Example route_update_last_raises :
  route_update (observed_dispatcher Scenario.late_failing_dispatcher) tt
     Scenario.message_update (tt, [])
  = (Raised (ValueError "boom"),
     (tt, [ (OnMessage, 0%nat, JDict (<["text" := JStr "hi"]> ∅), Returned tt);
            (OnMessage, 1%nat, JDict (<["text" := JStr "hi"]> ∅),
             Raised (ValueError "boom")) ])).
Proof. vm_compute. reflexivity. Qed.

End DispatchExamples.

(* ===================================================================== *)
(** * The image view                                                      *)
(* ===================================================================== *)
Section Pagination.
Import Entry.
Context `{RT : Runtime}.

Lemma bind_lift_Returned {W A C} (a : A) (k : A → M W C) w :
  (lift (Returned a) ≫= k) w = k a w.
Proof. done. Qed.

Lemma bind_lift_Raised {W A C} e (k : A → M W C) w :
  (lift (Raised e) ≫= k) w = (Raised e, w).
Proof. done. Qed.

Lemma bind_kv_get {C} key (k : option string → M World C) w :
  (kv_get key ≫= k) w = k (BOT_STATE w !! key) w.
Proof. done. Qed.

Lemma new_index_range r N : 1 ≤ N → 0 ≤ new_index r N < N.
Proof. unfold new_index. lia. Qed.

(** [handle_pagination] on a cached list with images, for any bot: the
    image at the clamped index goes into the one edit, under the keyboard
    for that index. *)
Lemma handle_pagination_renders (bot : Bot) (cb : CallbackQuery) (w : World)
    (tag media_type lang current_index_str media_id data_str : string)
    (r : Z) (cached : JSON) (image_list : list JSON) :
  int_ current_index_str = Returned r →
  BOT_STATE w !! ("media:" +:+ media_id) = Some data_str →
  data_str ≠ EmptyString →
  json_loads data_str = Returned cached →
  image_list_of cached media_type lang = Returned (JList image_list) →
  image_list ≠ [] →
  let N := Z.of_nat (length image_list) in
  let i := Z.max 0 (Z.min r (N - 1)) in
  ∃ image,
    0 ≤ i < N
    ∧ image_list !! Z.to_nat i = Some image
    ∧ handle_pagination bot cb
        [tag; media_type; lang; current_index_str; media_id] w
      = try_except
          (edit_message_media bot (photo image)
             (media_options cb (buttons media_type lang i N media_id));;
           answer_callback_query bot (id cb) None;;
           mret tt)
          (on_error bot cb) w.
Proof.
  intros Hint Hkv Hne Hloads Himgs Hnonempty N i.
  assert (1 ≤ N) as HN.
  { subst N. destruct image_list; [done|]. simpl length. lia. }
  assert (0 ≤ i < N) as Hi by (apply new_index_range; lia).
  destruct (lookup_lt_is_Some_2 image_list (Z.to_nat i)) as [image Himage]; [lia|].
  exists image. split; [done|]. split; [done|].
  unfold handle_pagination, try_except.
  cbn [unpack5]. rewrite bind_lift_Returned. cbn beta iota.
  rewrite Hint, bind_lift_Returned, bind_kv_get, Hkv.
  unfold not_str. destruct (String.eqb_spec data_str ""); [done|].
  change (default "" (Some data_str)) with data_str. unfold render_image.
  rewrite Hloads, bind_lift_Returned, Himgs, bind_lift_Returned.
  cbn [len]. rewrite bind_lift_Returned.
  replace (truthy (JList image_list)) with true
    by (by destruct image_list).
  cbn [negb]. fold N. unfold new_index. fold i.
  unfold py_index.
  replace (i <? 0) with false by lia.
  replace (i <? 0) with false by lia.
  rewrite Himage, bind_lift_Returned. done.
Qed.

(** An alert of the bot of the class: the one request it makes. *)
Lemma alert_run self cb text w :
  (answer_callback_query (telegram_bot self) (id cb) (Some (alert text));;
   mret tt) w
  = (Returned tt,
     after_request w
       (TelegramBot.api_request self "answerCallbackQuery" "application/json"
          (JsonBody (JDict
             (<["callback_query_id" := JStr (id cb)]>
                (<["text" := JStr text]> (<["show_alert" := JBool true]> ∅))))))).
Proof.
  cbn [telegram_bot answer_callback_query].
  unfold TelegramBot.answer_callback_query.
  erewrite bind_run; [|apply post_json_run].
  unfold mret, M_ret, ret.
  unfold TelegramBot.or_empty, TelegramBot.params_truthy, alert. simpl.
  rewrite bool_decide_eq_false_2 by apply insert_non_empty. simpl.
  unfold TelegramBot.payload_json, TelegramBot.update. simpl.
  rewrite <- insert_union_r by done. by rewrite (right_id ∅ (∪)).
Qed.

(** With the bot of the class the edit is the call of a method the class
    does not define: the [AttributeError] goes to the except clause. *)
Lemma class_pagination_alert self (cb : CallbackQuery) (w : World)
    (tag media_type lang current_index_str media_id data_str : string)
    (r : Z) (cached : JSON) (image_list : list JSON) :
  int_ current_index_str = Returned r →
  BOT_STATE w !! ("media:" +:+ media_id) = Some data_str →
  data_str ≠ EmptyString →
  json_loads data_str = Returned cached →
  image_list_of cached media_type lang = Returned (JList image_list) →
  image_list ≠ [] →
  handle_pagination (telegram_bot self) cb
    [tag; media_type; lang; current_index_str; media_id] w
  = (Returned tt,
     after_request w
       (TelegramBot.api_request self "answerCallbackQuery" "application/json"
          (JsonBody (JDict
             (<["callback_query_id" := JStr (id cb)]>
                (<["text" :=
                     JStr ("An error occurred: 'TelegramBot' object has no "
                             +:+ "attribute 'edit_message_media'")]>
                   (<["show_alert" := JBool true]> ∅))))))).
Proof.
  intros Hint Hkv Hne Hloads Himgs Hnonempty.
  destruct (handle_pagination_renders (telegram_bot self) cb w tag media_type
              lang current_index_str media_id data_str r cached image_list)
    as (image & _ & _ & ->); try done.
  unfold try_except. cbn [telegram_bot edit_message_media].
  change ((raise ?e ≫= ?k) w) with (@Raised unit e, w).
  unfold on_error. cbn [exc_msg AttributeError].
  lazymatch goal with
  | |- (answer_callback_query _ _ (Some (alert _));; mret tt) _ = _ =>
      apply alert_run
  end.
Qed.


End Pagination.

Section PaginationScenario.
Import Entry.


End PaginationScenario.

Section Keyboard.
Import Entry.
Context `{RT : Runtime}.

(** A numeral starts with a digit or with the sign. *)
Lemma pretty_N_go_head (c : ascii) :
  (∀ d, pretty_N_char d ≠ c) →
  ∀ x s s', s ≠ String c s' → pretty_N_go x s ≠ String c s'.
Proof.
  intros Hc x. induction (N.lt_wf_0 x) as [x _ IH]. intros s s' Hs.
  assert (x = 0 ∨ 0 < x)%N as [->|Hpos] by lia.
  - by rewrite pretty_N_go_0.
  - rewrite pretty_N_go_step by done. apply IH.
    + by apply N.div_lt.
    + intros [= Hd _]. by apply (Hc (x `mod` 10)%N).
Qed.

Lemma pretty_N_go_nonempty x s : s ≠ EmptyString → pretty_N_go x s ≠ EmptyString.
Proof.
  revert s. induction (N.lt_wf_0 x) as [x _ IH]. intros s Hs.
  assert (x = 0 ∨ 0 < x)%N as [->|Hpos] by lia.
  - by rewrite pretty_N_go_0.
  - rewrite pretty_N_go_step by done. apply IH; [by apply N.div_lt | done].
Qed.

Lemma pretty_Z_head (c : ascii) :
  (∀ d, pretty_N_char d ≠ c) → c ≠ "-"%char →
  ∀ (z : Z) rest s', pretty z +:+ rest ≠ String c s'.
Proof.
  intros Hc Hdash z rest s'.
  assert (∀ p : positive, ∃ a t, pretty (Npos p) = String a t ∧ a ≠ c) as Hpos.
  { intros p. unfold pretty, pretty_N.
    destruct (decide (N.pos p = 0)%N) as [|_]; [done|].
    destruct (pretty_N_go (N.pos p) "") as [|a t] eqn:E.
    - exfalso. revert E. rewrite pretty_N_go_step by lia.
      by apply pretty_N_go_nonempty.
    - exists a, t. split; [done|]. intros ->.
      by apply (pretty_N_go_head c Hc (N.pos p) "" t). }
  destruct z as [|p|p]; unfold pretty, pretty_Z.
  - simpl. intros [= H _]. apply (Hc 0%N). done.
  - destruct (Hpos p) as (a & t & Ha & Hne).
    change (pretty p) with (pretty (N.pos p)). rewrite Ha. simpl.
    by intros [= ? _].
  - simpl. by intros [= ? _].
Qed.

Lemma button_label label token : button label token !! "text" = Some (JStr label).
Proof. unfold button. by rewrite lookup_insert_eq. Qed.

(** The label of the indicator is a numeral, a slash and a numeral: it is
    the label neither of Prev nor of Next. *)
Lemma indicator_label (a b : Z) :
  pretty a +:+ "/" +:+ pretty b ≠ "⬅️ Prev"
  ∧ pretty a +:+ "/" +:+ pretty b ≠ "Next ➡️".
Proof.
  split; apply pretty_Z_head; try done;
    intros d; unfold pretty_N_char; by repeat case_match.
Qed.

(** The first row, by the labels of its buttons. *)
Lemma row1_labels media_type lang (i N : Z) media_id :
  let row := row1 media_type lang i N media_id in
  let prev := button "⬅️ Prev" (nav_token media_type lang (i - 1) media_id) in
  let next := button "Next ➡️" (nav_token media_type lang (i + 1) media_id) in
  let indicator := button (pretty (i + 1) +:+ "/" +:+ pretty N) "noop" in
  ((∃ b, b ∈ row ∧ b !! "text" = Some (JStr "⬅️ Prev")) ↔ 0 < i)
  ∧ (∀ b, b ∈ row → b !! "text" = Some (JStr "⬅️ Prev") → b = prev)
  ∧ ((∃ b, b ∈ row ∧ b !! "text" = Some (JStr "Next ➡️")) ↔ i < N - 1)
  ∧ (∀ b, b ∈ row → b !! "text" = Some (JStr "Next ➡️") → b = next)
  ∧ indicator ∈ row
  ∧ (∀ b, b ∈ row → b = prev ∨ b = indicator ∨ b = next).
Proof.
  intros row prev next indicator.
  destruct (indicator_label (i + 1) N) as [Hnot_prev Hnot_next].
  assert (∀ b, b ∈ row →
            (b = prev ∧ 0 < i) ∨ b = indicator ∨ (b = next ∧ i < N - 1)) as Hin.
  { intros b Hb. unfold row, row1 in Hb. apply elem_of_app in Hb as [Hb|Hb].
    - destruct (Z.ltb_spec 0 i); [|by apply elem_of_nil in Hb].
      apply list_elem_of_singleton in Hb. by left.
    - apply elem_of_cons in Hb as [Hb|Hb]; [right; by left|].
      destruct (Z.ltb_spec i (N - 1)); [|by apply elem_of_nil in Hb].
      apply list_elem_of_singleton in Hb. right; by right. }
  assert (indicator ∈ row) as Hind.
  { unfold row, row1. apply elem_of_app. right. apply elem_of_cons. by left. }
  split; [|split; [|split; [|split; [|split]]]].
  - split.
    + intros (b & Hb & Htext).
      destruct (Hin b Hb) as [[_ ?]|[->|[-> _]]]; [done|..];
        unfold prev, next, indicator in Htext; rewrite button_label in Htext;
        by injection Htext.
    + intros Hi. exists prev. split; [|apply button_label].
      unfold row, row1. apply elem_of_app. left.
      replace (0 <? i) with true by lia. by apply list_elem_of_singleton.
  - intros b Hb Htext.
    destruct (Hin b Hb) as [[? _]|[->|[-> _]]]; [done|..];
      unfold prev, next, indicator in Htext; rewrite button_label in Htext;
        by injection Htext.
  - split.
    + intros (b & Hb & Htext).
      destruct (Hin b Hb) as [[-> _]|[->|[_ ?]]]; [..|done];
        unfold prev, next, indicator in Htext; rewrite button_label in Htext;
        by injection Htext.
    + intros Hi. exists next. split; [|apply button_label].
      unfold row, row1. apply elem_of_app. right. apply elem_of_cons. right.
      replace (i <? N - 1) with true by lia. by apply list_elem_of_singleton.
  - intros b Hb Htext.
    destruct (Hin b Hb) as [[-> _]|[->|[? _]]]; [..|done];
      unfold prev, next, indicator in Htext; rewrite button_label in Htext;
        by injection Htext.
  - done.
  - intros b Hb. destruct (Hin b Hb) as [[? _]|[?|[? _]]]; auto.
Qed.

(** C2: the keyboard of the view.  With [N ≥ 1] images cached and [i] the
    effective index, the options of the handler's [edit_message_media]
    call carry, for any bot, the keyboard of two rows: the row of Prev,
    indicator and Next, and the row of the back button.  A button
    labelled Prev is in the first row iff [i > 0], and it then leads to
    [i - 1]; one labelled Next iff [i < N - 1], and it then leads to
    [i + 1]; the indicator [i+1/N] is always there, with the token
    [noop]; nothing else is in the row; the back button carries
    [view:<media_type>:<media_id>].  With one image the first row is the
    indicator alone.  With the bot of the class, which defines no
    [edit_message_media], the call raises and the keyboard is not sent:
    the press ends in the alert of the except clause. *)
Theorem pagination_keyboard (cb : CallbackQuery) (w : World)
    (tag media_type lang current_index_str media_id data_str : string)
    (r : Z) (cached : JSON) (image_list : list JSON) :
  int_ current_index_str = Returned r →
  BOT_STATE w !! ("media:" +:+ media_id) = Some data_str →
  data_str ≠ EmptyString →
  json_loads data_str = Returned cached →
  image_list_of cached media_type lang = Returned (JList image_list) →
  image_list ≠ [] →
  let N := Z.of_nat (length image_list) in
  let i := Z.max 0 (Z.min r (N - 1)) in
  let parts := [tag; media_type; lang; current_index_str; media_id] in
  let nav index :=
    "nav:" +:+ media_type +:+ ":" +:+ lang +:+ ":" +:+ pretty index +:+ ":"
      +:+ media_id in
  let prev : gmap string JSON :=
    <["text" := JStr "⬅️ Prev"]> (<["callback_data" := JStr (nav (i - 1))]> ∅) in
  let next : gmap string JSON :=
    <["text" := JStr "Next ➡️"]> (<["callback_data" := JStr (nav (i + 1))]> ∅) in
  let indicator : gmap string JSON :=
    <["text" := JStr (pretty (i + 1) +:+ "/" +:+ pretty N)]>
      (<["callback_data" := JStr "noop"]> ∅) in
  let back : gmap string JSON :=
    <["text" := JStr "« Back to Languages"]>
      (<["callback_data" := JStr ("view:" +:+ media_type +:+ ":" +:+ media_id)]> ∅) in
  let row :=
    (if 0 <? i then [prev] else []) ++ [indicator]
      ++ (if i <? N - 1 then [next] else []) in
  (∀ bot, ∃ media,
     handle_pagination bot cb parts w
     = try_except
         (edit_message_media bot media
            {| TelegramBot.reply_markup :=
                 Some (Some {| TelegramBot.inline_keyboard := Some [row; [back]];
                               TelegramBot.other_fields := ∅ |});
               TelegramBot.items :=
                 <["chat_id" := JInt (chat_id cb)]>
                   (<["message_id" := JInt (message_id cb)]> ∅) |};;
          answer_callback_query bot (id cb) None;;
          mret tt)
         (on_error bot cb) w)
  ∧ ((∃ b, b ∈ row ∧ b !! "text" = Some (JStr "⬅️ Prev")) ↔ 0 < i)
  ∧ (∀ b, b ∈ row → b !! "text" = Some (JStr "⬅️ Prev") → b = prev)
  ∧ ((∃ b, b ∈ row ∧ b !! "text" = Some (JStr "Next ➡️")) ↔ i < N - 1)
  ∧ (∀ b, b ∈ row → b !! "text" = Some (JStr "Next ➡️") → b = next)
  ∧ indicator ∈ row
  ∧ (∀ b, b ∈ row → b = prev ∨ b = indicator ∨ b = next)
  ∧ (N = 1 → row = [indicator])
  ∧ (∀ self, ∃ request,
       handle_pagination (telegram_bot self) cb parts w
       = (Returned tt, after_request w request)
       ∧ req_url request
         = TelegramBot.api_url self +:+ "/answerCallbackQuery").
Proof.
  intros Hint Hkv Hne Hloads Himgs Hnonempty N i parts nav prev next indicator
    back row.
  destruct (row1_labels media_type lang i N media_id)
    as (Hprev & Hprev' & Hnext & Hnext' & Hind & Hall).
  split.
  { intros bot.
    destruct (handle_pagination_renders bot cb w tag media_type lang
                current_index_str media_id data_str r cached image_list)
      as (image & _ & _ & Hrun); try done.
    exists (photo image). exact Hrun. }
  split; [exact Hprev|]. split; [exact Hprev'|]. split; [exact Hnext|].
  split; [exact Hnext'|]. split; [exact Hind|]. split; [exact Hall|].
  split.
  { intros HN. subst row. replace i with 0 by (subst i; lia).
    rewrite HN. done. }
  intros self. eexists. split.
  - by apply (class_pagination_alert self cb w tag media_type lang
                current_index_str media_id data_str r cached image_list).
  - done.
Qed.

End Keyboard.

Section KeyboardScenario.
Import Entry.

Lemma pagination_keyboard_witness :
  let cb := Scenario.press "nav:posters:en:1:123" in
  let image_list := [JStr "u1"; JStr "u2"; JStr "u3"] in
  let N := Z.of_nat (length image_list) in
  let i := Z.max 0 (Z.min 1 (N - 1)) in
  let parts := ["nav"; "posters"; "en"; "1"; "123"] in
  let nav index :=
    "nav:" +:+ "posters" +:+ ":" +:+ "en" +:+ ":" +:+ pretty index +:+ ":"
      +:+ "123" in
  let prev : gmap string JSON :=
    <["text" := JStr "⬅️ Prev"]> (<["callback_data" := JStr (nav (i - 1))]> ∅) in
  let next : gmap string JSON :=
    <["text" := JStr "Next ➡️"]> (<["callback_data" := JStr (nav (i + 1))]> ∅) in
  let indicator : gmap string JSON :=
    <["text" := JStr (pretty (i + 1) +:+ "/" +:+ pretty N)]>
      (<["callback_data" := JStr "noop"]> ∅) in
  let back : gmap string JSON :=
    <["text" := JStr "« Back to Languages"]>
      (<["callback_data" := JStr ("view:" +:+ "posters" +:+ ":" +:+ "123")]> ∅) in
  let row :=
    (if 0 <? i then [prev] else []) ++ [indicator]
      ++ (if i <? N - 1 then [next] else []) in
  (∀ bot, ∃ media,
     handle_pagination (RT := Scenario.runtime) bot cb parts Scenario.world
     = try_except
         (edit_message_media bot media
            {| TelegramBot.reply_markup :=
                 Some (Some {| TelegramBot.inline_keyboard := Some [row; [back]];
                               TelegramBot.other_fields := ∅ |});
               TelegramBot.items :=
                 <["chat_id" := JInt (chat_id cb)]>
                   (<["message_id" := JInt (message_id cb)]> ∅) |};;
          answer_callback_query bot (id cb) None;;
          mret tt)
         (on_error bot cb) Scenario.world)
  ∧ ((∃ b, b ∈ row ∧ b !! "text" = Some (JStr "⬅️ Prev")) ↔ 0 < i)
  ∧ (∀ b, b ∈ row → b !! "text" = Some (JStr "⬅️ Prev") → b = prev)
  ∧ ((∃ b, b ∈ row ∧ b !! "text" = Some (JStr "Next ➡️")) ↔ i < N - 1)
  ∧ (∀ b, b ∈ row → b !! "text" = Some (JStr "Next ➡️") → b = next)
  ∧ indicator ∈ row
  ∧ (∀ b, b ∈ row → b = prev ∨ b = indicator ∨ b = next)
  ∧ (N = 1 → row = [indicator])
  ∧ (∀ self, ∃ request,
       handle_pagination (RT := Scenario.runtime) (telegram_bot self) cb parts
         Scenario.world
       = (Returned tt, after_request Scenario.world request)
       ∧ req_url request
         = TelegramBot.api_url self +:+ "/answerCallbackQuery").
Proof.
  apply (pagination_keyboard (RT := Scenario.runtime)
           (Scenario.press "nav:posters:en:1:123") Scenario.world
           "nav" "posters" "en" "1" "123" Scenario.record_text 1
           Scenario.record [JStr "u1"; JStr "u2"; JStr "u3"]).
  - vm_compute. reflexivity.
  - vm_compute. reflexivity.
  - discriminate.
  - vm_compute. reflexivity.
  - vm_compute. reflexivity.
  - discriminate.
Defined.

End KeyboardScenario.

(* ===================================================================== *)
(** * The callback handler                                                *)
(* ===================================================================== *)
Section Callback.
Import Entry.
Context `{RT : Runtime}.

Lemma split_nonempty sep s : ∃ p ps, split sep s = p :: ps.
Proof.
  induction s as [|c s (p & ps & IH)]; simpl; [eauto|].
  destruct (Ascii.eqb c sep); [eauto|]. rewrite IH. eauto.
Qed.

(** [parts[0]] and [parts[-1]] never fail on the result of [split]. *)
Lemma split_has_ends sep s :
  ∃ action media_id,
    split sep s !! 0%nat = Some action ∧ last (split sep s) = Some media_id.
Proof.
  destruct (split_nonempty sep s) as (p & ps & ->).
  destruct (last (p :: ps)) eqn:E; [eauto|].
  by apply last_None in E.
Qed.




(** [handle_pagination] itself on a cache miss (lines 80-83). *)
Lemma handle_pagination_miss bot cb w tag media_type lang current_index_str
    media_id r :
  int_ current_index_str = Returned r →
  not_str (BOT_STATE w !! ("media:" +:+ media_id)) = true →
  handle_pagination bot cb [tag; media_type; lang; current_index_str; media_id] w
  = try_except
      (answer_callback_query bot (id cb) (Some (alert session_expired));;
       mret tt)
      (on_error bot cb) w.
Proof.
  intros Hint Hmiss. unfold handle_pagination, try_except. cbn [unpack5].
  rewrite bind_lift_Returned. cbn beta iota.
  by rewrite Hint, bind_lift_Returned, bind_kv_get, Hmiss.
Qed.


(** C8 fails on a [back] token whose destination is not [main]: for
    [back:home:123], with the session in the cache, the handler returns
    without a single call on the bot, so the callback query is not
    answered at all. *)
Theorem back_elsewhere_unanswered (bot : Bot) (w : World)
    (data_str : string) (result_data : JSON) :
  BOT_STATE w !! "media:123" = Some data_str →
  data_str ≠ EmptyString →
  json_loads data_str = Returned result_data →
  handle_callback bot (Scenario.press "back:home:123") w = (Returned tt, w).
Proof.
  intros Hkv Hne Hloads. unfold handle_callback.
  change (split ":" (default "" (data (Scenario.press "back:home:123"))))
    with ["back"; "home"; "123"].
  cbn zeta. unfold item, last_item. cbn [lookup list_lookup last].
  rewrite bind_lift_Returned. cbn [String.eqb Ascii.eqb Bool.eqb].
  rewrite bind_lift_Returned, bind_kv_get.
  change ("media:" +:+ "123") with "media:123". rewrite Hkv.
  unfold not_str. destruct (String.eqb_spec data_str ""); [done|].
  change (default "" (Some data_str)) with data_str.
  rewrite Hloads, bind_lift_Returned.
  cbn [String.eqb Ascii.eqb Bool.eqb]. unfold back, item.
  cbn [lookup list_lookup]. rewrite bind_lift_Returned. done.
Qed.

(** C9 fails outside the [nav] path: for the [back] token with too few
    fields, [back:123], with the session in the cache, nothing is caught
    and no alert is shown; the handler returns without a call on the
    bot. *)
Theorem malformed_back_not_reported (bot : Bot) (w : World)
    (data_str : string) (result_data : JSON) :
  BOT_STATE w !! "media:123" = Some data_str →
  data_str ≠ EmptyString →
  json_loads data_str = Returned result_data →
  handle_callback bot (Scenario.press "back:123") w = (Returned tt, w).
Proof.
  intros Hkv Hne Hloads. unfold handle_callback.
  change (split ":" (default "" (data (Scenario.press "back:123"))))
    with ["back"; "123"].
  cbn zeta. unfold item, last_item. cbn [lookup list_lookup last].
  rewrite bind_lift_Returned. cbn [String.eqb Ascii.eqb Bool.eqb].
  rewrite bind_lift_Returned, bind_kv_get.
  change ("media:" +:+ "123") with "media:123". rewrite Hkv.
  unfold not_str. destruct (String.eqb_spec data_str ""); [done|].
  change (default "" (Some data_str)) with data_str.
  rewrite Hloads, bind_lift_Returned.
  cbn [String.eqb Ascii.eqb Bool.eqb]. unfold back, item.
  cbn [lookup list_lookup]. rewrite bind_lift_Returned. done.
Qed.

(** A [view] token without fields, when [media:view] is cached: the
    [IndexError] of [parts[1]] leaves the handler. *)
Lemma malformed_view_escapes (bot : Bot) (w : World)
    (data_str : string) (result_data : JSON) :
  BOT_STATE w !! "media:view" = Some data_str →
  data_str ≠ EmptyString →
  json_loads data_str = Returned result_data →
  handle_callback bot (Scenario.press "view") w
  = (Raised (IndexError "list index out of range"), w).
Proof.
  intros Hkv Hne Hloads. unfold handle_callback.
  change (split ":" (default "" (data (Scenario.press "view"))))
    with ["view"].
  cbn zeta. unfold item, last_item. cbn [lookup list_lookup last].
  rewrite bind_lift_Returned. cbn [String.eqb Ascii.eqb Bool.eqb].
  rewrite bind_lift_Returned, bind_kv_get.
  change ("media:" +:+ "view") with "media:view". rewrite Hkv.
  unfold not_str. destruct (String.eqb_spec data_str ""); [done|].
  change (default "" (Some data_str)) with data_str.
  rewrite Hloads, bind_lift_Returned.
  cbn [String.eqb Ascii.eqb Bool.eqb]. unfold view, item.
  cbn [lookup list_lookup]. done.
Qed.

(** A [nav] token with too few fields is caught and shown as an alert. *)
Lemma malformed_nav_alert (bot : Bot) (w : World)
    (data_str : string) (result_data : JSON) :
  BOT_STATE w !! "media:123" = Some data_str →
  data_str ≠ EmptyString →
  json_loads data_str = Returned result_data →
  handle_callback bot (Scenario.press "nav:posters:123") w
  = on_error bot (Scenario.press "nav:posters:123")
      (ValueError "not enough values to unpack (expected 5, got 3)") w.
Proof.
  intros Hkv Hne Hloads. unfold handle_callback.
  change (split ":" (default "" (data (Scenario.press "nav:posters:123"))))
    with ["nav"; "posters"; "123"].
  cbn zeta. unfold item, last_item. cbn [lookup list_lookup last].
  rewrite bind_lift_Returned. cbn [String.eqb Ascii.eqb Bool.eqb].
  rewrite bind_lift_Returned, bind_kv_get.
  change ("media:" +:+ "123") with "media:123". rewrite Hkv.
  unfold not_str. destruct (String.eqb_spec data_str ""); [done|].
  change (default "" (Some data_str)) with data_str.
  rewrite Hloads, bind_lift_Returned.
  cbn [String.eqb Ascii.eqb Bool.eqb]. done.
Qed.

End Callback.

Section CallbackScenario.
Import Entry.


Lemma back_elsewhere_unanswered_witness :
  handle_callback (RT := Scenario.runtime) (telegram_bot Scenario.self)
    (Scenario.press "back:home:123") Scenario.world
  = (Returned tt, Scenario.world).
Proof.
  apply (back_elsewhere_unanswered (RT := Scenario.runtime)
           (telegram_bot Scenario.self)
           Scenario.world Scenario.record_text Scenario.record).
  - vm_compute. reflexivity.
  - discriminate.
  - vm_compute. reflexivity.
Defined.

Lemma malformed_back_not_reported_witness :
  handle_callback (RT := Scenario.runtime) (telegram_bot Scenario.self)
    (Scenario.press "back:123") Scenario.world
  = (Returned tt, Scenario.world).
Proof.
  apply (malformed_back_not_reported (RT := Scenario.runtime)
           (telegram_bot Scenario.self)
           Scenario.world Scenario.record_text Scenario.record).
  - vm_compute. reflexivity.
  - discriminate.
  - vm_compute. reflexivity.
Defined.

(** With the bot of the class, a [view] press on a cached session ends in
    the [AttributeError] of the missing method: no request is made, the
    callback query is not answered. *)
Example view_with_class_bot :
  handle_callback (RT := Scenario.runtime) (telegram_bot Scenario.self)
    (Scenario.press "view:posters:123") Scenario.world
  = (Raised (AttributeError
               "'TelegramBot' object has no attribute 'edit_message_caption'"),
     Scenario.world).
Proof. vm_compute. reflexivity. Qed.

(** With the bot of the class, a [nav] press ends in the except clause:
    the one request is the alert with the error text. *)
Example nav_with_class_bot :
  let run := handle_callback (RT := Scenario.runtime)
               (telegram_bot Scenario.self)
               (Scenario.press "nav:posters:en:1:123") Scenario.world in
  run.1 = Returned tt
  ∧ req_body <$> sent run.2
    = [ JsonBody (JDict
          (<["callback_query_id" := JStr "cb1"]>
             (<["text" := JStr ("An error occurred: 'TelegramBot' object "
                                 +:+ "has no attribute 'edit_message_media'")]>
                (<["show_alert" := JBool true]> ∅)))) ].
Proof. vm_compute. done. Qed.

End CallbackScenario.

(* ===================================================================== *)
(** * More on normalization                                               *)
(* ===================================================================== *)
Section NormalizationKeys.
Import TelegramBot Client.

Lemma fix_button_other_keys (btn : gmap string JSON) k :
  k ∉ token_keys → fix_button btn !! k = btn !! k.
Proof.
  intros Hk. unfold token_keys in Hk.
  assert (k ≠ "callbackData" ∧ k ≠ "callback" ∧ k ≠ "callback_data")
    as (H1 & H2 & H3) by set_solver.
  unfold fix_button, pop.
  destruct (truthy _); simpl; destruct (is_None _);
    rewrite ?lookup_insert_ne, ?lookup_delete_ne by done; done.
Qed.

Lemma fix_button_callbackData (btn : gmap string JSON) :
  fix_button btn !! "callbackData" = None.
Proof.
  unfold fix_button, pop.
  destruct (truthy _); simpl; destruct (is_None _);
    rewrite ?lookup_insert_ne, ?lookup_delete_ne, ?lookup_delete_eq by done; done.
Qed.

Lemma fix_button_callback (btn : gmap string JSON) :
  fix_button btn !! "callback"
  = if truthy (default JNull (btn !! "callbackData")) then btn !! "callback"
    else None.
Proof.
  unfold fix_button, pop.
  destruct (truthy _); simpl; destruct (is_None _);
    rewrite ?lookup_insert_ne, ?lookup_delete_ne, ?lookup_delete_eq by done; done.
Qed.

Lemma fix_button_callback_data (btn : gmap string JSON) :
  fix_button btn !! "callback_data" = chosen_token btn.
Proof.
  unfold fix_button, pop, chosen_token.
  destruct (truthy (default JNull (btn !! "callbackData"))) eqn:Ht; simpl.
  - destruct (btn !! "callbackData") as [v|] eqn:E; simpl in *; [|done].
    destruct v; simpl in *; try done; by rewrite lookup_insert_eq.
  - rewrite (lookup_delete_ne btn "callbackData" "callback") by done.
    destruct (btn !! "callback") as [v|] eqn:E; simpl.
    + destruct v; simpl; rewrite ?lookup_insert_eq; try done.
      by rewrite !lookup_delete_ne.
    + by rewrite !lookup_delete_ne.
Qed.

(** The rows before and after normalization, button by button. *)
Lemma fix_rows_Forall2 (P : gmap string JSON → gmap string JSON → Prop)
    (rows : list (list (gmap string JSON))) :
  (∀ b, P b (fix_button b)) →
  Forall2 (Forall2 P) rows (map (map fix_button) rows).
Proof.
  intros HP. induction rows as [|row rows IH]; constructor; [|done].
  induction row; constructor; auto.
Qed.

Lemma rows_of_fix (P : gmap string JSON → gmap string JSON → Prop)
    (rm : option ReplyMarkup) :
  (∀ b, P b (fix_button b)) →
  Forall2 (Forall2 P) (rows_of rm) (rows_of (_fix_reply_markup rm)).
Proof.
  intros HP. destruct rm as [[[rows|] other]|]; simpl; try constructor.
  - by apply fix_rows_Forall2.
  - unfold markup_falsy. simpl. destruct (bool_decide _); constructor.
Qed.

(** X1: normalization reads and writes three keys of a button and nothing
    else.  The keyboard keeps its shape (as many rows, as many buttons in
    each), every button keeps all its other entries (its label among
    them), and the markup keeps its other entries and stays a markup with,
    or without, a keyboard. *)
Theorem fix_reply_markup_keeps_the_rest (rm : option ReplyMarkup) :
  Forall2 (Forall2 (λ b b', ∀ k, k ∉ token_keys → b' !! k = b !! k))
    (rows_of rm) (rows_of (_fix_reply_markup rm))
  ∧ (other_fields <$> _fix_reply_markup rm) = (other_fields <$> rm)
  ∧ ((inline_keyboard <$> _fix_reply_markup rm) ≫= fmap length)
    = ((inline_keyboard <$> rm) ≫= fmap length).
Proof.
  split; [|split].
  - apply rows_of_fix. intros b k. apply fix_button_other_keys.
  - destruct rm as [[[rows|] other]|]; simpl; try done.
    unfold markup_falsy. simpl. by destruct (bool_decide _).
  - destruct rm as [[[rows|] other]|]; simpl; try done.
    + by rewrite length_map.
    + unfold markup_falsy. simpl. by destruct (bool_decide _).
Qed.

(** X2: what normalization leaves under the three keys.  No button of the
    result has a [callbackData] entry.  Its [callback_data] is the truthy
    [callbackData] of the input if there was one (an existing
    [callback_data] is then overwritten), else the input's [callback] if
    that was there and not [None], else what [callback_data] was: a falsy
    [callbackData] (an empty token) is dropped without a replacement.  A
    [callback] entry is left in place exactly when a truthy [callbackData]
    was taken. *)
Theorem fix_reply_markup_token (rm : option ReplyMarkup) :
  Forall2 (Forall2 (λ b b',
      b' !! "callbackData" = None
      ∧ b' !! "callback_data" = chosen_token b
      ∧ b' !! "callback"
        = if truthy (default JNull (b !! "callbackData")) then b !! "callback"
          else None))
    (rows_of rm) (rows_of (_fix_reply_markup rm)).
Proof.
  apply rows_of_fix. intros b.
  split; [apply fix_button_callbackData|].
  split; [apply fix_button_callback_data | apply fix_button_callback].
Qed.

End NormalizationKeys.

(* ===================================================================== *)
(** * What the client sends                                               *)
(* ===================================================================== *)
Section ClientPayloads.
Import TelegramBot Client.

Lemma with_options_items payload options :
  items (with_options payload options)
  = items (or_empty options) ∪ items payload.
Proof.
  unfold with_options.
  destruct (params_truthy options) eqn:Ht.
  - by destruct (reply_markup (or_empty options)).
  - unfold or_empty. rewrite Ht. destruct options; simpl;
      by rewrite (left_id ∅ (∪)).
Qed.

Lemma with_options_markup payload options :
  reply_markup (with_options payload options)
  = match reply_markup (or_empty options) with
    | Some rm => Some (_fix_reply_markup rm)
    | None => reply_markup payload
    end.
Proof.
  unfold with_options.
  destruct (params_truthy options) eqn:Ht.
  - destruct (reply_markup (or_empty options)) eqn:E; simpl; by rewrite ?E.
  - unfold or_empty. rewrite Ht. by destruct options.
Qed.

Lemma payload_json_dict p :
  ∃ d, payload_json p = JDict d
       ∧ (∀ k, k ≠ "reply_markup" → d !! k = items p !! k)
       ∧ (∀ rm, reply_markup p = Some rm →
            d !! "reply_markup" = Some (from_option markup_to_json JNull rm)).
Proof.
  unfold payload_json.
  destruct (reply_markup p) as [[m|]|]; eexists; (split; [done|]); split;
    try (intros k Hk; by rewrite ?lookup_insert_ne by congruence);
    intros rm [= <-]; by rewrite lookup_insert_eq.
Qed.

(** The payload built by the shared lines, as a dict. *)
Lemma merged_payload base options :
  ∃ d, payload_json (with_options (literal base) options) = JDict d
       ∧ overrides base options d
       ∧ (∀ rm, reply_markup (or_empty options) = Some rm →
            d !! "reply_markup"
            = Some (from_option markup_to_json JNull (_fix_reply_markup rm))).
Proof.
  destruct (payload_json_dict (with_options (literal base) options))
    as (d & Hd & Hitems & Hrm).
  exists d. split; [done|]. split.
  - intros k Hk. rewrite (Hitems k Hk), with_options_items, lookup_union.
    simpl. destruct (items (or_empty options) !! k), (base !! k); done.
  - intros rm Hopt. apply Hrm. by rewrite with_options_markup, Hopt.
Qed.

(** X3: [send_message], [edit_message_text] and [_send_file] given a URL
    or file id post one JSON object in which every entry of the options
    wins over the entry the method itself wrote, so options can replace
    [chat_id], [text] or the file reference; without options (or with
    empty ones) the object holds just the method's own entries.  A
    [reply_markup] of the options is sent normalized. *)
Theorem options_win_over_arguments (self : TelegramBot) (chat_id : JSON)
    (text method file_field r dn dm : string) (options : option Params)
    (w : World) :
  ∃ d1 d2 d3,
    sent (send_message self chat_id text options w).2
      = sent w ++ [api_request self "sendMessage" "application/json"
                     (JsonBody (JDict d1))]
    ∧ sent (edit_message_text self text options w).2
      = sent w ++ [api_request self "editMessageText" "application/json"
                     (JsonBody (JDict d2))]
    ∧ sent (_send_file self method file_field chat_id (FileRef r) dn dm
              options w).2
      = sent w ++ [api_request self method "application/json"
                     (JsonBody (JDict d3))]
    ∧ overrides (<["text" := JStr text]> (<["chat_id" := chat_id]> ∅)) options d1
    ∧ overrides (<["text" := JStr text]> ∅) options d2
    ∧ overrides (<[file_field := JStr r]> (<["chat_id" := chat_id]> ∅)) options d3
    ∧ (∀ rm, reply_markup (or_empty options) = Some rm →
         let sent_markup :=
           Some (from_option markup_to_json JNull (_fix_reply_markup rm)) in
         d1 !! "reply_markup" = sent_markup
         ∧ d2 !! "reply_markup" = sent_markup
         ∧ d3 !! "reply_markup" = sent_markup)
    ∧ (params_truthy options = false →
         d1 = <["text" := JStr text]> (<["chat_id" := chat_id]> ∅)
         ∧ d2 = <["text" := JStr text]> ∅
         ∧ d3 = <[file_field := JStr r]> (<["chat_id" := chat_id]> ∅)).
Proof.
  destruct (merged_payload (<["text" := JStr text]> (<["chat_id" := chat_id]> ∅))
              options) as (d1 & E1 & O1 & M1).
  destruct (merged_payload (<["text" := JStr text]> ∅) options)
    as (d2 & E2 & O2 & M2).
  destruct (merged_payload (<[file_field := JStr r]> (<["chat_id" := chat_id]> ∅))
              options) as (d3 & E3 & O3 & M3).
  exists d1, d2, d3.
  unfold send_message, edit_message_text, _send_file.
  rewrite !post_json_run. unfold literal in *. simpl.
  rewrite E1, E2, E3.
  split; [done|]. split; [done|]. split; [done|]. split; [done|].
  split; [done|]. split; [done|]. split.
  { intros rm Hrm. cbn zeta. rewrite (M1 _ Hrm), (M2 _ Hrm), (M3 _ Hrm). done. }
  intros Hfalsy. unfold with_options in E1, E2, E3.
  rewrite Hfalsy in E1, E2, E3. unfold payload_json in E1, E2, E3.
  simpl in E1, E2, E3. by injection E1 as <-; injection E2 as <-; injection E3 as <-.
Qed.

(** The payload of the methods that spread their options into a dict
    literal. *)
Lemma spread_payload base options :
  ∃ d, payload_json (update (literal base) (or_empty options)) = JDict d
       ∧ overrides base options d.
Proof.
  destruct (payload_json_dict (update (literal base) (or_empty options)))
    as (d & Hd & Hitems & _).
  exists d. split; [done|]. intros k Hk. rewrite (Hitems k Hk). simpl.
  rewrite lookup_union.
  destruct (items (or_empty options) !! k), (base !! k); done.
Qed.

(** X4: the methods written as [{fixed entries, **(options or {})}]
    ([answer_callback_query], [set_webhook], [set_my_commands],
    [ban_chat_member]) post a dict in which the options win over the
    fixed entries, the callback query id, the URL, the command list and
    the ids included; called without options, [answer_callback_query]
    posts the callback query id and nothing else. *)
Theorem options_win_over_fixed_entries (self : TelegramBot)
    (callback_query_id url : string) (commands : list JSON) (chat_id : JSON)
    (user_id : Z) (options : option Params) (w : World) :
  ∃ d1 d2 d3 d4,
    sent (answer_callback_query self callback_query_id options w).2
      = sent w ++ [api_request self "answerCallbackQuery" "application/json"
                     (JsonBody (JDict d1))]
    ∧ sent (set_webhook self url options w).2
      = sent w ++ [api_request self "setWebhook" "application/json"
                     (JsonBody (JDict d2))]
    ∧ sent (set_my_commands self commands options w).2
      = sent w ++ [api_request self "setMyCommands" "application/json"
                     (JsonBody (JDict d3))]
    ∧ sent (ban_chat_member self chat_id user_id options w).2
      = sent w ++ [api_request self "banChatMember" "application/json"
                     (JsonBody (JDict d4))]
    ∧ overrides (<["callback_query_id" := JStr callback_query_id]> ∅) options d1
    ∧ overrides (<["url" := JStr url]> ∅) options d2
    ∧ overrides (<["commands" := JList commands]> ∅) options d3
    ∧ overrides (<["chat_id" := chat_id]> (<["user_id" := JInt user_id]> ∅))
        options d4
    ∧ sent (answer_callback_query self callback_query_id None w).2
      = sent w ++ [api_request self "answerCallbackQuery" "application/json"
                     (JsonBody (JDict
                        (<["callback_query_id" := JStr callback_query_id]> ∅)))].
Proof.
  destruct (spread_payload (<["callback_query_id" := JStr callback_query_id]> ∅)
              options) as (d1 & E1 & O1).
  destruct (spread_payload (<["url" := JStr url]> ∅) options) as (d2 & E2 & O2).
  destruct (spread_payload (<["commands" := JList commands]> ∅) options)
    as (d3 & E3 & O3).
  destruct (spread_payload (<["chat_id" := chat_id]> (<["user_id" := JInt user_id]> ∅))
              options) as (d4 & E4 & O4).
  exists d1, d2, d3, d4.
  unfold answer_callback_query, set_webhook, set_my_commands, ban_chat_member.
  rewrite !post_json_run. unfold literal in *. simpl.
  rewrite E1, E2, E3, E4. repeat split; done.
Qed.

End ClientPayloads.

Section ClientCalls.
Import TelegramBot Client.

(** The raw-bytes branch of [_send_file], run. *)
Lemma send_file_bytes_run self method file_field chat_id b dn dm options w :
  let opts := or_empty options in
  let boundary := "----BotBoundary" +:+ hd "" (token_hex w) in
  let req := api_request self method
               ("multipart/form-data; boundary=" +:+ boundary)
               (MultipartBody boundary (multipart_fields chat_id opts) file_field
                  (default (JStr dn) (items opts !! "filename")) b
                  (default (JStr dm) (items opts !! "content_type"))) in
  _send_file self method file_field chat_id (FileBytes b) dn dm options w
  = (Returned (api_result (net w (sent w ++ [req]))), after_upload w req).
Proof.
  simpl. unfold _send_file, _build_multipart.
  unfold mbind, M_bind, bind, draw_token, mret, M_ret, ret. simpl.
  by rewrite api_call_run.
Qed.

Lemma send_file_run self method file_field chat_id f dn dm options w :
  ∃ req,
    _send_file self method file_field chat_id f dn dm options w
    = (Returned (api_result (net w (sent w ++ [req]))),
       match f with
       | FileBytes _ => after_upload w req
       | FileRef _ => after_request w req
       end)
    ∧ req_url req = api_url self +:+ "/" +:+ method
    ∧ req_method req = "POST".
Proof.
  destruct f as [b|r].
  - eexists. split; [apply send_file_bytes_run|]. done.
  - eexists. split; [apply post_json_run|]. done.
Qed.

(** X5: every method of the class that calls the platform returns a
    result and does not raise, whatever the network does; it makes exactly
    one request, a POST to [<api_url>/<its method>]; its result is the
    parsed reply or the [{ok: false, ...}] of a failure; it leaves the KV
    namespace alone, and only an upload of raw bytes draws a boundary
    token. *)
Theorem every_call_posts_once (self : TelegramBot) (call : Call) (w : World) :
  ∃ req,
    perform self call w
    = (Returned (api_result (net w (sent w ++ [req]))),
       if uploads call then after_upload w req else after_request w req)
    ∧ req_url req = api_url self +:+ "/" +:+ endpoint call
    ∧ req_method req = "POST"
    ∧ BOT_STATE (perform self call w).2 = BOT_STATE w.
Proof.
  assert (∀ c req,
    c w = (Returned (api_result (net w (sent w ++ [req]))),
           if uploads call then after_upload w req else after_request w req) →
    BOT_STATE (c w).2 = BOT_STATE w) as Hkv.
  { intros c req ->. by destruct (uploads call). }
  assert (∀ method payload,
    uploads call = false → endpoint call = method →
    perform self call = _post_json self method payload →
    ∃ req,
      perform self call w
      = (Returned (api_result (net w (sent w ++ [req]))),
         if uploads call then after_upload w req else after_request w req)
      ∧ req_url req = api_url self +:+ "/" +:+ endpoint call
      ∧ req_method req = "POST"
      ∧ BOT_STATE (perform self call w).2 = BOT_STATE w) as Hjson.
  { intros method payload Hup Hend Hrun. eexists.
    rewrite Hrun, Hup, Hend, post_json_run. done. }
  assert (∀ method file_field chat_id f dn dm options,
    uploads call = (if f is FileBytes _ then true else false) →
    endpoint call = method →
    perform self call = _send_file self method file_field chat_id f dn dm options →
    ∃ req,
      perform self call w
      = (Returned (api_result (net w (sent w ++ [req]))),
         if uploads call then after_upload w req else after_request w req)
      ∧ req_url req = api_url self +:+ "/" +:+ endpoint call
      ∧ req_method req = "POST"
      ∧ BOT_STATE (perform self call w).2 = BOT_STATE w) as Hfile.
  { intros method file_field chat_id f dn dm options Hup Hend Hrun.
    destruct (send_file_run self method file_field chat_id f dn dm options w)
      as (req & Hr & Hurl & Hpost).
    exists req. rewrite Hrun, Hup, Hend, Hr. by destruct f. }
  destruct call; simpl perform;
    try (eapply Hjson; [done | reflexivity | reflexivity]);
    match goal with
    | f : FileData |- _ =>
        eapply (Hfile _ _ _ f); [by destruct f | reflexivity | reflexivity]
    end.
Qed.


End ClientCalls.

(* ===================================================================== *)
(** * The tokens of the keyboards, written and read back                  *)
(* ===================================================================== *)
Section TokenParsing.
Import Entry Tokens.
Context `{RT : Runtime}.

Lemma split_free sep s : count_sep sep s = 0%nat → split sep s = [s].
Proof.
  induction s as [|c s IH]; simpl; [done|].
  destruct (Ascii.eqb c sep); [done|]. intros H. by rewrite IH.
Qed.

Lemma split_field sep a b :
  count_sep sep a = 0%nat → split sep (a +:+ String sep b) = a :: split sep b.
Proof.
  induction a as [|c a IH]; simpl.
  - by rewrite Ascii.eqb_refl.
  - destruct (Ascii.eqb c sep); [done|]. intros H. by rewrite IH.
Qed.

Lemma length_split sep s : length (split sep s) = S (count_sep sep s).
Proof.
  induction s as [|c s IH]; simpl; [done|].
  destruct (Ascii.eqb c sep); simpl; [by rewrite IH|].
  destruct (split sep s); simpl in *; done.
Qed.

Lemma count_sep_app sep a b :
  count_sep sep (a +:+ b) = (count_sep sep a + count_sep sep b)%nat.
Proof. induction a as [|c a IH]; simpl; [done|]. rewrite IH. lia. Qed.

Lemma count_sep_pretty_N_go (c : ascii) :
  (∀ d, pretty_N_char d ≠ c) →
  ∀ x s, count_sep c s = 0%nat → count_sep c (pretty_N_go x s) = 0%nat.
Proof.
  intros Hc x. induction (N.lt_wf_0 x) as [x _ IH]. intros s Hs.
  assert (x = 0 ∨ 0 < x)%N as [->|Hpos] by lia.
  - by rewrite pretty_N_go_0.
  - rewrite pretty_N_go_step by done. apply IH; [by apply N.div_lt|].
    simpl. destruct (Ascii.eqb_spec (pretty_N_char (x `mod` 10)) c) as [E|_];
      [by destruct (Hc _ E) | done].
Qed.

Lemma pretty_N_char_not_colon d : pretty_N_char d ≠ ":"%char.
Proof.
  unfold pretty_N_char. destruct d as [|p]; [done|].
  do 4 (try destruct p as [p|p|]); done.
Qed.

Lemma count_sep_pretty (z : Z) : count_sep ":" (pretty z) = 0%nat.
Proof.
  assert (∀ n : N, count_sep ":" (pretty n) = 0%nat) as HN.
  { intros n. unfold pretty, pretty_N. case_decide; [done|].
    by apply count_sep_pretty_N_go; [apply pretty_N_char_not_colon|]. }
  destruct z as [|p|p]; unfold pretty, pretty_Z; [done|apply HN|].
  rewrite count_sep_app. simpl. apply HN.
Qed.

Lemma split_nav_token media_type lang index media_id :
  count_sep ":" media_type = 0%nat →
  count_sep ":" lang = 0%nat →
  split ":" (nav_token media_type lang index media_id)
  = "nav" :: media_type :: lang :: pretty index :: split ":" media_id.
Proof.
  intros Hmt Hlang.
  change (nav_token media_type lang index media_id)
    with ("nav" +:+ String ":" (media_type +:+ String ":" (lang +:+ String ":"
            (pretty index +:+ String ":" media_id)))).
  rewrite (split_field ":" "nav") by done.
  rewrite (split_field ":" media_type) by done.
  rewrite (split_field ":" lang) by done.
  by rewrite (split_field ":" (pretty index)) by apply count_sep_pretty.
Qed.

(** X7: the tokens the keyboards carry are read back into the fields they
    were written from, as long as no field holds a colon: the action is
    [parts[0]], the media id is [parts[-1]], and a [nav] token unpacks
    into its media type, language, index numeral and media id. *)
Theorem tokens_read_back (media_type lang media_id : string) (index : Z) :
  count_sep ":" media_type = 0%nat →
  count_sep ":" lang = 0%nat →
  count_sep ":" media_id = 0%nat →
  split ":" (nav_token media_type lang index media_id)
    = ["nav"; media_type; lang; pretty index; media_id]
  ∧ unpack5 (split ":" (nav_token media_type lang index media_id))
    = Returned (media_type, lang, pretty index, media_id)
  ∧ split ":" (view_token media_type media_id) = ["view"; media_type; media_id]
  ∧ split ":" (details_token media_id) = ["details"; media_id]
  ∧ split ":" (back_token media_id) = ["back"; "main"; media_id].
Proof.
  intros Hmt Hlang Hid.
  assert (split ":" (nav_token media_type lang index media_id)
          = ["nav"; media_type; lang; pretty index; media_id]) as Hnav.
  { by rewrite split_nav_token, (split_free ":" media_id). }
  split; [done|]. split; [by rewrite Hnav|].
  change (view_token media_type media_id)
    with ("view" +:+ String ":" (media_type +:+ String ":" media_id)).
  change (details_token media_id) with ("details" +:+ String ":" media_id).
  change (back_token media_id)
    with ("back" +:+ String ":" ("main" +:+ String ":" media_id)).
  repeat split.
  - rewrite (split_field ":" "view") by done.
    by rewrite (split_field ":" media_type), (split_free ":" media_id).
  - rewrite (split_field ":" "details") by done.
    by rewrite (split_free ":" media_id).
  - rewrite (split_field ":" "back") by done.
    rewrite (split_field ":" "main") by done.
    by rewrite (split_free ":" media_id).
Qed.

(** X8: a colon inside the media id of a [nav] token (the other fields
    free of colons) gives more than five fields, so the unpacking of
    line 76 raises [ValueError]: however many colons there are, the
    token cannot be navigated. *)
Theorem colon_in_media_id_breaks_nav (media_type lang media_id : string)
    (index : Z) :
  count_sep ":" media_type = 0%nat →
  count_sep ":" lang = 0%nat →
  count_sep ":" media_id ≠ 0%nat →
  length (split ":" (nav_token media_type lang index media_id))
    = (5 + count_sep ":" media_id)%nat
  ∧ unpack5 (split ":" (nav_token media_type lang index media_id))
    = Raised (ValueError "too many values to unpack (expected 5)").
Proof.
  intros Hmt Hlang Hid. rewrite split_nav_token by done.
  pose proof (length_split ":" media_id) as Hlen.
  destruct (split ":" media_id) as [|p [|q ps]] eqn:E; simpl in Hlen.
  - done.
  - lia.
  - split; [simpl; lia|]. done.
Qed.

End TokenParsing.

(* ===================================================================== *)
(** * Presses on a cached session                                         *)
(* ===================================================================== *)
Section CachedSession.
Import Entry Tokens.
Context `{RT : Runtime}.

(** [handle_callback] up to the branch on the action (lines 178-196),
    when the session is in the cache. *)
Lemma handle_callback_hit bot cb w action media_id data_str result_data :
  split ":" (default "" (data cb)) !! 0%nat = Some action →
  action ≠ "noop" →
  last (split ":" (default "" (data cb))) = Some media_id →
  BOT_STATE w !! ("media:" +:+ media_id) = Some data_str →
  data_str ≠ EmptyString →
  json_loads data_str = Returned result_data →
  handle_callback bot cb w
  = (let parts := split ":" (default "" (data cb)) in
     if String.eqb action "view" then view bot cb parts media_id result_data
     else if String.eqb action "nav" then handle_pagination bot cb parts
     else if String.eqb action "details" then details bot cb media_id result_data
     else if String.eqb action "back" then back bot cb parts media_id result_data
     else mret tt) w.
Proof.
  intros Hact Hnoop Hlast Hkv Hne Hloads. unfold handle_callback.
  cbn zeta. unfold item, last_item. rewrite Hact, Hlast, bind_lift_Returned.
  destruct (String.eqb_spec action "noop"); [done|].
  rewrite bind_lift_Returned, bind_kv_get, Hkv.
  unfold not_str. destruct (String.eqb_spec data_str ""); [done|].
  change (default "" (Some data_str)) with data_str.
  by rewrite Hloads, bind_lift_Returned.
Qed.

(** [handle_pagination] up to line 84, when the session is in the cache. *)
Lemma handle_pagination_hit bot cb w tag media_type lang current_index_str
    media_id r data_str :
  int_ current_index_str = Returned r →
  BOT_STATE w !! ("media:" +:+ media_id) = Some data_str →
  data_str ≠ EmptyString →
  handle_pagination bot cb [tag; media_type; lang; current_index_str; media_id] w
  = try_except (render_image bot cb media_type lang r media_id data_str)
      (on_error bot cb) w.
Proof.
  intros Hint Hkv Hne. unfold handle_pagination, try_except. cbn [unpack5].
  rewrite bind_lift_Returned. cbn beta iota.
  rewrite Hint, bind_lift_Returned, bind_kv_get, Hkv.
  unfold not_str. by destruct (String.eqb_spec data_str "").
Qed.

Lemma button_token label token :
  button label token !! "callback_data" = Some (JStr token).
Proof. unfold button. rewrite lookup_insert_ne by done. by rewrite lookup_insert_eq. Qed.

(** X9: navigation stays inside the list.  Under image [i] of a cached
    list of [N] images, every button of the first row other than the
    indicator carries a token which, pressed while the session is still
    cached, makes [handle_callback] take the index [i - 1] or [i + 1], a
    position of the same list, without clamping: for any bot it calls
    [edit_message_media] with the image at that position, under a
    keyboard whose indicator shows that position, and then acknowledges.
    The media type, the language and the media id hold no colon, and
    [int] reads the numerals back.  With the bot of the class, which has
    no [edit_message_media], the call raises and the press ends in the
    alert of the except clause: no image is shown. *)
Theorem nav_buttons_lead_to_neighbours (w : World)
    (media_type lang media_id data_str : string) (cached : JSON)
    (image_list : list JSON) (i : Z)
    (b : gmap string JSON) (token : string) (cb : CallbackQuery) :
  count_sep ":" media_type = 0%nat →
  count_sep ":" lang = 0%nat →
  count_sep ":" media_id = 0%nat →
  BOT_STATE w !! ("media:" +:+ media_id) = Some data_str →
  data_str ≠ EmptyString →
  json_loads data_str = Returned cached →
  image_list_of cached media_type lang = Returned (JList image_list) →
  let N := Z.of_nat (length image_list) in
  let nav index :=
    "nav:" +:+ media_type +:+ ":" +:+ lang +:+ ":" +:+ pretty index +:+ ":"
      +:+ media_id in
  let prev : gmap string JSON :=
    <["text" := JStr "⬅️ Prev"]> (<["callback_data" := JStr (nav (i - 1))]> ∅) in
  let next : gmap string JSON :=
    <["text" := JStr "Next ➡️"]> (<["callback_data" := JStr (nav (i + 1))]> ∅) in
  let indicator (index : Z) : gmap string JSON :=
    <["text" := JStr (pretty (index + 1) +:+ "/" +:+ pretty N)]>
      (<["callback_data" := JStr "noop"]> ∅) in
  (∀ j, 0 ≤ j < N → int_ (pretty j) = Returned j) →
  0 ≤ i < N →
  b ∈ (if 0 <? i then [prev] else []) ++ [indicator i]
        ++ (if i <? N - 1 then [next] else []) →
  b !! "callback_data" = Some (JStr token) →
  token ≠ "noop" →
  data cb = Some token →
  ∃ j image,
    (j = i - 1 ∨ j = i + 1)
    ∧ 0 ≤ j < N
    ∧ token = nav j
    ∧ image_list !! Z.to_nat j = Some image
    ∧ (∀ bot, ∃ row rows,
         indicator j ∈ row
         ∧ handle_callback bot cb w
           = try_except
               (edit_message_media bot
                  (JDict (<["type" := JStr "photo"]> (<["media" := image]> ∅)))
                  {| TelegramBot.reply_markup :=
                       Some (Some {| TelegramBot.inline_keyboard :=
                                       Some (row :: rows);
                                     TelegramBot.other_fields := ∅ |});
                     TelegramBot.items :=
                       <["chat_id" := JInt (chat_id cb)]>
                         (<["message_id" := JInt (message_id cb)]> ∅) |};;
                answer_callback_query bot (id cb) None;;
                mret tt)
               (on_error bot cb) w)
    ∧ (∀ self,
         handle_callback (telegram_bot self) cb w
         = (Returned tt,
            after_request w
              (TelegramBot.api_request self "answerCallbackQuery"
                 "application/json"
                 (JsonBody (JDict
                    (<["callback_query_id" := JStr (id cb)]>
                       (<["text" :=
                            JStr ("An error occurred: 'TelegramBot' object "
                                    +:+ "has no attribute 'edit_message_media'")]>
                          (<["show_alert" := JBool true]> ∅)))))))).
Proof.
  intros Hmt Hlang Hid Hkv Hne Hloads Himgs N nav prev next indicator Hint Hi
    Hb Htok Hnoop Hdata.
  assert (∃ j, (j = i - 1 ∨ j = i + 1) ∧ 0 ≤ j < N
               ∧ token = nav_token media_type lang j media_id)
    as (j & Hj & Hrange & ->).
  { apply elem_of_app in Hb as [Hb|Hb].
    - destruct (Z.ltb_spec 0 i); [|by apply elem_of_nil in Hb].
      apply list_elem_of_singleton in Hb. subst b.
      change prev with (button "⬅️ Prev" (nav_token media_type lang (i - 1) media_id))
        in Htok.
      rewrite button_token in Htok. injection Htok as <-.
      exists (i - 1). split; [by left|]. split; [lia|done].
    - apply elem_of_cons in Hb as [->|Hb].
      { change (indicator i)
          with (button (pretty (i + 1) +:+ "/" +:+ pretty N) "noop") in Htok.
        rewrite button_token in Htok. by injection Htok as <-. }
      destruct (Z.ltb_spec i (N - 1)); [|by apply elem_of_nil in Hb].
      apply list_elem_of_singleton in Hb. subst b.
      change next with (button "Next ➡️" (nav_token media_type lang (i + 1) media_id))
        in Htok.
      rewrite button_token in Htok. injection Htok as <-.
      exists (i + 1). split; [by right|]. split; [lia|done]. }
  assert (image_list ≠ []) as Hnonempty.
  { intros ->. simpl in N. lia. }
  assert (Z.max 0 (Z.min j (N - 1)) = j) as Hclamp by lia.
  assert (split ":" (default "" (data cb))
          = ["nav"; media_type; lang; pretty j; media_id]) as Hparts.
  { rewrite Hdata. change (default "" (Some ?x)) with x.
    by rewrite split_nav_token, (split_free ":" media_id). }
  assert (∀ bot, handle_callback bot cb w
                 = handle_pagination bot cb
                     ["nav"; media_type; lang; pretty j; media_id] w) as Hnav.
  { intros bot.
    rewrite (handle_callback_hit bot cb w "nav" media_id data_str cached);
      [|by rewrite Hparts|done|by rewrite Hparts|done..].
    cbn zeta. by rewrite Hparts. }
  destruct (lookup_lt_is_Some_2 image_list (Z.to_nat j)) as [image Himage]; [lia|].
  exists j, image. split; [done|]. split; [done|]. split; [done|].
  split; [done|]. split.
  - intros bot. rewrite Hnav.
    destruct (handle_pagination_renders bot cb w "nav" media_type lang
                (pretty j) media_id data_str j cached image_list)
      as (image' & _ & Himage' & Hrun); try done; [by apply Hint|].
    fold N in Himage', Hrun. rewrite Hclamp in Himage', Hrun.
    rewrite Himage in Himage'. injection Himage' as <-.
    exists (row1 media_type lang j N media_id),
           [[button "« Back to Languages"
               ("view:" +:+ media_type +:+ ":" +:+ media_id)]].
    split; [|exact Hrun].
    unfold row1. apply elem_of_app. right. apply elem_of_cons. by left.
  - intros self. rewrite Hnav.
    by apply (class_pagination_alert self cb w "nav" media_type lang
                (pretty j) media_id data_str j cached image_list);
      [apply Hint|..].
Qed.

(** X10: the emptiness test of line 89 comes after [len] of line 87.  A
    cached selection that is empty and has a length (an empty list, text
    or dict) is answered with the plain notice; one that is falsy without
    a length ([null], [false], [0]) never reaches the notice: the
    [TypeError] of [len] goes to the except clause, which shows it as an
    alert.  No edit is made either way. *)
Theorem empty_selection_notice_or_alert (bot : Bot) (cb : CallbackQuery)
    (w : World) (tag media_type lang current_index_str media_id data_str : string)
    (r : Z) (data image_list : JSON) :
  int_ current_index_str = Returned r →
  BOT_STATE w !! ("media:" +:+ media_id) = Some data_str →
  data_str ≠ EmptyString →
  json_loads data_str = Returned data →
  image_list_of data media_type lang = Returned image_list →
  truthy image_list = false →
  handle_pagination bot cb [tag; media_type; lang; current_index_str; media_id] w
  = match len image_list with
    | Returned _ =>
        try_except
          (answer_callback_query bot (id cb)
             (Some (notice "No images found for this selection."));;
           mret tt)
          (on_error bot cb) w
    | Raised e => on_error bot cb e w
    end.
Proof.
  intros Hint Hkv Hne Hloads Himgs Hfalsy.
  rewrite (handle_pagination_hit _ _ _ _ _ _ _ _ r data_str) by done.
  unfold try_except, render_image.
  rewrite Hloads, bind_lift_Returned, Himgs, bind_lift_Returned.
  destruct (len image_list) as [n|e].
  - by rewrite bind_lift_Returned, Hfalsy.
  - by rewrite bind_lift_Raised.
Qed.

End CachedSession.

Section Cards.
Import Entry Tokens.
Context `{RT : Runtime}.

Lemma traverse_Forall2 {A B} (f : A → Outcome B) (P : A → B → Prop) xs :
  (∀ x, x ∈ xs → ∃ y, f x = Returned y ∧ P x y) →
  ∃ ys, traverse f xs = Returned ys ∧ Forall2 P xs ys.
Proof.
  induction xs as [|x xs IH]; intros H; simpl.
  - exists []. by split.
  - destruct (H x) as (y & -> & Hy); [by left|].
    destruct IH as (ys & -> & Hys); [intros; apply H; by right|].
    exists (y :: ys). split; [done|]. by constructor.
Qed.

Lemma sorted_keys (m : gmap string JSON) :
  NoDup (sorted (map_to_list m).*1)
  ∧ (∀ k, k ∈ sorted (map_to_list m).*1 ↔ is_Some (m !! k))
  ∧ Sorted (λ a b, Is_true (String.leb a b)) (sorted (map_to_list m).*1).
Proof.
  unfold sorted. split; [|split].
  - rewrite merge_sort_Permutation. apply NoDup_fst_map_to_list.
  - intros k. rewrite merge_sort_Permutation, list_elem_of_fmap. split.
    + intros ([k' v] & -> & H%elem_of_map_to_list). by exists v.
    + intros [v Hv]. exists (k, v). split; [done|].
      by apply elem_of_map_to_list.
  - apply Sorted_merge_sort. intros a b.
    destruct (String.leb_total a b) as [->| ->]; [by left|by right].
Qed.

(** The call of a method the class does not define. *)
Lemma class_caption_raises self caption options
    (k : JSON → M World unit) w :
  (edit_message_caption (telegram_bot self) caption options ≫= k) w
  = (Raised (AttributeError
       "'TelegramBot' object has no attribute 'edit_message_caption'"), w).
Proof. done. Qed.

(** X11: the language list of a [view] press.  With the session cached as
    a dict, the handler builds one row per language cached for the media
    type, each language once, in ascending order, labelled with the
    number of its images and leading to its image 0, and the back row
    last; a media type that is not cached gives the back row alone.  For
    any bot it then calls [edit_message_caption] with this keyboard, for
    the message of the press, and acknowledges.  Every cached language
    holds a list, a text or a dict.  With the bot of the class, which has
    no [edit_message_caption], the call raises [AttributeError] out of
    the handler: nothing is sent and the press is not acknowledged. *)
Theorem view_lists_each_language_once (cb : CallbackQuery)
    (w : World) (media_type media_id data_str : string)
    (d images by_type : gmap string JSON) :
  data cb = Some ("view:" +:+ media_type +:+ ":" +:+ media_id) →
  count_sep ":" media_type = 0%nat →
  count_sep ":" media_id = 0%nat →
  BOT_STATE w !! ("media:" +:+ media_id) = Some data_str →
  data_str ≠ EmptyString →
  json_loads data_str = Returned (JDict d) →
  default (JDict ∅) (d !! "images") = JDict images →
  default (JDict ∅) (images !! media_type) = JDict by_type →
  (∀ lang urls, by_type !! lang = Some urls → ∃ n, len urls = Returned n) →
  let row_of (lang : string) (count : Z) : list (gmap string JSON) :=
    [ <["text" :=
          JStr ((if (str_len lang =? 2)%nat then upper lang else "No Language")
                  +:+ " (" +:+ pretty count +:+ ")")]>
        (<["callback_data" :=
             JStr ("nav:" +:+ media_type +:+ ":" +:+ lang +:+ ":0:" +:+ media_id)]>
           ∅) ] in
  let back : gmap string JSON :=
    <["text" := JStr "« Back to Main Menu"]>
      (<["callback_data" := JStr ("back:main:" +:+ media_id)]> ∅) in
  ∃ langs rows,
    NoDup langs
    ∧ (∀ lang, lang ∈ langs ↔ is_Some (by_type !! lang))
    ∧ Sorted (λ a b, Is_true (String.leb a b)) langs
    ∧ Forall2
        (λ lang row, ∃ urls count,
           by_type !! lang = Some urls ∧ len urls = Returned count
           ∧ row = row_of lang count)
        langs rows
    ∧ (∀ bot,
         handle_callback bot cb w
         = (edit_message_caption bot
              ("Select a language for *" +:+ str_ (default JNull (d !! "title"))
                 +:+ "* " +:+ capitalize media_type +:+ ":")
              {| TelegramBot.reply_markup :=
                   Some (Some {| TelegramBot.inline_keyboard :=
                                   Some (rows ++ [[back]]);
                                 TelegramBot.other_fields := ∅ |});
                 TelegramBot.items :=
                   <["chat_id" := JInt (chat_id cb)]>
                     (<["message_id" := JInt (message_id cb)]>
                        (<["parse_mode" := JStr "Markdown"]> ∅)) |};;
            answer_callback_query bot (id cb) None;;
            mret tt) w)
    ∧ (∀ self,
         handle_callback (telegram_bot self) cb w
         = (Raised (AttributeError
              "'TelegramBot' object has no attribute 'edit_message_caption'"),
            w)).
Proof.
  intros Hdata Hmt Hid Hkv Hne Hloads Himages Hby_type Hlen row_of back.
  assert (split ":" (default "" (data cb)) = ["view"; media_type; media_id])
    as Hparts.
  { rewrite Hdata. change (default "" (Some ?x)) with x.
    change ("view:" +:+ media_type +:+ ":" +:+ media_id)
      with ("view" +:+ String ":" (media_type +:+ String ":" media_id)).
    rewrite (split_field ":" "view") by done.
    by rewrite (split_field ":" media_type), (split_free ":" media_id). }
  destruct (sorted_keys by_type) as (Hnodup & Hin & Hsorted).
  set (langs := sorted (map_to_list by_type).*1) in *.
  set (is_row := λ lang row, ∃ urls count,
         by_type !! lang = Some urls ∧ len urls = Returned count
         ∧ row = row_of lang count).
  assert (∀ lang, lang ∈ langs → ∃ urls n,
            by_type !! lang = Some urls ∧ len urls = Returned n
            ∧ images !! media_type = Some (JDict by_type)
            ∧ d !! "images" = Some (JDict images)) as Hcached.
  { intros lang [urls Hurls]%Hin. destruct (Hlen _ _ Hurls) as [n Hn].
    exists urls, n. split; [done|]. split; [done|].
    assert (images !! media_type = Some (JDict by_type)) as Ht.
    { destruct (images !! media_type) as [v|]; simpl in Hby_type; [by subst|].
      injection Hby_type as <-. by rewrite lookup_empty in Hurls. }
    split; [done|].
    destruct (d !! "images") as [v|]; simpl in Himages; [by subst|].
    injection Himages as <-. by rewrite lookup_empty in Ht. }
  assert (∀ bot, handle_callback bot cb w
                 = view bot cb ["view"; media_type; media_id] media_id
                     (JDict d) w) as Hview.
  { intros bot.
    rewrite (handle_callback_hit bot cb w "view" media_id data_str (JDict d));
      [|by rewrite Hparts|done|by rewrite Hparts|done..].
    cbn zeta. by rewrite Hparts. }
  assert (∃ rows, Forall2 is_row langs rows
    ∧ ∀ bot, view bot cb ["view"; media_type; media_id] media_id (JDict d) w
        = (edit_message_caption bot
             ("Select a language for *" +:+ str_ (default JNull (d !! "title"))
                +:+ "* " +:+ capitalize media_type +:+ ":")
             {| TelegramBot.reply_markup :=
                  Some (Some {| TelegramBot.inline_keyboard :=
                                  Some (rows ++ [[back]]);
                                TelegramBot.other_fields := ∅ |});
                TelegramBot.items :=
                  <["chat_id" := JInt (chat_id cb)]>
                    (<["message_id" := JInt (message_id cb)]>
                       (<["parse_mode" := JStr "Markdown"]> ∅)) |};;
           answer_callback_query bot (id cb) None;;
           mret tt) w) as (rows & Hall & Hrun).
  { unfold view, item. cbn [lookup list_lookup].
    setoid_rewrite bind_lift_Returned.
    cbn [py_get]. setoid_rewrite bind_lift_Returned. rewrite Himages.
    cbn [py_get]. setoid_rewrite bind_lift_Returned. rewrite Hby_type.
    cbn [py_keys]. setoid_rewrite bind_lift_Returned. fold langs.
    match goal with
    | |- context [traverse ?f langs] =>
        destruct (traverse_Forall2 f is_row langs) as (rows & Hrows & Hall)
    end.
    { intros lang (urls & n & Hurls & Hn & Ht & Hi)%Hcached.
      exists (row_of lang n). split.
      - cbn [py_item]. rewrite Hi. cbn [py_item]. rewrite Ht. cbn [py_item].
        by rewrite Hurls, Hn.
      - by exists urls, n. }
    exists rows. split; [exact Hall|]. intros bot.
    by rewrite Hrows, bind_lift_Returned. }
  exists langs, rows. split; [done|]. split; [done|]. split; [done|].
  split; [exact Hall|]. split.
  - intros bot. by rewrite Hview, Hrun.
  - intros self. rewrite Hview, Hrun. apply class_caption_raises.
Qed.

(** X12: the details card never depends on which fields the record has.
    For every cached dict a [details] press builds the card with [None]
    for a missing title, year or URL, an empty tagline and [N/A] for the
    other missing fields, and for any bot calls [edit_message_caption]
    with it and with the back row as the only row, then acknowledges.
    With the bot of the class the call raises [AttributeError] out of the
    handler: nothing is sent and the press is not acknowledged. *)
Theorem details_for_any_record (cb : CallbackQuery) (w : World)
    (media_id data_str : string) (d : gmap string JSON) :
  data cb = Some ("details:" +:+ media_id) →
  count_sep ":" media_id = 0%nat →
  BOT_STATE w !! ("media:" +:+ media_id) = Some data_str →
  data_str ≠ EmptyString →
  json_loads data_str = Returned (JDict d) →
  let field k dflt := str_ (default dflt (d !! k)) in
  let card :=
    "🎬 *" +:+ field "title" JNull +:+ "* (" +:+ field "year" JNull +:+ ")"
    +:+ nl +:+ nl
    +:+ "*" +:+ field "tagline" (JStr "") +:+ "*" +:+ nl +:+ nl
    +:+ "📖 *Plot:* " +:+ field "plot" (JStr "N/A") +:+ nl +:+ nl
    +:+ "⭐ *Rating:* " +:+ field "rating" (JStr "N/A") +:+ " ("
    +:+ field "votes" (JStr "N/A") +:+ " votes)" +:+ nl
    +:+ "🕒 *Runtime:* " +:+ field "runtime" (JStr "N/A") +:+ nl
    +:+ "🎭 *Genres:* " +:+ field "genres" (JStr "N/A") +:+ nl +:+ nl
    +:+ "🔗 [View on TMDB](" +:+ field "url" JNull +:+ ")" in
  let back : gmap string JSON :=
    <["text" := JStr "« Back to Main Menu"]>
      (<["callback_data" := JStr ("back:main:" +:+ media_id)]> ∅) in
  (∀ bot,
     handle_callback bot cb w
     = (edit_message_caption bot card
          {| TelegramBot.reply_markup :=
               Some (Some {| TelegramBot.inline_keyboard := Some [[back]];
                             TelegramBot.other_fields := ∅ |});
             TelegramBot.items :=
               <["chat_id" := JInt (chat_id cb)]>
                 (<["message_id" := JInt (message_id cb)]>
                    (<["parse_mode" := JStr "Markdown"]> ∅)) |};;
        answer_callback_query bot (id cb) None;;
        mret tt) w)
  ∧ (∀ self,
       handle_callback (telegram_bot self) cb w
       = (Raised (AttributeError
            "'TelegramBot' object has no attribute 'edit_message_caption'"),
          w)).
Proof.
  intros Hdata Hid Hkv Hne Hloads field card back.
  assert (split ":" (default "" (data cb)) = ["details"; media_id]) as Hparts.
  { rewrite Hdata. change (default "" (Some ?x)) with x.
    change ("details:" +:+ media_id) with ("details" +:+ String ":" media_id).
    rewrite (split_field ":" "details") by done.
    by rewrite (split_free ":" media_id). }
  assert (∀ bot,
    handle_callback bot cb w
    = (edit_message_caption bot card
         {| TelegramBot.reply_markup :=
              Some (Some {| TelegramBot.inline_keyboard := Some [[back]];
                            TelegramBot.other_fields := ∅ |});
            TelegramBot.items :=
              <["chat_id" := JInt (chat_id cb)]>
                (<["message_id" := JInt (message_id cb)]>
                   (<["parse_mode" := JStr "Markdown"]> ∅)) |};;
       answer_callback_query bot (id cb) None;;
       mret tt) w) as Hrun.
  { intros bot.
    rewrite (handle_callback_hit bot cb w "details" media_id data_str (JDict d));
      [|by rewrite Hparts|done|by rewrite Hparts|done..].
    cbn zeta. cbn [String.eqb Ascii.eqb Bool.eqb].
    unfold details. cbn [py_get]. by rewrite !bind_lift_Returned. }
  split; [exact Hrun|].
  intros self. rewrite Hrun. apply class_caption_raises.
Qed.

(** X13: the way back to the main menu slices the plot (line 243) before
    anything is sent.  With a plot that cannot be sliced (a [null], a
    number, a dict) the exception of the slice leaves the handler, for
    any bot: no edit, no acknowledgement, nothing caught.  With a plot
    that is a text or a list the handler builds the caption and, for any
    bot, calls [edit_message_caption] with it and with the keyboard of
    the main menu, then acknowledges; with the bot of the class that call
    raises [AttributeError] out of the handler, so that nothing is sent
    in this case either. *)
Theorem back_to_main_slices_plot (cb : CallbackQuery) (w : World)
    (media_id data_str : string) (d : gmap string JSON) :
  data cb = Some ("back:main:" +:+ media_id) →
  count_sep ":" media_id = 0%nat →
  BOT_STATE w !! ("media:" +:+ media_id) = Some data_str →
  data_str ≠ EmptyString →
  json_loads data_str = Returned (JDict d) →
  let plot := default (JStr "No summary available.") (d !! "plot") in
  let menu : list (list (gmap string JSON)) :=
    [ [ <["text" := JStr "🖼️ View Posters"]>
          (<["callback_data" := JStr ("view:posters:" +:+ media_id)]> ∅);
        <["text" := JStr "🏞️ View Backdrops"]>
          (<["callback_data" := JStr ("view:backdrops:" +:+ media_id)]> ∅) ];
      [ <["text" := JStr "ℹ️ Full Details"]>
          (<["callback_data" := JStr ("details:" +:+ media_id)]> ∅) ] ] in
  (∀ e, py_prefix plot 800 = Raised e →
        ∀ bot, handle_callback bot cb w = (Raised e, w))
  ∧ (∀ summary, py_prefix plot 800 = Returned summary →
       (∀ bot,
          handle_callback bot cb w
          = (edit_message_caption bot
               ("🎬 *" +:+ str_ (default (JStr "N/A") (d !! "title")) +:+ "* ("
                  +:+ str_ (default (JStr "N/A") (d !! "year")) +:+ ")"
                  +:+ nl +:+ nl +:+ str_ summary)
               {| TelegramBot.reply_markup :=
                    Some (Some {| TelegramBot.inline_keyboard := Some menu;
                                  TelegramBot.other_fields := ∅ |});
                  TelegramBot.items :=
                    <["chat_id" := JInt (chat_id cb)]>
                      (<["message_id" := JInt (message_id cb)]>
                         (<["parse_mode" := JStr "Markdown"]> ∅)) |};;
             answer_callback_query bot (id cb) None;;
             mret tt) w)
       ∧ (∀ self,
            handle_callback (telegram_bot self) cb w
            = (Raised (AttributeError
                 "'TelegramBot' object has no attribute 'edit_message_caption'"),
               w))).
Proof.
  intros Hdata Hid Hkv Hne Hloads plot menu.
  assert (split ":" (default "" (data cb)) = ["back"; "main"; media_id])
    as Hparts.
  { rewrite Hdata. change (default "" (Some ?x)) with x.
    change ("back:main:" +:+ media_id)
      with ("back" +:+ String ":" ("main" +:+ String ":" media_id)).
    rewrite (split_field ":" "back") by done.
    rewrite (split_field ":" "main") by done.
    by rewrite (split_free ":" media_id). }
  assert (∀ bot,
    handle_callback bot cb w
    = (summary ← lift (py_prefix plot 800);
       edit_message_caption bot
         ("🎬 *" +:+ str_ (default (JStr "N/A") (d !! "title")) +:+ "* ("
            +:+ str_ (default (JStr "N/A") (d !! "year")) +:+ ")"
            +:+ nl +:+ nl +:+ str_ summary)
         {| TelegramBot.reply_markup :=
              Some (Some {| TelegramBot.inline_keyboard := Some menu;
                            TelegramBot.other_fields := ∅ |});
            TelegramBot.items :=
              <["chat_id" := JInt (chat_id cb)]>
                (<["message_id" := JInt (message_id cb)]>
                   (<["parse_mode" := JStr "Markdown"]> ∅)) |};;
       answer_callback_query bot (id cb) None;;
       mret tt) w) as Hrun.
  { intros bot.
    rewrite (handle_callback_hit bot cb w "back" media_id data_str (JDict d));
      [|by rewrite Hparts|done|by rewrite Hparts|done..].
    cbn zeta. rewrite Hparts. cbn [String.eqb Ascii.eqb Bool.eqb].
    unfold back, item. cbn [lookup list_lookup]. rewrite bind_lift_Returned.
    cbn [String.eqb Ascii.eqb Bool.eqb py_get].
    by rewrite !bind_lift_Returned. }
  split.
  - intros e He bot. by rewrite Hrun, He, bind_lift_Raised.
  - intros summary Hsummary. split.
    + intros bot. by rewrite Hrun, Hsummary, bind_lift_Returned.
    + intros self. rewrite Hrun, Hsummary, bind_lift_Returned.
      apply class_caption_raises.
Qed.

(** X14: the indicator button is acknowledged without a look at the
    cache: whenever the first field of the token is [noop], whatever
    follows it and whatever the cache holds, the handler makes the plain
    acknowledgement and nothing else. *)
Theorem noop_only_acknowledges (bot : Bot) (cb : CallbackQuery) (w : World) :
  split ":" (default "" (data cb)) !! 0%nat = Some "noop" →
  handle_callback bot cb w
  = (answer_callback_query bot (id cb) None;; mret tt) w.
Proof.
  intros Hact. unfold handle_callback. cbn zeta. unfold item.
  by rewrite Hact, bind_lift_Returned.
Qed.

End Cards.

(* ===================================================================== *)
(** * The handlers with the bot of the class                              *)
(* ===================================================================== *)
Section ClassBot.
Import Entry Tokens.
Context `{RT : Runtime}.

(** The request of an acknowledgement. *)
Lemma class_answer_run self cb options w :
  (answer_callback_query (telegram_bot self) (id cb) options;; mret tt) w
  = (Returned tt,
     after_request w
       (answer_request self
          (TelegramBot.payload_json
             (TelegramBot.update
                {| TelegramBot.reply_markup := None;
                   TelegramBot.items :=
                     <["callback_query_id" := JStr (id cb)]> ∅ |}
                (TelegramBot.or_empty options))))).
Proof.
  cbn [telegram_bot answer_callback_query].
  unfold TelegramBot.answer_callback_query, answer_request.
  by erewrite bind_run; [|apply post_json_run].
Qed.

Lemma quiet_raise self w e : quiet_or_answered self w (Raised e, w).
Proof. left. by eexists. Qed.

Lemma quiet_answer self cb options w :
  quiet_or_answered self w
    ((answer_callback_query (telegram_bot self) (id cb) options;; mret tt) w).
Proof. right. eexists. apply class_answer_run. Qed.

(** A pure step changes nothing: it raises, or the run goes on. *)
Lemma quiet_lift {A} self (o : Outcome A) (k : A → M World unit) w :
  (∀ a, quiet_or_answered self w (k a w)) →
  quiet_or_answered self w ((lift o ≫= k) w).
Proof.
  intros Hk. destruct o as [a|e].
  - rewrite bind_lift_Returned. apply Hk.
  - rewrite bind_lift_Raised. apply quiet_raise.
Qed.

Ltac quiet :=
  repeat first [ apply quiet_raise
               | apply quiet_answer
               | apply quiet_lift; intros ? ].

(** [handle_pagination] with the bot of the class: one acknowledgement,
    whatever the fields and the cache are. *)
Lemma class_pagination_run self cb parts w :
  ∃ body,
    handle_pagination (telegram_bot self) cb parts w
    = (Returned tt, after_request w (answer_request self body)).
Proof.
  assert (∀ c : M World unit,
    ((∃ e, c w = (Raised e, w))
     ∨ (∃ body, c w = (Returned tt, after_request w (answer_request self body)))) →
    ∃ body, try_except c (on_error (telegram_bot self) cb) w
      = (Returned tt, after_request w (answer_request self body))) as Htry.
  { intros c [[e Hc]|[body Hc]]; unfold try_except; rewrite Hc; [|by eexists].
    eexists. apply class_answer_run. }
  apply Htry. clear Htry.
  destruct (unpack5 parts) as [[[[media_type lang] current_index_str] media_id]|e];
    [|left; by eexists].
  rewrite bind_lift_Returned. cbn beta iota.
  destruct (int_ current_index_str) as [r|e]; [|left; by eexists].
  rewrite bind_lift_Returned, bind_kv_get.
  destruct (not_str _); [right; eexists; apply class_answer_run|].
  unfold render_image.
  destruct (json_loads _) as [cached|e]; [|left; by eexists].
  rewrite bind_lift_Returned.
  destruct (image_list_of _ _ _) as [image_list|e]; [|left; by eexists].
  rewrite bind_lift_Returned.
  destruct (len image_list) as [n|e]; [|left; by eexists].
  rewrite bind_lift_Returned.
  destruct (negb _); [right; eexists; apply class_answer_run|]. cbn zeta.
  destruct (py_index _ _) as [image|e]; [|left; by eexists].
  rewrite bind_lift_Returned. left. by eexists.
Qed.

(** X15: with the bot that [fetch] builds, an instance of the class
    [TelegramBot], no press ever edits the message.  [handle_pagination]
    always returns after exactly one request, an [answerCallbackQuery];
    [handle_callback] either makes no request at all (and may raise), or
    returns after exactly one [answerCallbackQuery].  The KV namespace is
    never written. *)
Theorem class_bot_never_edits (self : TelegramBot.TelegramBot)
    (cb : CallbackQuery) (w : World) :
  (∀ parts, ∃ body,
     handle_pagination (telegram_bot self) cb parts w
     = (Returned tt, after_request w (answer_request self body)))
  ∧ quiet_or_answered self w (handle_callback (telegram_bot self) cb w).
Proof.
  split; [intros parts; apply class_pagination_run|].
  unfold handle_callback. cbn zeta.
  set (parts := split ":" (default "" (data cb))).
  apply quiet_lift. intros action.
  destruct (String.eqb action "noop"); [apply quiet_answer|].
  apply quiet_lift. intros media_id. rewrite bind_kv_get.
  destruct (not_str _); [apply quiet_answer|].
  apply quiet_lift. intros result_data.
  destruct (String.eqb action "view").
  { unfold view. quiet. }
  destruct (String.eqb action "nav").
  { right. apply class_pagination_run. }
  destruct (String.eqb action "details").
  { unfold details. cbn zeta. quiet. }
  destruct (String.eqb action "back"); [|left; by eexists].
  unfold back. apply quiet_lift. intros destination.
  destruct (String.eqb destination "main"); [|left; by eexists].
  quiet.
Qed.

End ClassBot.

Section PressScenario.
Import Entry Tokens.

Lemma tokens_read_back_witness :
  split ":" (nav_token "posters" "en" 1 "123")
    = ["nav"; "posters"; "en"; pretty 1; "123"]
  ∧ unpack5 (split ":" (nav_token "posters" "en" 1 "123"))
    = Returned ("posters", "en", pretty 1, "123")
  ∧ split ":" (view_token "posters" "123") = ["view"; "posters"; "123"]
  ∧ split ":" (details_token "123") = ["details"; "123"]
  ∧ split ":" (back_token "123") = ["back"; "main"; "123"].
Proof. apply (tokens_read_back "posters" "en" "123" 1); reflexivity. Defined.

Lemma colon_in_media_id_breaks_nav_witness :
  length (split ":" (nav_token "posters" "en" 1 "tt:123"))
    = (5 + count_sep ":" "tt:123")%nat
  ∧ unpack5 (split ":" (nav_token "posters" "en" 1 "tt:123"))
    = Raised (ValueError "too many values to unpack (expected 5)").
Proof.
  apply (colon_in_media_id_breaks_nav "posters" "en" "tt:123" 1);
    [reflexivity | reflexivity | discriminate].
Defined.

Lemma nav_buttons_lead_to_neighbours_witness :
  let cb := Scenario.press "nav:posters:en:2:123" in
  let image_list := [JStr "u1"; JStr "u2"; JStr "u3"] in
  let N := Z.of_nat (length image_list) in
  let nav index :=
    "nav:" +:+ "posters" +:+ ":" +:+ "en" +:+ ":" +:+ pretty index +:+ ":"
      +:+ "123" in
  let indicator (index : Z) : gmap string JSON :=
    <["text" := JStr (pretty (index + 1) +:+ "/" +:+ pretty N)]>
      (<["callback_data" := JStr "noop"]> ∅) in
  ∃ j image,
    (j = 1 - 1 ∨ j = 1 + 1)
    ∧ 0 ≤ j < N
    ∧ "nav:posters:en:2:123" = nav j
    ∧ image_list !! Z.to_nat j = Some image
    ∧ (∀ bot, ∃ row rows,
         indicator j ∈ row
         ∧ handle_callback (RT := Scenario.runtime) bot cb Scenario.world
           = try_except
               (edit_message_media bot
                  (JDict (<["type" := JStr "photo"]> (<["media" := image]> ∅)))
                  {| TelegramBot.reply_markup :=
                       Some (Some {| TelegramBot.inline_keyboard :=
                                       Some (row :: rows);
                                     TelegramBot.other_fields := ∅ |});
                     TelegramBot.items :=
                       <["chat_id" := JInt (chat_id cb)]>
                         (<["message_id" := JInt (message_id cb)]> ∅) |};;
                answer_callback_query bot (id cb) None;;
                mret tt)
               (on_error bot cb) Scenario.world)
    ∧ (∀ self,
         handle_callback (RT := Scenario.runtime) (telegram_bot self) cb
           Scenario.world
         = (Returned tt,
            after_request Scenario.world
              (TelegramBot.api_request self "answerCallbackQuery"
                 "application/json"
                 (JsonBody (JDict
                    (<["callback_query_id" := JStr (id cb)]>
                       (<["text" :=
                            JStr ("An error occurred: 'TelegramBot' object "
                                    +:+ "has no attribute 'edit_message_media'")]>
                          (<["show_alert" := JBool true]> ∅)))))))).
Proof.
  apply (nav_buttons_lead_to_neighbours (RT := Scenario.runtime)
           Scenario.world "posters" "en" "123"
           Scenario.record_text Scenario.record
           [JStr "u1"; JStr "u2"; JStr "u3"] 1
           (button "Next ➡️" "nav:posters:en:2:123") "nav:posters:en:2:123"
           (Scenario.press "nav:posters:en:2:123")).
  - reflexivity.
  - reflexivity.
  - reflexivity.
  - vm_compute. reflexivity.
  - discriminate.
  - vm_compute. reflexivity.
  - vm_compute. reflexivity.
  - intros j Hj. assert (j = 0 ∨ j = 1 ∨ j = 2) as [->|[->| ->]] by (simpl in Hj; lia);
      reflexivity.
  - simpl. lia.
  - simpl. apply list_elem_of_further, list_elem_of_further.
    apply list_elem_of_here.
  - vm_compute. reflexivity.
  - discriminate.
  - reflexivity.
Defined.

Lemma empty_selection_notice_or_alert_witness :
  handle_pagination (RT := Scenario.runtime) (telegram_bot Scenario.self)
    (Scenario.press "nav:posters:fr:0:123")
    ["nav"; "posters"; "fr"; "0"; "123"] Scenario.world
  = match len (JList []) with
    | Returned _ =>
        try_except
          (answer_callback_query (telegram_bot Scenario.self) "cb1"
             (Some (notice "No images found for this selection."));;
           mret tt)
          (on_error (telegram_bot Scenario.self)
             (Scenario.press "nav:posters:fr:0:123"))
          Scenario.world
    | Raised e =>
        on_error (telegram_bot Scenario.self)
          (Scenario.press "nav:posters:fr:0:123") e Scenario.world
    end.
Proof.
  apply (empty_selection_notice_or_alert (RT := Scenario.runtime)
           (telegram_bot Scenario.self) (Scenario.press "nav:posters:fr:0:123")
           Scenario.world "nav" "posters" "fr" "0" "123" Scenario.record_text
           0 Scenario.record (JList [])).
  - vm_compute. reflexivity.
  - vm_compute. reflexivity.
  - discriminate.
  - vm_compute. reflexivity.
  - vm_compute. reflexivity.
  - reflexivity.
Defined.

Lemma view_lists_each_language_once_witness :
  let cb := Scenario.press "view:posters:123" in
  let row_of (lang : string) (count : Z) : list (gmap string JSON) :=
    [ <["text" :=
          JStr ((if (str_len lang =? 2)%nat then Scenario.upper_str lang
                 else "No Language")
                  +:+ " (" +:+ pretty count +:+ ")")]>
        (<["callback_data" :=
             JStr ("nav:" +:+ "posters" +:+ ":" +:+ lang +:+ ":0:" +:+ "123")]>
           ∅) ] in
  let back : gmap string JSON :=
    <["text" := JStr "« Back to Main Menu"]>
      (<["callback_data" := JStr ("back:main:" +:+ "123")]> ∅) in
  ∃ langs rows,
    NoDup langs
    ∧ (∀ lang, lang ∈ langs ↔ is_Some (Scenario.posters !! lang))
    ∧ Sorted (λ a b, Is_true (String.leb a b)) langs
    ∧ Forall2
        (λ lang row, ∃ urls count,
           Scenario.posters !! lang = Some urls ∧ len urls = Returned count
           ∧ row = row_of lang count)
        langs rows
    ∧ (∀ bot,
         handle_callback (RT := Scenario.runtime) bot cb Scenario.world
         = (edit_message_caption bot
              ("Select a language for *"
                 +:+ Scenario.show (default JNull (Scenario.fields !! "title"))
                 +:+ "* " +:+ Scenario.capitalize_str "posters" +:+ ":")
              {| TelegramBot.reply_markup :=
                   Some (Some {| TelegramBot.inline_keyboard :=
                                   Some (rows ++ [[back]]);
                                 TelegramBot.other_fields := ∅ |});
                 TelegramBot.items :=
                   <["chat_id" := JInt (chat_id cb)]>
                     (<["message_id" := JInt (message_id cb)]>
                        (<["parse_mode" := JStr "Markdown"]> ∅)) |};;
            answer_callback_query bot (id cb) None;;
            mret tt) Scenario.world)
    ∧ (∀ self,
         handle_callback (RT := Scenario.runtime) (telegram_bot self) cb
           Scenario.world
         = (Raised (AttributeError
              "'TelegramBot' object has no attribute 'edit_message_caption'"),
            Scenario.world)).
Proof.
  apply (view_lists_each_language_once (RT := Scenario.runtime)
           (Scenario.press "view:posters:123") Scenario.world
           "posters" "123" Scenario.record_text
           Scenario.fields Scenario.images Scenario.posters).
  - reflexivity.
  - reflexivity.
  - reflexivity.
  - vm_compute. reflexivity.
  - discriminate.
  - vm_compute. reflexivity.
  - vm_compute. reflexivity.
  - vm_compute. reflexivity.
  - intros lang urls. unfold Scenario.posters.
    destruct (decide (lang = "en")) as [->|Hne].
    + rewrite lookup_insert_eq. intros [= <-]. by eexists.
    + rewrite lookup_insert_ne by done. by rewrite lookup_empty.
Defined.

Lemma details_for_any_record_witness :
  let cb := Scenario.press "details:123" in
  let field k dflt := Scenario.show (default dflt (Scenario.fields !! k)) in
  let card :=
    "🎬 *" +:+ field "title" JNull +:+ "* (" +:+ field "year" JNull +:+ ")"
    +:+ nl +:+ nl
    +:+ "*" +:+ field "tagline" (JStr "") +:+ "*" +:+ nl +:+ nl
    +:+ "📖 *Plot:* " +:+ field "plot" (JStr "N/A") +:+ nl +:+ nl
    +:+ "⭐ *Rating:* " +:+ field "rating" (JStr "N/A") +:+ " ("
    +:+ field "votes" (JStr "N/A") +:+ " votes)" +:+ nl
    +:+ "🕒 *Runtime:* " +:+ field "runtime" (JStr "N/A") +:+ nl
    +:+ "🎭 *Genres:* " +:+ field "genres" (JStr "N/A") +:+ nl +:+ nl
    +:+ "🔗 [View on TMDB](" +:+ field "url" JNull +:+ ")" in
  let back : gmap string JSON :=
    <["text" := JStr "« Back to Main Menu"]>
      (<["callback_data" := JStr ("back:main:" +:+ "123")]> ∅) in
  (∀ bot,
     handle_callback (RT := Scenario.runtime) bot cb Scenario.world
     = (edit_message_caption bot card
          {| TelegramBot.reply_markup :=
               Some (Some {| TelegramBot.inline_keyboard := Some [[back]];
                             TelegramBot.other_fields := ∅ |});
             TelegramBot.items :=
               <["chat_id" := JInt (chat_id cb)]>
                 (<["message_id" := JInt (message_id cb)]>
                    (<["parse_mode" := JStr "Markdown"]> ∅)) |};;
        answer_callback_query bot (id cb) None;;
        mret tt) Scenario.world)
  ∧ (∀ self,
       handle_callback (RT := Scenario.runtime) (telegram_bot self) cb
         Scenario.world
       = (Raised (AttributeError
            "'TelegramBot' object has no attribute 'edit_message_caption'"),
          Scenario.world)).
Proof.
  apply (details_for_any_record (RT := Scenario.runtime)
           (Scenario.press "details:123") Scenario.world "123"
           Scenario.record_text Scenario.fields).
  - reflexivity.
  - reflexivity.
  - vm_compute. reflexivity.
  - discriminate.
  - vm_compute. reflexivity.
Defined.

Lemma back_to_main_slices_plot_witness :
  let cb := Scenario.press "back:main:123" in
  let plot :=
    default (JStr "No summary available.") (Scenario.fields !! "plot") in
  let menu : list (list (gmap string JSON)) :=
    [ [ <["text" := JStr "🖼️ View Posters"]>
          (<["callback_data" := JStr ("view:posters:" +:+ "123")]> ∅);
        <["text" := JStr "🏞️ View Backdrops"]>
          (<["callback_data" := JStr ("view:backdrops:" +:+ "123")]> ∅) ];
      [ <["text" := JStr "ℹ️ Full Details"]>
          (<["callback_data" := JStr ("details:" +:+ "123")]> ∅) ] ] in
  (∀ e, py_prefix plot 800 = Raised e →
        ∀ bot, handle_callback (RT := Scenario.runtime) bot cb Scenario.world
               = (Raised e, Scenario.world))
  ∧ (∀ summary, py_prefix plot 800 = Returned summary →
       (∀ bot,
          handle_callback (RT := Scenario.runtime) bot cb Scenario.world
          = (edit_message_caption bot
               ("🎬 *"
                  +:+ Scenario.show (default (JStr "N/A") (Scenario.fields !! "title"))
                  +:+ "* ("
                  +:+ Scenario.show (default (JStr "N/A") (Scenario.fields !! "year"))
                  +:+ ")" +:+ nl +:+ nl +:+ Scenario.show summary)
               {| TelegramBot.reply_markup :=
                    Some (Some {| TelegramBot.inline_keyboard := Some menu;
                                  TelegramBot.other_fields := ∅ |});
                  TelegramBot.items :=
                    <["chat_id" := JInt (chat_id cb)]>
                      (<["message_id" := JInt (message_id cb)]>
                         (<["parse_mode" := JStr "Markdown"]> ∅)) |};;
             answer_callback_query bot (id cb) None;;
             mret tt) Scenario.world)
       ∧ (∀ self,
            handle_callback (RT := Scenario.runtime) (telegram_bot self) cb
              Scenario.world
            = (Raised (AttributeError
                 "'TelegramBot' object has no attribute 'edit_message_caption'"),
               Scenario.world))).
Proof.
  apply (back_to_main_slices_plot (RT := Scenario.runtime)
           (Scenario.press "back:main:123") Scenario.world "123"
           Scenario.record_text Scenario.fields).
  - reflexivity.
  - reflexivity.
  - vm_compute. reflexivity.
  - discriminate.
  - vm_compute. reflexivity.
Defined.

Lemma noop_only_acknowledges_witness :
  handle_callback (RT := Scenario.runtime) (telegram_bot Scenario.self)
    (Scenario.press "noop") Scenario.world
  = (answer_callback_query (telegram_bot Scenario.self) "cb1" None;; mret tt)
      Scenario.world.
Proof.
  apply (noop_only_acknowledges (RT := Scenario.runtime)
           (telegram_bot Scenario.self) (Scenario.press "noop") Scenario.world).
  reflexivity.
Defined.

End PressScenario.

(* ===================================================================== *)
(** * Registration                                                        *)
(* ===================================================================== *)
Section Registration.
Import TelegramBot Client.
Context {W B : Type}.

Lemma decorate_from (self : Dispatcher W B) (ds : list (Decorated W B)) :
  message_handlers (foldl decorate self ds)
    = message_handlers self ++ message_funcs ds
  ∧ callback_query_handlers (foldl decorate self ds)
    = callback_query_handlers self ++ callback_funcs ds.
Proof.
  revert self. induction ds as [|d ds IH]; intros self; simpl.
  - by rewrite !app_nil_r.
  - destruct (IH (decorate self d)) as [-> ->].
    destruct d as [func|func]; simpl; by rewrite <- ?app_assoc.
Qed.

(** X16: decorating registers and changes nothing else.  After any
    sequence of [@on_message()] and [@on_callback_query()] decorations on
    a new dispatcher, each list holds the functions decorated for its
    kind, every one once per decoration and in the order of decoration,
    and none of the other kind; the decorated name is bound to the
    function itself; so a dispatch of a message runs the message
    functions in that order, and a dispatch of a callback event the
    others. *)
Theorem decorators_register_in_order (ds : list (Decorated W B)) :
  message_handlers (decorate_all ds) = message_funcs ds
  ∧ callback_query_handlers (decorate_all ds) = callback_funcs ds
  ∧ (length (message_funcs ds) + length (callback_funcs ds) = length ds)%nat
  ∧ (∀ (self : Dispatcher W B) func,
       (on_message self func).2 = func ∧ (on_callback_query self func).2 = func)
  ∧ (∀ bot update,
       route_update (decorate_all ds) bot update
       = match carries update "message" with
         | Some msg => for_each (message_funcs ds) (λ handler, handler bot msg)
         | None =>
             match carries update "callback_query" with
             | Some cb => for_each (callback_funcs ds) (λ handler, handler bot cb)
             | None => mret tt
             end
         end).
Proof.
  destruct (decorate_from new_dispatcher ds) as [Hm Hc]. simpl in Hm, Hc.
  split; [done|]. split; [done|]. split; [|split; [done|]].
  - clear Hm Hc. unfold message_funcs, callback_funcs.
    induction ds as [|[func|func] ds IH]; [done| |];
      cbn [omap list_omap length] in *; lia.
  - intros bot update. unfold route_update, decorate_all.
    by rewrite Hm, Hc.
Qed.

End Registration.

(* ===================================================================== *)
(** * Messages: commands and searches                                     *)
(* ===================================================================== *)
Section Messages.
Import Search.
Context `{RT : Runtime} `{SV : Service}.

Lemma on_world_run {A C} (c : M World A) (k : A → M State C) st a w' :
  c (world st) = (Returned a, w') →
  (on_world c ≫= k) st = k a {| world := w'; searched := searched st |}.
Proof.
  intros Hc. unfold mbind, M_bind, bind, on_world. by rewrite Hc.
Qed.

Lemma state_eta st : {| world := world st; searched := searched st |} = st.
Proof. by destruct st. Qed.

(** A reply: one [sendMessage] request, and the handler goes on. *)
Lemma reply_run self chat_id text options st :
  (on_world (TelegramBot.send_message self chat_id text options);; mret tt) st
  = (Returned tt, and_request st (message_request self chat_id text options)).
Proof.
  erewrite on_world_run; [done|].
  unfold TelegramBot.send_message. apply post_json_run.
Qed.

Lemma command_run self chat_id text w :
  (text ∉ commands → command self chat_id text w = (Returned tt, w))
  ∧ (text ∈ commands →
     ∃ reply options,
       command self chat_id text w
       = (Returned tt,
          after_request w (message_request self chat_id reply options))).
Proof.
  assert (∀ reply options,
    (TelegramBot.send_message self chat_id reply options;; mret tt) w
    = (Returned tt, after_request w (message_request self chat_id reply options)))
    as Hsend.
  { intros reply options. unfold TelegramBot.send_message.
    by erewrite bind_run; [|apply post_json_run]. }
  unfold command, commands. rewrite !elem_of_cons, elem_of_nil.
  destruct (String.eqb_spec text "/start"); [split; [tauto|eauto]|].
  destruct (String.eqb_spec text "/about"); [split; [tauto|eauto]|].
  destruct (String.eqb_spec text "/faq"); [split; [tauto|eauto]|].
  destruct (String.eqb_spec text "/disclaimer"); [split; [tauto|eauto]|].
  split; [done|tauto].
Qed.

(** X17: a text that starts with a slash is never searched for.  One of
    the four commands gets one [sendMessage] in reply; any other such
    text, [/help] included, gets nothing at all.  Either way the handler
    returns, the search service is not called and the cache is not
    written. *)
Theorem commands_reply_without_search (self : TelegramBot.TelegramBot)
    (message : Message) (st : State) :
  let text := strip (default "" (message_text message)) in
  let chat_id := JInt (message_chat_id message) in
  starts_with_slash text = true →
  ∃ st',
    handle_message self message st = (Returned tt, st')
    ∧ searched st' = searched st
    ∧ BOT_STATE (world st') = BOT_STATE (world st)
    ∧ (text ∉ commands → st' = st)
    ∧ (text ∈ commands →
       ∃ reply options,
         st' = and_request st (message_request self chat_id reply options)).
Proof.
  intros text chat_id Hslash. unfold handle_message. fold text chat_id.
  rewrite Hslash. unfold on_world.
  destruct (command_run self chat_id text (world st)) as [Hnone Hone].
  destruct (decide (text ∈ commands)) as [Hin|Hout].
  - destruct (Hone Hin) as (reply & options & ->).
    eexists. split; [done|]. split; [done|]. split; [done|].
    split; [done|]. intros _. by exists reply, options.
  - rewrite (Hnone Hout). eexists. split; [done|]. split; [done|].
    split; [done|]. split; [intros _; apply state_eta | done].
Qed.

Lemma typing_run (self : TelegramBot.TelegramBot) chat_id (k : M State unit) st :
  (on_world (Client.send_chat_action self chat_id "typing");; k) st
  = k (and_request st (typing_request self chat_id)).
Proof.
  erewrite on_world_run; [done|].
  unfold Client.send_chat_action. apply post_json_run.
Qed.

Lemma fix_button_button label token :
  TelegramBot.fix_button (Entry.button label token) = Entry.button label token.
Proof.
  apply fix_button_canonical. unfold TelegramBot.canonical_button, Entry.button.
  rewrite !bool_decide_eq_true_2; [done|..]; by simplify_map_eq.
Qed.

(** The payload of the main menu: the keyboard is canonical, so it is
    posted as written. *)
Lemma menu_payload chat_id photo caption media_id :
  TelegramBot.payload_json
    (TelegramBot.with_options
       {| TelegramBot.reply_markup := None;
          TelegramBot.items := <["photo" := photo]> (<["chat_id" := chat_id]> ∅) |}
       (Some (menu_options caption media_id)))
  = JDict
      (<["reply_markup" :=
           TelegramBot.markup_to_json (Entry.keyboard (Entry.main_menu media_id))]>
         (<["caption" := JStr caption]>
            (<["parse_mode" := JStr "Markdown"]>
               (<["photo" := photo]> (<["chat_id" := chat_id]> ∅))))).
Proof.
  unfold TelegramBot.with_options, TelegramBot.payload_json. simpl.
  rewrite !fix_button_button.
  by rewrite <- !insert_union_l, (left_id ∅ (∪)).
Qed.

Lemma send_main_menu_run self chat_id (d : gmap string JSON) w :
  send_main_menu self chat_id (JDict d) w
  = match py_prefix (default (JStr "No summary available.") (d !! "plot")) 800 with
    | Raised e => (Raised e, w)
    | Returned summary =>
        (Returned tt,
         after_request w
           (menu_request self chat_id
              (default (JStr PLACEHOLDER) (d !! "poster_url"))
              (menu_caption (default (JStr "N/A") (d !! "title"))
                 (default (JStr "N/A") (d !! "year")) summary)
              (str_ (default JNull (d !! "media_id")))))
    end.
Proof.
  unfold send_main_menu. cbn [py_get]. rewrite !bind_lift_Returned.
  destruct (py_prefix _ 800) as [summary|e]; [|done].
  rewrite !bind_lift_Returned. unfold send_photo_value.
  erewrite bind_run; [|apply post_json_run].
  unfold menu_request. by rewrite menu_payload.
Qed.

(** Lines 160-170 on a result with an id. *)
Lemma found_run self chat_id response (d : gmap string JSON) media_id st :
  json response = Returned (JDict d) →
  d !! "media_id" = Some media_id →
  truthy media_id = true →
  found self chat_id response st
  = on_world (send_main_menu self chat_id (JDict d))
      (and_put st ("media:" +:+ str_ media_id) (json_dumps (JDict d))).
Proof.
  intros Hjson Hid Htruthy. unfold found.
  rewrite Hjson, bind_lift_Returned. cbn [py_get]. rewrite Hid.
  change (default JNull (Some media_id)) with media_id.
  rewrite bind_lift_Returned, Htruthy. cbn [negb].
  by erewrite on_world_run.
Qed.

Lemma fetch_url_run {C} url (k : Response → M State C) st :
  (fetch_url url ≫= k) st
  = match search (searched st ++ [url]) with
    | Returned response => k response (and_search st url)
    | Raised e => (Raised e, and_search st url)
    end.
Proof. done. Qed.

(** The body of the [try], by its five ways out. *)
Lemma look_up_run self chat_id text st :
  let url := search_url text in
  (∃ reply, look_up self chat_id text st
     = (Returned tt, and_request st (message_request self chat_id reply None))
     ∧ any_digit text = false)
  ∨ (any_digit text = true
     ∧ ((∃ e, look_up self chat_id text st = (Raised e, and_search st url))
        ∨ (∃ reply, look_up self chat_id text st
             = (Returned tt,
                and_request (and_search st url)
                  (message_request self chat_id reply None)))
        ∨ (∃ key value e, look_up self chat_id text st
             = (Raised e, and_put (and_search st url) key value))
        ∨ (∃ key value photo caption media_id, look_up self chat_id text st
             = (Returned tt,
                and_request (and_put (and_search st url) key value)
                  (menu_request self chat_id photo caption media_id))))).
Proof.
  intros url. unfold look_up. destruct (any_digit text).
  2:{ left. eexists. split; [apply reply_run|done]. }
  right. split; [done|]. cbn [negb].
  fold url. rewrite fetch_url_run.
  destruct (search _) as [response|e]; [|left; by eexists].
  destruct (status response =? 200); cbn [negb].
  2:{ right; left. eexists. apply reply_run. }
  unfold found.
  destruct (json response) as [data|e]; [|left; by eexists].
  rewrite bind_lift_Returned.
  destruct data as [| | | | |d]; try (left; by eexists).
  cbn [py_get]. rewrite bind_lift_Returned.
  destruct (truthy _); cbn [negb].
  2:{ right; left. eexists. apply reply_run. }
  erewrite on_world_run by done. unfold on_world.
  rewrite send_main_menu_run. cbn [world searched].
  destruct (py_prefix _ 800) as [summary|e].
  - right; right; right. by do 5 eexists.
  - right; right; left. by do 3 eexists.
Qed.

(** X18: every other text that is not empty gets the typing action and
    then exactly one reply, a message or the photo of the main menu, and
    the handler returns: nothing that the search, the reading of its
    result or the menu raises leaves the handler.  The search service is
    called at most once, and not at all for a text without a digit, for
    which nothing is cached either. *)
Theorem search_replies_once (self : TelegramBot.TelegramBot)
    (message : Message) (st : State) :
  let text := strip (default "" (message_text message)) in
  let chat_id := JInt (message_chat_id message) in
  starts_with_slash text = false →
  text ≠ EmptyString →
  ∃ st' reply,
    handle_message self message st = (Returned tt, st')
    ∧ sent (world st')
      = sent (world st) ++ [typing_request self chat_id; reply]
    ∧ (req_url reply = TelegramBot.api_url self +:+ "/sendMessage"
       ∨ req_url reply = TelegramBot.api_url self +:+ "/sendPhoto")
    ∧ (searched st' = searched st
       ∨ searched st' = searched st ++ [search_url text])
    ∧ (any_digit text = false →
       searched st' = searched st
       ∧ BOT_STATE (world st') = BOT_STATE (world st)).
Proof.
  intros text chat_id Hslash Hne. unfold handle_message. fold text chat_id.
  rewrite Hslash. destruct (String.eqb_spec text ""); [done|].
  rewrite typing_run. unfold try_except.
  set (st1 := and_request st (typing_request self chat_id)).
  destruct (look_up_run self chat_id text st1)
    as [(reply & -> & Hdigit)
       |(Hdigit & [(e & ->)|[(reply & ->)|[(k & v & e & ->)
                  |(k & v & photo & caption & media_id & ->)]]])].
  - eexists _, _. split; [done|]. simpl. rewrite <- app_assoc.
    split; [done|]. split; [by left|]. split; [by left|]. done.
  - unfold on_search_error. rewrite reply_run.
    eexists _, _. split; [done|]. simpl. rewrite <- app_assoc.
    split; [done|]. split; [by left|]. split; [by right|].
    intros H. by rewrite H in Hdigit.
  - eexists _, _. split; [done|]. simpl. rewrite <- app_assoc.
    split; [done|]. split; [by left|]. split; [by right|].
    intros H. by rewrite H in Hdigit.
  - unfold on_search_error. rewrite reply_run.
    eexists _, _. split; [done|]. simpl. rewrite <- app_assoc.
    split; [done|]. split; [by left|]. split; [by right|].
    intros H. by rewrite H in Hdigit.
  - eexists _, _. split; [done|]. simpl. rewrite <- app_assoc.
    split; [done|]. split; [by right|]. split; [by right|].
    intros H. by rewrite H in Hdigit.
Qed.

(** The handler on a result with an id: the state it ends in. *)
Lemma handle_message_found self message st response (d : gmap string JSON)
    media_id :
  let text := strip (default "" (message_text message)) in
  let chat_id := JInt (message_chat_id message) in
  starts_with_slash text = false →
  text ≠ EmptyString →
  any_digit text = true →
  search (searched st ++ [search_url text]) = Returned response →
  status response = 200 →
  json response = Returned (JDict d) →
  d !! "media_id" = Some media_id →
  truthy media_id = true →
  handle_message self message st
  = (Returned tt,
     and_request
       (and_put (and_search (and_request st (typing_request self chat_id))
                   (search_url text))
          ("media:" +:+ str_ media_id) (json_dumps (JDict d)))
       match py_prefix (default (JStr "No summary available.") (d !! "plot")) 800
       with
       | Returned summary =>
           menu_request self chat_id
             (default (JStr PLACEHOLDER) (d !! "poster_url"))
             (menu_caption (default (JStr "N/A") (d !! "title"))
                (default (JStr "N/A") (d !! "year")) summary)
             (str_ media_id)
       | Raised e =>
           message_request self chat_id
             ("An error occurred during the search: " +:+ exc_msg e) None
       end).
Proof.
  intros text chat_id Hslash Hne Hdigit Hsearch Hstatus Hjson Hid Htruthy.
  unfold handle_message. fold text chat_id.
  rewrite Hslash. destruct (String.eqb_spec text ""); [done|].
  rewrite typing_run. unfold try_except, look_up.
  rewrite Hdigit. cbn [negb]. rewrite fetch_url_run.
  cbn [searched and_request]. rewrite Hsearch, Hstatus. cbn [Z.eqb Pos.eqb negb].
  rewrite (found_run _ _ _ d media_id) by done.
  unfold on_world. rewrite send_main_menu_run. rewrite Hid.
  change (default JNull (Some media_id)) with media_id.
  destruct (py_prefix _ 800) as [summary|e]; [done|].
  unfold on_search_error. by rewrite reply_run.
Qed.

(** X19: a result with an id is cached before it is shown.  When the
    service answers 200 with a dict whose [media_id] is truthy, the
    handler stores the dumped result under [media:<media_id>], and then
    posts the main menu: the poster (or the placeholder) under the
    caption, with the three buttons for this id.  A plot that cannot be
    sliced (a [null], a number) turns the menu into the error message,
    the result staying cached. *)
Theorem found_is_cached_then_shown (self : TelegramBot.TelegramBot)
    (message : Message) (st : State) (response : Response)
    (d : gmap string JSON) (media_id : JSON) :
  let text := strip (default "" (message_text message)) in
  let chat_id := JInt (message_chat_id message) in
  starts_with_slash text = false →
  text ≠ EmptyString →
  any_digit text = true →
  search (searched st ++ [search_url text]) = Returned response →
  status response = 200 →
  json response = Returned (JDict d) →
  d !! "media_id" = Some media_id →
  truthy media_id = true →
  ∃ st',
    handle_message self message st = (Returned tt, st')
    ∧ searched st' = searched st ++ [search_url text]
    ∧ BOT_STATE (world st')
      = <["media:" +:+ str_ media_id := json_dumps (JDict d)]>
          (BOT_STATE (world st))
    ∧ sent (world st')
      = sent (world st)
        ++ [ typing_request self chat_id;
             match py_prefix (default (JStr "No summary available.")
                                (d !! "plot")) 800 with
             | Returned summary =>
                 menu_request self chat_id
                   (default (JStr PLACEHOLDER) (d !! "poster_url"))
                   (menu_caption (default (JStr "N/A") (d !! "title"))
                      (default (JStr "N/A") (d !! "year")) summary)
                   (str_ media_id)
             | Raised e =>
                 message_request self chat_id
                   ("An error occurred during the search: " +:+ exc_msg e) None
             end ].
Proof.
  intros text chat_id Hslash Hne Hdigit Hsearch Hstatus Hjson Hid Htruthy.
  eexists. split.
  { by apply (handle_message_found self message st response d media_id). }
  split; [done|]. split; [done|]. simpl. by rewrite <- app_assoc.
Qed.

(** X20: a search and then a press.  After the handler cached a result,
    a press on any button of its main menu finds the session: with a
    [json.loads] that reads back what [json.dumps] wrote, and an id whose
    text holds no colon, [handle_callback] goes to the language list of
    the posters or of the backdrops, or to the details card, with the
    record of the search; it does not answer that the session expired. *)
Theorem search_then_press_finds_session (self : TelegramBot.TelegramBot)
    (message : Message) (st : State) (response : Response)
    (d : gmap string JSON) (media_id : JSON)
    (bot : Entry.Bot) (cb : Entry.CallbackQuery) (b : gmap string JSON)
    (token : string) :
  let text := strip (default "" (message_text message)) in
  let id := str_ media_id in
  starts_with_slash text = false →
  text ≠ EmptyString →
  any_digit text = true →
  search (searched st ++ [search_url text]) = Returned response →
  status response = 200 →
  json response = Returned (JDict d) →
  d !! "media_id" = Some media_id →
  truthy media_id = true →
  json_dumps (JDict d) ≠ EmptyString →
  json_loads (json_dumps (JDict d)) = Returned (JDict d) →
  Tokens.count_sep ":" id = 0%nat →
  b ∈ concat (Entry.main_menu id) →
  b !! "callback_data" = Some (JStr token) →
  Entry.data cb = Some token →
  let w' := world (handle_message self message st).2 in
  (∃ media_type,
     media_type ∈ ["posters"; "backdrops"]
     ∧ Entry.handle_callback bot cb w'
       = Entry.view bot cb ["view"; media_type; id] id (JDict d) w')
  ∨ Entry.handle_callback bot cb w' = Entry.details bot cb id (JDict d) w'.
Proof.
  intros text id Hslash Hne Hdigit Hsearch Hstatus Hjson Hid Htruthy
    Hdumps Hloads Hcolon Hb Htoken Hdata w'.
  assert (BOT_STATE w' !! ("media:" +:+ id) = Some (json_dumps (JDict d))) as Hkv.
  { subst w'.
    rewrite (handle_message_found self message st response d media_id) by done.
    cbn. by rewrite lookup_insert_eq. }
  clearbody w'.
  assert (∀ media_type, Tokens.count_sep ":" media_type = 0%nat →
    token = Tokens.view_token media_type id →
    Entry.handle_callback bot cb w'
    = Entry.view bot cb ["view"; media_type; id] id (JDict d) w') as Hview.
  { intros media_type Hmt ->.
    assert (split ":" (default "" (Entry.data cb)) = ["view"; media_type; id])
      as Hparts.
    { rewrite Hdata. change (default "" (Some ?x)) with x.
      change (Tokens.view_token media_type id)
        with ("view" +:+ String ":" (media_type +:+ String ":" id)).
      rewrite (split_field ":" "view") by done.
      by rewrite (split_field ":" media_type), (split_free ":" id). }
    rewrite (handle_callback_hit bot cb w' "view" id (json_dumps (JDict d))
               (JDict d));
      [|by rewrite Hparts|done|by rewrite Hparts|done..].
    by rewrite Hparts. }
  simpl in Hb. rewrite !elem_of_cons, elem_of_nil in Hb.
  destruct Hb as [->|[->|[->|[]]]]; rewrite button_token in Htoken;
    injection Htoken as <-.
  - left. exists "posters". split; [by left|]. by apply Hview.
  - left. exists "backdrops". split; [right; by left|]. by apply Hview.
  - right.
    assert (split ":" (default "" (Entry.data cb)) = ["details"; id]) as Hparts.
    { rewrite Hdata. change (default "" (Some ?x)) with x.
      change ("details:" +:+ id) with ("details" +:+ String ":" id).
      rewrite (split_field ":" "details") by done.
      by rewrite (split_free ":" id). }
    rewrite (handle_callback_hit bot cb w' "details" id (json_dumps (JDict d))
               (JDict d));
      [|by rewrite Hparts|done|by rewrite Hparts|done..].
    done.
Qed.

End Messages.

Section MessageScenario.
Import Search.

Lemma commands_reply_without_search_witness :
  ∃ st',
    handle_message (RT := Scenario.search_runtime) (SV := Scenario.service)
      Scenario.self (Scenario.says " /help ") Scenario.state
    = (Returned tt, st')
    ∧ searched st' = searched Scenario.state
    ∧ BOT_STATE (world st') = BOT_STATE (world Scenario.state)
    ∧ ("/help" ∉ commands → st' = Scenario.state)
    ∧ ("/help" ∈ commands →
       ∃ reply options,
         st' = and_request Scenario.state
                 (message_request Scenario.self (JInt 7) reply options)).
Proof.
  apply (commands_reply_without_search (RT := Scenario.search_runtime)
           (SV := Scenario.service) Scenario.self (Scenario.says " /help ")
           Scenario.state).
  reflexivity.
Defined.

Lemma search_replies_once_witness :
  ∃ st' reply,
    handle_message (RT := Scenario.search_runtime) (SV := Scenario.service)
      Scenario.self (Scenario.says "Inception") Scenario.state
    = (Returned tt, st')
    ∧ sent (world st')
      = sent (world Scenario.state)
        ++ [typing_request Scenario.self (JInt 7); reply]
    ∧ (req_url reply = TelegramBot.api_url Scenario.self +:+ "/sendMessage"
       ∨ req_url reply = TelegramBot.api_url Scenario.self +:+ "/sendPhoto")
    ∧ (searched st' = searched Scenario.state
       ∨ searched st' = searched Scenario.state ++ [search_url "Inception"])
    ∧ (Scenario.has_digit "Inception" = false →
       searched st' = searched Scenario.state
       ∧ BOT_STATE (world st') = BOT_STATE (world Scenario.state)).
Proof.
  apply (search_replies_once (RT := Scenario.search_runtime)
           (SV := Scenario.service) Scenario.self (Scenario.says "Inception")
           Scenario.state).
  - reflexivity.
  - discriminate.
Defined.

Lemma found_is_cached_then_shown_witness :
  ∃ st',
    handle_message (RT := Scenario.search_runtime) (SV := Scenario.service)
      Scenario.self (Scenario.says "T 1999") Scenario.state
    = (Returned tt, st')
    ∧ searched st' = searched Scenario.state ++ [search_url "T 1999"]
    ∧ BOT_STATE (world st')
      = <["media:" +:+ Scenario.show (JInt 123) :=
            Scenario.dumps (JDict Scenario.found_fields)]>
          (BOT_STATE (world Scenario.state))
    ∧ sent (world st')
      = sent (world Scenario.state)
        ++ [ typing_request Scenario.self (JInt 7);
             match py_prefix (default (JStr "No summary available.")
                                (Scenario.found_fields !! "plot")) 800 with
             | Returned summary =>
                 menu_request Scenario.self (JInt 7)
                   (default (JStr PLACEHOLDER)
                      (Scenario.found_fields !! "poster_url"))
                   (menu_caption (RT := Scenario.search_runtime)
                      (default (JStr "N/A") (Scenario.found_fields !! "title"))
                      (default (JStr "N/A") (Scenario.found_fields !! "year"))
                      summary)
                   (Scenario.show (JInt 123))
             | Raised e =>
                 message_request Scenario.self (JInt 7)
                   ("An error occurred during the search: " +:+ exc_msg e) None
             end ].
Proof.
  apply (found_is_cached_then_shown (RT := Scenario.search_runtime)
           (SV := Scenario.service) Scenario.self (Scenario.says "T 1999")
           Scenario.state
           {| status := 200; json := Returned (JDict Scenario.found_fields) |}
           Scenario.found_fields (JInt 123)).
  - reflexivity.
  - discriminate.
  - reflexivity.
  - reflexivity.
  - reflexivity.
  - reflexivity.
  - vm_compute. reflexivity.
  - reflexivity.
Defined.

Lemma search_then_press_finds_session_witness :
  (∃ media_type,
     media_type ∈ ["posters"; "backdrops"]
     ∧ Entry.handle_callback (RT := Scenario.search_runtime)
         (Entry.telegram_bot Scenario.self)
         (Scenario.press "details:123")
         (world (handle_message (RT := Scenario.search_runtime)
                   (SV := Scenario.service) Scenario.self
                   (Scenario.says "T 1999") Scenario.state).2)
       = Entry.view (RT := Scenario.search_runtime)
           (Entry.telegram_bot Scenario.self)
           (Scenario.press "details:123") ["view"; media_type; "123"] "123"
           (JDict Scenario.found_fields)
           (world (handle_message (RT := Scenario.search_runtime)
                     (SV := Scenario.service) Scenario.self
                     (Scenario.says "T 1999") Scenario.state).2))
  ∨ Entry.handle_callback (RT := Scenario.search_runtime)
         (Entry.telegram_bot Scenario.self)
      (Scenario.press "details:123")
      (world (handle_message (RT := Scenario.search_runtime)
                (SV := Scenario.service) Scenario.self
                (Scenario.says "T 1999") Scenario.state).2)
    = Entry.details (RT := Scenario.search_runtime)
        (Entry.telegram_bot Scenario.self)
        (Scenario.press "details:123") "123" (JDict Scenario.found_fields)
        (world (handle_message (RT := Scenario.search_runtime)
                  (SV := Scenario.service) Scenario.self
                  (Scenario.says "T 1999") Scenario.state).2).
Proof.
  apply (search_then_press_finds_session (RT := Scenario.search_runtime)
           (SV := Scenario.service) Scenario.self (Scenario.says "T 1999")
           Scenario.state
           {| status := 200; json := Returned (JDict Scenario.found_fields) |}
           Scenario.found_fields (JInt 123) (Entry.telegram_bot Scenario.self)
           (Scenario.press "details:123")
           (Entry.button "ℹ️ Full Details" "details:123") "details:123").
  - reflexivity.
  - discriminate.
  - reflexivity.
  - reflexivity.
  - reflexivity.
  - reflexivity.
  - vm_compute. reflexivity.
  - reflexivity.
  - discriminate.
  - vm_compute. reflexivity.
  - reflexivity.
  - simpl. apply list_elem_of_further, list_elem_of_further.
    apply list_elem_of_here.
  - vm_compute. reflexivity.
  - reflexivity.
Defined.

End MessageScenario.

(* ===================================================================== *)
(** * The entry point                                                     *)
(* ===================================================================== *)
Section EntryPoint.
Import Worker.
Context `{RT : Runtime}.
Variable dumps_indent : JSON → string.
Variable handle_update : JSON → M World unit.

Lemma post_run request w : post handle_update request w = (Returned tt, w).
Proof.
  unfold post, try_except.
  destruct (request_json request) as [update|e]; [|done].
  by rewrite bind_lift_Returned.
Qed.

(** X21: a POST, the delivery of an update, is never dispatched.  The
    call of line 270 hands two arguments to [handle_update], which is
    defined with one, so [TypeError] is raised before the method runs and
    the except clause swallows it: whatever the update is and whatever
    the dispatcher would do with it, no handler runs, no request is made,
    the cache is as before, and the answer is the 404 of the last line. *)
Theorem post_is_never_dispatched (BOT_TOKEN : string) (request : HttpRequest)
    (w : World) :
  http_method request = "POST" →
  Worker.fetch dumps_indent handle_update BOT_TOKEN request w
  = (Returned not_found, w).
Proof.
  intros Hpost. unfold Worker.fetch. rewrite Hpost. cbn [String.eqb Ascii.eqb Bool.eqb].
  cbn zeta. by erewrite bind_run; [|apply post_run].
Qed.

(** The two requests of the route [/]. *)
Lemma set_up_run self request w :
  let commands_request :=
    TelegramBot.api_request self "setMyCommands" "application/json"
      (JsonBody (JDict (<["commands" := JList registered_commands]> ∅))) in
  let webhook_request :=
    TelegramBot.api_request self "setWebhook" "application/json"
      (JsonBody (JDict (<["drop_pending_updates" := JBool true]>
                          (<["url" := JStr (webhook_url request)]> ∅)))) in
  let result :=
    TelegramBot.api_result
      (net w (sent w ++ [commands_request; webhook_request])) in
  set_up self request w
  = ((ok ← lift (py_get result "ok" JNull);
      if truthy ok then
        mret {| reply_body := "✅ Webhook set successfully to "
                              +:+ webhook_url request
                              +:+ nl +:+ "🤖 Bot commands updated.";
                reply_status := 200; reply_headers := ∅ |}
      else
        description ← lift (py_get result "description" JNull);
        mret {| reply_body := "❌ Failed to set webhook: " +:+ str_ description;
                reply_status := 500; reply_headers := ∅ |})
       (after_request (after_request w commands_request) webhook_request)).
Proof.
  intros commands_request webhook_request result. unfold set_up.
  unfold Client.set_my_commands, Client.set_webhook.
  erewrite bind_run; [|apply post_json_run].
  erewrite bind_run; [|apply post_json_run].
  cbn [sent after_request]. rewrite <- app_assoc.
  subst result commands_request webhook_request.
  unfold TelegramBot.payload_json, TelegramBot.update, TelegramBot.or_empty,
    Client.literal, drop_pending. simpl.
  rewrite !bool_decide_eq_false_2 by apply insert_non_empty. simpl.
  rewrite <- insert_union_l. by rewrite !(left_id ∅ (∪)).
Qed.


Lemma tear_down_run self w :
  let request :=
    TelegramBot.api_request self "deleteWebhook" "application/json"
      (JsonBody (JDict ∅)) in
  let result := TelegramBot.api_result (net w (sent w ++ [request])) in
  tear_down self w
  = ((ok ← lift (py_get result "ok" JNull);
      if truthy ok then
        mret {| reply_body := "✅ Webhook deleted successfully!";
                reply_status := 200; reply_headers := ∅ |}
      else
        description ← lift (py_get result "description" (JStr "Unknown error"));
        mret {| reply_body := "❌ Failed to delete webhook. Reason: "
                              +:+ str_ description;
                reply_status := 500; reply_headers := ∅ |})
       (after_request w request)).
Proof.
  simpl. unfold tear_down, Client.delete_webhook.
  by erewrite bind_run; [|apply post_json_run].
Qed.

Lemma report_run self w :
  let request :=
    TelegramBot.api_request self "getWebhookInfo" "application/json"
      (JsonBody (JDict ∅)) in
  report dumps_indent self w
  = (Returned {| reply_body :=
                   dumps_indent
                     (TelegramBot.api_result (net w (sent w ++ [request])));
                 reply_status := 200;
                 reply_headers := <["Content-Type" := "application/json"]> ∅ |},
     after_request w request).
Proof.
  simpl. unfold report.
  by erewrite bind_run; [|apply post_json_run].
Qed.

(** X23: what [fetch] does at most.  For every request it makes no more
    than two requests of its own, each a POST to one of [setMyCommands],
    [setWebhook], [deleteWebhook] and [getWebhookInfo] (so it never sends
    a message), and it leaves the cache as it was.  When it returns, the
    status is 200, 404 or 500, and it is the 404 whenever no request was
    made; the only exception that leaves it is the [AttributeError] of
    [result.get] on a result that is not a dict. *)
Theorem fetch_makes_webhook_calls_only (BOT_TOKEN : string)
    (request : HttpRequest) (w : World) :
  let bot := {| TelegramBot.token := BOT_TOKEN |} in
  ∃ outcome requests,
    Worker.fetch dumps_indent handle_update BOT_TOKEN request w
    = (outcome, foldl after_request w requests)
    ∧ (length requests ≤ 2)%nat
    ∧ Forall
        (λ r, req_method r = "POST"
              ∧ ∃ method,
                  method ∈ ["setMyCommands"; "setWebhook"; "deleteWebhook";
                            "getWebhookInfo"]
                  ∧ req_url r = TelegramBot.api_url bot +:+ "/" +:+ method)
        requests
    ∧ BOT_STATE (foldl after_request w requests) = BOT_STATE w
    ∧ (requests = [] → outcome = Returned not_found)
    ∧ match outcome with
      | Returned response => reply_status response ∈ [200; 404; 500]
      | Raised e => exc_class e = "AttributeError"
      end.
Proof.
  intros bot.
  assert (∀ w0 : World, foldl after_request w0 [] = w0) as Hnone by done.
  assert (∃ outcome requests,
    (Returned not_found, w) = (outcome, foldl after_request w requests)
    ∧ (length requests ≤ 2)%nat
    ∧ Forall
        (λ r, req_method r = "POST"
              ∧ ∃ method,
                  method ∈ ["setMyCommands"; "setWebhook"; "deleteWebhook";
                            "getWebhookInfo"]
                  ∧ req_url r = TelegramBot.api_url bot +:+ "/" +:+ method)
        requests
    ∧ BOT_STATE (foldl after_request w requests) = BOT_STATE w
    ∧ (requests = [] → outcome = Returned not_found)
    ∧ match outcome with
      | Returned response => reply_status response ∈ [200; 404; 500]
      | Raised e => exc_class e = "AttributeError"
      end) as Hquiet.
  { exists (Returned not_found), []. split; [done|]. split; [simpl; lia|].
    split; [constructor|]. split; [done|]. split; [done|].
    right. by left. }
  unfold Worker.fetch. cbn zeta. fold bot.
  destruct (String.eqb_spec (http_method request) "POST").
  { erewrite bind_run; [|apply post_run]. exact Hquiet. }
  destruct (String.eqb (http_method request) "GET"); [|exact Hquiet].
  destruct (String.eqb (pathname request) "/").
  { rewrite set_up_run.
    match goal with
    | |- context [foldl after_request w _] => idtac
    end.
    match goal with
    | |- ∃ _ _, ?c (after_request (after_request w ?r1) ?r2) = _ ∧ _ =>
        assert (∃ outcome,
          c (after_request (after_request w r1) r2)
          = (outcome, after_request (after_request w r1) r2)
          ∧ match outcome with
            | Returned response => reply_status response ∈ [200; 404; 500]
            | Raised e => exc_class e = "AttributeError"
            end) as (outcome & -> & Hout);
        [|exists outcome, [r1; r2]]
    end.
    { destruct (TelegramBot.api_result _) as [| | | | |d];
        try (eexists; split; [reflexivity|done]).
      cbn [py_get]. rewrite bind_lift_Returned.
      destruct (truthy _).
      - eexists. split; [reflexivity|]. by left.
      - rewrite bind_lift_Returned. eexists. split; [reflexivity|].
        right. right. by left. }
    split; [done|]. split; [done|]. split.
    { repeat constructor.
      - exists "setMyCommands". split; [by left|done].
      - exists "setWebhook". split; [right; by left|done]. }
    split; [done|]. split; [done|]. exact Hout. }
  destruct (String.eqb (pathname request) "/delete").
  { rewrite tear_down_run.
    match goal with
    | |- ∃ _ _, ?c (after_request w ?r1) = _ ∧ _ =>
        assert (∃ outcome,
          c (after_request w r1) = (outcome, after_request w r1)
          ∧ match outcome with
            | Returned response => reply_status response ∈ [200; 404; 500]
            | Raised e => exc_class e = "AttributeError"
            end) as (outcome & -> & Hout);
        [|exists outcome, [r1]]
    end.
    { destruct (TelegramBot.api_result _) as [| | | | |d];
        try (eexists; split; [reflexivity|done]).
      cbn [py_get]. rewrite bind_lift_Returned.
      destruct (truthy _).
      - eexists. split; [reflexivity|]. by left.
      - rewrite bind_lift_Returned. eexists. split; [reflexivity|].
        right. right. by left. }
    split; [done|]. split; [simpl; lia|]. split.
    { repeat constructor.
      exists "deleteWebhook". split; [right; right; by left|done]. }
    split; [done|]. split; [done|]. exact Hout. }
  destruct (String.eqb (pathname request) "/status"); [|exact Hquiet].
  rewrite report_run. eexists _, [_]. split; [reflexivity|].
  split; [simpl; lia|]. split.
  { repeat constructor.
    exists "getWebhookInfo". split; [right; right; right; by left|done]. }
  split; [done|]. split; [done|]. by left.
Qed.

End EntryPoint.

Section EntryPointScenario.
Import Worker.

Lemma post_is_never_dispatched_witness :
  Worker.fetch (RT := Scenario.runtime) Scenario.dumps Scenario.echo "TOKEN"
    Scenario.delivery Scenario.world
  = (Returned not_found, Scenario.world).
Proof.
  apply (post_is_never_dispatched (RT := Scenario.runtime) Scenario.dumps
           Scenario.echo "TOKEN" Scenario.delivery Scenario.world).
  reflexivity.
Defined.


End EntryPointScenario.
